(** * Task-performance report: the record-joining and time-derivation engine

    A shallow embedding of the JavaScript sources
      - src/utils/dateUtils.js       (module [DateUtils])
      - src/parsers/jsonParser.js    (module [JsonParser])
      - src/processors/taskProcessor.js (module [TaskProcessor])
    together with the parts of the JavaScript run time (Date, Map, Set,
    String) and of the moment library they call.

    Conventions.  A JavaScript value of type [T | null] is an [option T];
    a function that can throw returns an [option] whose [None] is the
    exception.  Time values are integers (milliseconds since the epoch). *)

From Stdlib Require Import ZArith List String Ascii Bool Lia.
Import ListNotations.

Local Open Scope string_scope.
Local Open Scope Z_scope.

(** Sequencing of computations that may fail. *)
Notation "x <- a ;; b" :=
  (match a with Some x => b | None => None end)
  (at level 61, a at next level, right associativity).
Notation "' p <- a ;; b" :=
  (match a with Some p => b | None => None end)
  (at level 61, p pattern, a at next level, right associativity).

(* ================================================================== *)
(** * Part I: definitions *)
(* ================================================================== *)

(** ** JavaScript strings

    A string of this development stands for a JavaScript string all of whose
    UTF-16 code units are below 256: each [ascii] is one code unit (it is not
    a byte of a UTF-8 encoding).  The classes of characters below are those
    of ECMAScript cut to these units, and every statement about strings is a
    statement about such strings: text with a character from U+0100 on is
    outside it. *)

Module JsString.

Definition is_digit (c : ascii) : bool :=
  let n := nat_of_ascii c in (Nat.leb 48 n && Nat.leb n 57)%bool.

Definition digit_val (c : ascii) : Z := Z.of_nat (nat_of_ascii c) - 48.

Definition digit_char (d : Z) : ascii := ascii_of_nat (Z.to_nat (48 + d)).

(** [\d{n}] anchored at the head of [s]: the number read and the rest. *)
Fixpoint read_digits (n : nat) (acc : Z) (s : string) : option (Z * string) :=
  match n with
  | O => Some (acc, s)
  | S n' =>
      match s with
      | String c s' =>
          if is_digit c then read_digits n' (10 * acc + digit_val c) s' else None
      | EmptyString => None
      end
  end.

(** A literal prefix: [Some rest] when [s = p ++ rest]. *)
Fixpoint strip_prefix (p s : string) : option string :=
  match p with
  | EmptyString => Some s
  | String a p' =>
      match s with
      | String b s' => if Ascii.eqb a b then strip_prefix p' s' else None
      | EmptyString => None
      end
  end.

(** Line terminators, which [.] of a regular expression does not match: of
    U+000A, U+000D, U+2028 and U+2029 the two that are below 256.  A string
    of this development cannot hold the other two. *)
Definition is_line_terminator (c : ascii) : bool :=
  let n := nat_of_ascii c in (Nat.eqb n 10 || Nat.eqb n 13)%bool.

(** White space removed by [String.prototype.trim]: of the white space and
    line terminators of ECMAScript the seven code units below 256 (tab, LF,
    VT, FF, CR, space and U+00A0, the unit 160).  U+1680, U+2000 to U+200A,
    U+2028, U+2029, U+202F, U+205F, U+3000 and U+FEFF are white space too,
    and a string of this development cannot hold them. *)
Definition is_white_space (c : ascii) : bool :=
  let n := nat_of_ascii c in
  (Nat.eqb n 9 || Nat.eqb n 10 || Nat.eqb n 11 || Nat.eqb n 12 || Nat.eqb n 13
   || Nat.eqb n 32 || Nat.eqb n 160)%bool.

Fixpoint trim_start (s : string) : string :=
  match s with
  | String c s' => if is_white_space c then trim_start s' else s
  | EmptyString => EmptyString
  end.

(** [trim_end s]: [s] without its trailing white space. *)
Fixpoint trim_end (s : string) : string :=
  match s with
  | EmptyString => EmptyString
  | String c s' =>
      match trim_end s' with
      | EmptyString => if is_white_space c then EmptyString else String c EmptyString
      | t => String c t
      end
  end.

Definition trim (s : string) : string := trim_end (trim_start s).

(** Truthiness of a string: every string but the empty one. *)
Definition truthy (s : string) : bool := negb (String.eqb s "").

(** Truthiness of a [string | null | undefined] value. *)
Definition truthy_opt (o : option string) : bool :=
  match o with
  | Some s => truthy s
  | None => false
  end.

End JsString.

(** ** JavaScript Date *)

Module JsDate.
Import JsString.

(** A Date object holds a time value: an integer number of milliseconds
    since 1970-01-01T00:00:00Z, or NaN (an "Invalid Date"). *)
Inductive Date : Type :=
  | InvalidDate
  | TimeValue (t : Z).

Definition isValidDate (d : Date) : bool :=
  match d with
  | TimeValue _ => true
  | InvalidDate => false
  end.

Definition msPerSecond : Z := 1000.
Definition msPerMinute : Z := 60000.
Definition msPerHour : Z := 3600000.
Definition msPerDay : Z := 86400000.

Definition Day (t : Z) : Z := t / msPerDay.
Definition TimeWithinDay (t : Z) : Z := t mod msPerDay.
Definition HourFromTime (t : Z) : Z := (t / msPerHour) mod 24.
Definition MinFromTime (t : Z) : Z := (t / msPerMinute) mod 60.
Definition SecFromTime (t : Z) : Z := (t / msPerSecond) mod 60.
Definition msFromTime (t : Z) : Z := t mod msPerSecond.

(** The proleptic Gregorian calendar: the civil date (year, month 1..12,
    day of month) of a day number counted from 1970-01-01, computed over
    400-year eras that start on 1 March. *)
Definition civil_from_days (z0 : Z) : Z * Z * Z :=
  let z := z0 + 719468 in
  let era := z / 146097 in
  let doe := z mod 146097 in
  let yoe := (doe - doe / 1460 + doe / 36524 - doe / 146096) / 365 in
  let doy := doe - (365 * yoe + yoe / 4 - yoe / 100) in
  let mp := (5 * doy + 2) / 153 in
  let d := doy - (153 * mp + 2) / 5 + 1 in
  let m := if mp <? 10 then mp + 3 else mp - 9 in
  let y := yoe + era * 400 + (if m <=? 2 then 1 else 0) in
  (y, m, d).

(** The day number of a civil date (month 1..12). *)
Definition days_from_civil (y m d : Z) : Z :=
  let y' := if m <=? 2 then y - 1 else y in
  let era := y' / 400 in
  let yoe := y' mod 400 in
  let mp := if 2 <? m then m - 3 else m + 9 in
  let doy := (153 * mp + 2) / 5 + d - 1 in
  let doe := yoe * 365 + yoe / 4 - yoe / 100 + doy in
  era * 146097 + doe - 719468.

Definition YearFromTime (t : Z) : Z := fst (fst (civil_from_days (Day t))).
(** Months count from 0 in a Date. *)
Definition MonthFromTime (t : Z) : Z := snd (fst (civil_from_days (Day t))) - 1.
Definition DateFromTime (t : Z) : Z := snd (civil_from_days (Day t)).

Definition MakeTime (h m s ms : Z) : Z :=
  h * msPerHour + m * msPerMinute + s * msPerSecond + ms.

(** [MakeDay year month date] with [month] counted from 0; a month outside
    0..11 carries into the year. *)
Definition MakeDay (year month date : Z) : Z :=
  days_from_civil (year + month / 12) (month mod 12 + 1) 1 + date - 1.

Definition MakeDate (day time : Z) : Z := day * msPerDay + time.

(** Time values lie within 100,000,000 days of the epoch. *)
Definition TimeClip (t : Z) : Date :=
  if Z.abs t <=? 8640000000000000 then TimeValue t else InvalidDate.

Definition isLeapYear (y : Z) : bool :=
  ((y mod 4 =? 0) && negb (y mod 100 =? 0)) || (y mod 400 =? 0).

(** Days in month [m] (counted from 0, within 0..11) of year [y]. *)
Definition daysInMonth (y m : Z) : Z :=
  if m =? 1 then (if isLeapYear y then 29 else 28)
  else 31 - (m mod 7) mod 2.

(** Decimal digits, zero padded. *)
Definition pad2 (v : Z) : string :=
  String (digit_char (v / 10 mod 10)) (String (digit_char (v mod 10)) "").

Definition pad3 (v : Z) : string :=
  String (digit_char (v / 100 mod 10)) (pad2 v).

Definition pad4 (v : Z) : string :=
  String (digit_char (v / 1000 mod 10)) (pad3 v).

Definition pad6 (v : Z) : string :=
  String (digit_char (v / 100000 mod 10))
    (String (digit_char (v / 10000 mod 10)) (pad4 v)).

(** The year of an ISO string: four digits for 0..9999, else a sign and six
    digits. *)
Definition isoYear (y : Z) : string :=
  if (0 <=? y) && (y <=? 9999) then pad4 y
  else if 0 <=? y then String "+" (pad6 y)
  else String "-" (pad6 (- y)).

(** [Date.prototype.toISOString] of a valid time value:
    YYYY-MM-DDTHH:mm:ss.sssZ, always in UTC. *)
Definition isoStringOfTime (t : Z) : string :=
  isoYear (YearFromTime t) ++ "-" ++ pad2 (MonthFromTime t + 1) ++ "-"
    ++ pad2 (DateFromTime t) ++ "T" ++ pad2 (HourFromTime t) ++ ":"
    ++ pad2 (MinFromTime t) ++ ":" ++ pad2 (SecFromTime t) ++ "."
    ++ pad3 (msFromTime t) ++ "Z".

(** [toISOString] throws a RangeError on an Invalid Date. *)
Definition toISOString (d : Date) : option string :=
  match d with
  | TimeValue t => Some (isoStringOfTime t)
  | InvalidDate => None
  end.

(** *** Date.parse

    [new Date(string)] reads the string with [Date.parse].  The shape that
    [toISOString] writes (a four-digit year, or a sign and six digits, then
    -MM-DDTHH:mm:ss.sssZ) is read here when its elements are in range.
    Every other string is left to the host: shorter ISO forms, offsets, the
    formats of the engine's own, and elements out of range (engines differ
    on a 30 February). *)

Definition iso_fields_valid (y mo d h mi s : Z) : bool :=
  (1 <=? mo) && (mo <=? 12) && (1 <=? d) && (d <=? daysInMonth y (mo - 1))
  && (h <=? 24) && (mi <=? 59) && (s <=? 59).

Definition parse_iso_after_year (y : Z) (s0 : string) : option Date :=
  s1 <- strip_prefix "-" s0 ;;
  '(mo, s2) <- read_digits 2 0 s1 ;;
  s3 <- strip_prefix "-" s2 ;;
  '(d, s4) <- read_digits 2 0 s3 ;;
  s5 <- strip_prefix "T" s4 ;;
  '(h, s6) <- read_digits 2 0 s5 ;;
  s7 <- strip_prefix ":" s6 ;;
  '(mi, s8) <- read_digits 2 0 s7 ;;
  s9 <- strip_prefix ":" s8 ;;
  '(sec, s10) <- read_digits 2 0 s9 ;;
  s11 <- strip_prefix "." s10 ;;
  '(ms, s12) <- read_digits 3 0 s11 ;;
  s13 <- strip_prefix "Z" s12 ;;
  match s13 with
  | EmptyString =>
      if iso_fields_valid y mo d h mi sec
         && ((h <? 24) || ((mi =? 0) && (sec =? 0) && (ms =? 0)))
      then Some (TimeClip (MakeDate (MakeDay y (mo - 1) d) (MakeTime h mi sec ms)))
      else None
  | String _ _ => None
  end.

Definition parse_iso_utc (s : string) : option Date :=
  match s with
  | String "+" s' =>
      '(y, r) <- read_digits 6 0 s' ;; parse_iso_after_year y r
  | String "-" s' =>
      '(y, r) <- read_digits 6 0 s' ;;
      if y =? 0 then None else parse_iso_after_year (- y) r
  | _ =>
      '(y, r) <- read_digits 4 0 s ;; parse_iso_after_year y r
  end.

End JsDate.

(** ** The host

    What the program takes from the machine it runs on and from its
    libraries without the sources saying what it is. *)

Record Host : Type := {
  (** The local time zone: the offset, in milliseconds, of local time from
      UTC at the local time value [t], so that the instant of the local time
      [t] is [t - localTZA t]. *)
  localTZA : Z -> Z;
  (** [Date.parse] on a string that is not of the shape [toISOString]
      writes. *)
  dateParseOther : string -> JsDate.Date;
  (** [moment(string)] without a format: moment's own search through the ISO
      8601 and RFC 2822 forms, then [new Date(string)]. *)
  momentLenient : string -> JsDate.Date
}.

(** [new Date(string)]. *)
Definition newDate (host : Host) (s : string) : JsDate.Date :=
  match JsDate.parse_iso_utc s with
  | Some d => d
  | None => dateParseOther host s
  end.

(** ** moment, strict parsing with a format

    [moment(string, format, true)] as moment 2.30 does it (earlier versions
    let the tokens M, D and H take a leading zero).  The format is cut into
    tokens; each token's pattern is matched where the previous one stopped (a
    match further on leaves characters unparsed, which strict mode refuses,
    as it refuses a token without a match and characters left at the end);
    the fields read must not overflow.  Without an offset token the fields
    are local time. *)

Module Moment.
Import JsString JsDate.

Inductive token : Type :=
  | tM | tD | tMM | tDD | tYYYY | tH | tHH | tmm | tss | tSSS
  | tA       (* AM / PM *)
  | tZ       (* offset from UTC, or Z *)
  | Lit (s : string).  (* any other text of the format, [..] escapes included *)

(** The fields read so far (moment's [config._a], [_meridiem], [_tzm]). *)
Record config : Type := {
  cYear : Z; cMonth : Z; cDate : Z;
  cHour : Z; cMinute : Z; cSecond : Z; cMillisecond : Z;
  cIsPM : option bool;
  cTzm : option Z
}.

(** Time fields default to zero; the four formats of this program always
    name the year, the month and the day. *)
Definition config0 : config :=
  {| cYear := 0; cMonth := 0; cDate := 1;
     cHour := 0; cMinute := 0; cSecond := 0; cMillisecond := 0;
     cIsPM := None; cTzm := None |}.

Definition is_nonzero_digit (c : ascii) : bool :=
  is_digit c && negb (Ascii.eqb c "0").

(** [^[1-9]\d?] : one or two digits, the first not 0. *)
Definition read_1to2_no_leading_zero (s : string) : option (Z * string) :=
  match s with
  | String c1 s1 =>
      if is_nonzero_digit c1 then
        match s1 with
        | String c2 s2 =>
            if is_digit c2 then Some (10 * digit_val c1 + digit_val c2, s2)
            else Some (digit_val c1, s1)
        | EmptyString => Some (digit_val c1, s1)
        end
      else None
  | EmptyString => None
  end.

(** [^([1-9]\d|\d)] : two digits not starting with 0, else one digit. *)
Definition read_1to2_has_zero (s : string) : option (Z * string) :=
  match s with
  | String c1 s1 =>
      if is_digit c1 then
        match s1 with
        | String c2 s2 =>
            if is_nonzero_digit c1 && is_digit c2
            then Some (10 * digit_val c1 + digit_val c2, s2)
            else Some (digit_val c1, s1)
        | EmptyString => Some (digit_val c1, s1)
        end
      else None
  | EmptyString => None
  end.

Definition eqb_ci (c : ascii) (lower upper : ascii) : bool :=
  Ascii.eqb c lower || Ascii.eqb c upper.

Definition skip_optional (p : ascii -> bool) (s : string) : string :=
  match s with
  | String c s' => if p c then s' else s
  | EmptyString => s
  end.

(** [[ap]\.?m?\.?] without regard to case: [true] for PM. *)
Definition read_meridiem (s : string) : option (bool * string) :=
  match s with
  | String c s1 =>
      if eqb_ci c "a" "A" || eqb_ci c "p" "P" then
        let s2 := skip_optional (fun x => Ascii.eqb x ".") s1 in
        let s3 := skip_optional (fun x => eqb_ci x "m" "M") s2 in
        let s4 := skip_optional (fun x => Ascii.eqb x ".") s3 in
        Some (eqb_ci c "p" "P", s4)
      else None
  | EmptyString => None
  end.

(** [Z|[+-]\d\d(?::?\d\d)?] without regard to case: the offset in
    minutes.  This is the pattern of moment 2.30, which takes any two digits
    for the hours and for the minutes; the repository does not say which
    version of moment it runs with, and another version may refuse an offset
    that no time zone has (fifteen hours, sixty minutes).  The statements
    use it for Z and for offsets of less than twelve hours only. *)
Definition read_offset (s : string) : option (Z * string) :=
  match s with
  | String c s1 =>
      if eqb_ci c "z" "Z" then Some (0, s1)
      else if Ascii.eqb c "+" || Ascii.eqb c "-" then
        '(hh, s2) <- read_digits 2 0 s1 ;;
        let '(mins, s4) :=
          match read_digits 2 0 (skip_optional (fun x => Ascii.eqb x ":") s2) with
          | Some r => r
          | None => (0, s2)
          end in
        let minutes := hh * 60 + mins in
        Some (if Ascii.eqb c "+" then minutes else - minutes, s4)
      else None
  | EmptyString => None
  end.

Definition read_token (t : token) (c : config) (s : string)
  : option (config * string) :=
  let upd (r : option (Z * string)) (f : Z -> config) :=
    '(v, s') <- r ;; Some (f v, s') in
  match t with
  | tM =>
      upd (read_1to2_no_leading_zero s) (fun v =>
        {| cYear := cYear c; cMonth := v - 1; cDate := cDate c; cHour := cHour c;
           cMinute := cMinute c; cSecond := cSecond c;
           cMillisecond := cMillisecond c; cIsPM := cIsPM c; cTzm := cTzm c |})
  | tMM =>
      upd (read_digits 2 0 s) (fun v =>
        {| cYear := cYear c; cMonth := v - 1; cDate := cDate c; cHour := cHour c;
           cMinute := cMinute c; cSecond := cSecond c;
           cMillisecond := cMillisecond c; cIsPM := cIsPM c; cTzm := cTzm c |})
  | tD =>
      upd (read_1to2_no_leading_zero s) (fun v =>
        {| cYear := cYear c; cMonth := cMonth c; cDate := v; cHour := cHour c;
           cMinute := cMinute c; cSecond := cSecond c;
           cMillisecond := cMillisecond c; cIsPM := cIsPM c; cTzm := cTzm c |})
  | tDD =>
      upd (read_digits 2 0 s) (fun v =>
        {| cYear := cYear c; cMonth := cMonth c; cDate := v; cHour := cHour c;
           cMinute := cMinute c; cSecond := cSecond c;
           cMillisecond := cMillisecond c; cIsPM := cIsPM c; cTzm := cTzm c |})
  | tYYYY =>
      upd (read_digits 4 0 s) (fun v =>
        {| cYear := v; cMonth := cMonth c; cDate := cDate c; cHour := cHour c;
           cMinute := cMinute c; cSecond := cSecond c;
           cMillisecond := cMillisecond c; cIsPM := cIsPM c; cTzm := cTzm c |})
  | tH =>
      upd (read_1to2_has_zero s) (fun v =>
        {| cYear := cYear c; cMonth := cMonth c; cDate := cDate c; cHour := v;
           cMinute := cMinute c; cSecond := cSecond c;
           cMillisecond := cMillisecond c; cIsPM := cIsPM c; cTzm := cTzm c |})
  | tHH =>
      upd (read_digits 2 0 s) (fun v =>
        {| cYear := cYear c; cMonth := cMonth c; cDate := cDate c; cHour := v;
           cMinute := cMinute c; cSecond := cSecond c;
           cMillisecond := cMillisecond c; cIsPM := cIsPM c; cTzm := cTzm c |})
  | tmm =>
      upd (read_digits 2 0 s) (fun v =>
        {| cYear := cYear c; cMonth := cMonth c; cDate := cDate c; cHour := cHour c;
           cMinute := v; cSecond := cSecond c;
           cMillisecond := cMillisecond c; cIsPM := cIsPM c; cTzm := cTzm c |})
  | tss =>
      upd (read_digits 2 0 s) (fun v =>
        {| cYear := cYear c; cMonth := cMonth c; cDate := cDate c; cHour := cHour c;
           cMinute := cMinute c; cSecond := v;
           cMillisecond := cMillisecond c; cIsPM := cIsPM c; cTzm := cTzm c |})
  | tSSS =>
      upd (read_digits 3 0 s) (fun v =>
        {| cYear := cYear c; cMonth := cMonth c; cDate := cDate c; cHour := cHour c;
           cMinute := cMinute c; cSecond := cSecond c;
           cMillisecond := v; cIsPM := cIsPM c; cTzm := cTzm c |})
  | tA =>
      '(pm, s') <- read_meridiem s ;;
      Some ({| cYear := cYear c; cMonth := cMonth c; cDate := cDate c;
               cHour := cHour c; cMinute := cMinute c; cSecond := cSecond c;
               cMillisecond := cMillisecond c; cIsPM := Some pm;
               cTzm := cTzm c |}, s')
  | tZ =>
      upd (read_offset s) (fun v =>
        {| cYear := cYear c; cMonth := cMonth c; cDate := cDate c; cHour := cHour c;
           cMinute := cMinute c; cSecond := cSecond c;
           cMillisecond := cMillisecond c; cIsPM := cIsPM c; cTzm := Some v |})
  | Lit l =>
      s' <- strip_prefix l s ;; Some (c, s')
  end.

(** All tokens in turn; nothing may be left of the string. *)
Fixpoint read_tokens (f : list token) (c : config) (s : string) : option config :=
  match f with
  | [] => match s with EmptyString => Some c | String _ _ => None end
  | t :: f' => '(c', s') <- read_token t c s ;; read_tokens f' c' s'
  end.

(** [meridiemFixWrap]: PM adds twelve hours below 12, 12 AM is hour 0. *)
Definition meridiemFixWrap (hour : Z) (meridiem : option bool) : Z :=
  match meridiem with
  | None => hour
  | Some isPm =>
      if isPm && (hour <? 12) then hour + 12
      else if negb isPm && (hour =? 12) then 0
      else hour
  end.

(** [checkOverflow] finds no field out of range; 24:00:00.000 is in range. *)
Definition no_overflow (y mo d h mi s ms : Z) : bool :=
  (0 <=? mo) && (mo <=? 11)
  && (1 <=? d) && (d <=? daysInMonth y mo)
  && (0 <=? h) && (h <=? 24)
  && ((h <? 24) || ((mi =? 0) && (s =? 0) && (ms =? 0)))
  && (0 <=? mi) && (mi <=? 59)
  && (0 <=? s) && (s <=? 59)
  && (0 <=? ms) && (ms <=? 999).

Section WithHost.
Context (host : Host).

(** The instant of the fields read: with an offset they are fields of UTC
    moved by the offset, without one they are local time.  (Hour 24 is
    midnight of the next day.) *)
Definition instant_of_config (c : config) : Z :=
  let h := meridiemFixWrap (cHour c) (cIsPM c) in
  let t := MakeDate (MakeDay (cYear c) (cMonth c) (cDate c))
                    (MakeTime h (cMinute c) (cSecond c) (cMillisecond c)) in
  match cTzm c with
  | Some tzm => t - tzm * msPerMinute
  | None => t - localTZA host t
  end.

(** [moment(string, format, true)]: the instant when [isValid()], else
    [None]. *)
Definition strict (string : string) (format : list token) : option Z :=
  c <- read_tokens format config0 string ;;
  if no_overflow (cYear c) (cMonth c) (cDate c)
       (meridiemFixWrap (cHour c) (cIsPM c))
       (cMinute c) (cSecond c) (cMillisecond c)
  then Some (instant_of_config c)
  else None.

End WithHost.

(** [a.diff(b, 'minutes')]: the difference of the instants in minutes, cut
    towards zero.  moment computes [(a - b) / 6e4] on doubles and cuts the
    result; the integer quotient here is that number as long as the two time
    values are at most 2^53 milliseconds apart, where neither the difference
    nor the division is rounded across a whole minute.  Two dates further
    apart (their time values reach 8.64e15 either way) have a difference that
    is rounded to an even number first, and the code may then count one
    minute more.  Statements that give a number of minutes carry the bound
    [Spec.exact_span]. *)
Definition diff_minutes (a b : Z) : Z := Z.quot (a - b) 60000.

End Moment.

(** ** src/utils/dateUtils.js *)

Module DateUtils.
Import JsString JsDate.

(** The formats of [parseDate], in its order:
      'M/D/YYYY H:mm', 'M/D/YYYY H:mm:ss.SSS A',
      'YYYY-MM-DDTHH:mm:ss.SSS[Z]', 'YYYY-MM-DDTHH:mm:ss.SSS Z'. *)
Definition formats : list (list Moment.token) :=
  let L := Moment.Lit in
  [ [Moment.tM; L "/"; Moment.tD; L "/"; Moment.tYYYY; L " "; Moment.tH; L ":";
     Moment.tmm];
    [Moment.tM; L "/"; Moment.tD; L "/"; Moment.tYYYY; L " "; Moment.tH; L ":";
     Moment.tmm; L ":"; Moment.tss; L "."; Moment.tSSS; L " "; Moment.tA];
    [Moment.tYYYY; L "-"; Moment.tMM; L "-"; Moment.tDD; L "T"; Moment.tHH; L ":";
     Moment.tmm; L ":"; Moment.tss; L "."; Moment.tSSS; L "Z"];
    [Moment.tYYYY; L "-"; Moment.tMM; L "-"; Moment.tDD; L "T"; Moment.tHH; L ":";
     Moment.tmm; L ":"; Moment.tss; L "."; Moment.tSSS; L " "; Moment.tZ] ].

Section WithHost.
Context (host : Host).

(** The loop over the formats: the first one that parses strictly. *)
Fixpoint first_valid (dateString : string) (fs : list (list Moment.token))
  : option Z :=
  match fs with
  | [] => None
  | format :: fs' =>
      match Moment.strict host dateString format with
      | Some t => Some t
      | None => first_valid dateString fs'
      end
  end.

(** [parseDate(dateString)]; the argument is a cell of a CSV row, absent
    ([None]) when the row has no such column. *)
Definition parseDate (dateString : option string) : option Date :=
  match dateString with
  | None => None
  | Some str =>
      if negb (truthy str) || String.eqb (trim str) "" then None
      else
        match first_valid str formats with
        | Some t => Some (TimeValue t)
        | None =>
            match momentLenient host str with
            | TimeValue t => Some (TimeValue t)
            | InvalidDate => None
            end
        end
  end.

End WithHost.

(** [calculateTimeDifferenceMinutes(startDate, endDate)]; the number of
    minutes is exact for dates at most 2^53 milliseconds apart, see
    [Moment.diff_minutes]. *)
Definition calculateTimeDifferenceMinutes (startDate endDate : option Date)
  : option Z :=
  match startDate, endDate with
  | None, _ | _, None => None
  | Some start, Some end_ =>
      match start, end_ with
      | TimeValue s, TimeValue e => Some (Z.abs (Moment.diff_minutes e s))
      | _, _ => None
      end
  end.

(** [\d{4}-\d{2}-\d{2}T\d{2}:\d{2}:\d{2}\.\d{3}Z] at the head of [s]: the
    24 characters matched. *)
Definition timestamp_at (s : string) : option string :=
  '(_, s1) <- read_digits 4 0 s ;;
  s2 <- strip_prefix "-" s1 ;;
  '(_, s3) <- read_digits 2 0 s2 ;;
  s4 <- strip_prefix "-" s3 ;;
  '(_, s5) <- read_digits 2 0 s4 ;;
  s6 <- strip_prefix "T" s5 ;;
  '(_, s7) <- read_digits 2 0 s6 ;;
  s8 <- strip_prefix ":" s7 ;;
  '(_, s9) <- read_digits 2 0 s8 ;;
  s10 <- strip_prefix ":" s9 ;;
  '(_, s11) <- read_digits 2 0 s10 ;;
  s12 <- strip_prefix "." s11 ;;
  '(_, s13) <- read_digits 3 0 s12 ;;
  _ <- strip_prefix "Z" s13 ;;
  Some (substring 0 24 s).

(** The first match of the pattern in the text. *)
Fixpoint timestampMatch (s : string) : option string :=
  match timestamp_at s with
  | Some m => Some m
  | None =>
      match s with
      | String _ s' => timestampMatch s'
      | EmptyString => None
      end
  end.

(** [extractTimestampFromTextPayload(textPayload)]. *)
Definition extractTimestampFromTextPayload (host : Host)
    (textPayload : option string) : option Date :=
  match textPayload with
  | None => None
  | Some text =>
      if negb (truthy text) then None
      else
        match timestampMatch text with
        | Some m => parseDate host (Some m)
        | None => None
        end
  end.

End DateUtils.

(** ** src/parsers/jsonParser.js *)

Module JsonParser.
Import JsString JsDate.

(** An entry of gcp.json, a free-text log line with an optional time stamp
    of its own. *)
Record GcpItem : Type := {
  textPayload : option string;
  timestamp : option string
}.

(** What [extractAutoAssignment] returns. *)
Record AutoAssignment : Type := {
  taskId : option string;
  email : option string;
  assignmentTimestamp : option Date   (* the field [timestamp] *)
}.

(** The longest run of digits at the head of [s], and the rest. *)
Fixpoint span_digits (s : string) : string * string :=
  match s with
  | String c s' =>
      if is_digit c then let '(ds, r) := span_digits s' in (String c ds, r)
      else (EmptyString, s)
  | EmptyString => (EmptyString, EmptyString)
  end.

(** [TASK-\\d+] at the head of [s]. *)
Definition task_id_at (s : string) : option string :=
  r <- strip_prefix "TASK-" s ;;
  match span_digits r with
  | (EmptyString, _) => None
  | (ds, _) => Some ("TASK-" ++ ds)
  end.

(** [textPayload.match(/TASK-\\d+/)]: the first match. *)
Fixpoint taskIdMatch (s : string) : option string :=
  match task_id_at s with
  | Some m => Some m
  | None =>
      match s with
      | String _ s' => taskIdMatch s'
      | EmptyString => None
      end
  end.

(** The longest run of characters other than a comma at the head of [s]. *)
Fixpoint span_not_comma (s : string) : string :=
  match s with
  | String c s' =>
      if Ascii.eqb c "," then EmptyString else String c (span_not_comma s')
  | EmptyString => EmptyString
  end.

(** [email=([^,]+)] at the head of [s]: the group. *)
Definition email_at (s : string) : option string :=
  r <- strip_prefix "email=" s ;;
  match span_not_comma r with
  | EmptyString => None
  | g => Some g
  end.

(** [textPayload.match(/email=([^,]+)/)]: the group of the first match. *)
Fixpoint emailMatch (s : string) : option string :=
  match email_at s with
  | Some g => Some g
  | None =>
      match s with
      | String _ s' => emailMatch s'
      | EmptyString => None
      end
  end.

Section WithHost.
Context (host : Host).

(** [extractAutoAssignment(item)]. *)
Definition extractAutoAssignment (item : GcpItem) : option AutoAssignment :=
  match textPayload item with
  | None => None
  | Some text =>
      if negb (truthy text) then None
      else
        match taskIdMatch text with
        | None => None
        | Some tid =>
            let email :=
              match emailMatch text with
              | Some g => Some (trim g)
              | None => None
              end in
            let ts : option Date :=
              match timestamp item with
              | Some t =>
                  if truthy t then Some (newDate host t)
                  else DateUtils.extractTimestampFromTextPayload host (Some text)
              | None =>
                  DateUtils.extractTimestampFromTextPayload host (Some text)
              end in
            match ts with
            | Some (TimeValue t) =>
                Some {| taskId := Some tid; email := email;
                        assignmentTimestamp := Some (TimeValue t) |}
            | Some InvalidDate | None => None
            end
        end
  end.

(** The loop of [parseGCPJson] over the entries of the file. *)
Fixpoint extractAll (jsonData : list GcpItem) : list AutoAssignment :=
  match jsonData with
  | [] => []
  | item :: rest =>
      match extractAutoAssignment item with
      | Some assignment => assignment :: extractAll rest
      | None => extractAll rest
      end
  end.

End WithHost.
End JsonParser.

(** ** JavaScript Map and Set, keyed by strings

    Both keep their keys in the order of first insertion; setting a key that
    is present replaces its value where it stands. *)

Module JsMap.
Section Map.
Context {V : Type}.

Definition t : Type := list (string * V).

Definition empty : t := [].

Fixpoint get (k : string) (m : t) : option V :=
  match m with
  | [] => None
  | (k', v) :: m' => if String.eqb k' k then Some v else get k m'
  end.

Definition has (k : string) (m : t) : bool :=
  match get k m with
  | Some _ => true
  | None => false
  end.

Fixpoint set (k : string) (v : V) (m : t) : t :=
  match m with
  | [] => [(k, v)]
  | (k', v') :: m' =>
      if String.eqb k' k then (k, v) :: m' else (k', v') :: set k v m'
  end.

Definition keys (m : t) : list string := map fst m.

End Map.
Arguments t : clear implicits.
End JsMap.

Module JsSet.

Definition t : Type := list string.

Definition has (k : string) (s : t) : bool := existsb (String.eqb k) s.

Definition add (k : string) (s : t) : t :=
  if has k s then s else (s ++ [k])%list.

Definition add_all (ks : list string) (s : t) : t :=
  fold_left (fun acc k => add k acc) ks s.

End JsSet.

(** ** src/processors/taskProcessor.js *)

Module TaskProcessor.
Import JsString JsDate.

(** *** The typed records the parsers hand over *)

(** A row of useravailability.csv ([transformUserAvailability]). *)
Record TaskAction : Type := {
  createdOn : option Date;
  actionLabel : string;              (* the field [action] *)
  rawProductiveTime : option Z;      (* the field [productiveTime] *)
  actionTaskId : option string;      (* the field [taskId] *)
  loginEmail : string;
  taskOpenTime : option Date
}.

(** A row of taskhistories.csv ([transformTaskHistory]). *)
Record TaskHistory : Type := {
  taskH : string;
  historyTaskId : option string;     (* the field [taskId] *)
  workStatus : string;
  mcStatus : string;
  action : string;
  actionTimestamp : option Date;
  lastModifiedByUser : string
}.

(** A row of users.csv ([transformUser]). *)
Record User : Type := {
  id : string;
  userPrincipalName : string;
  displayName : string
}.

(** An auto assignment of gcp.json. *)
Definition AutoAssignment : Type := JsonParser.AutoAssignment.
Definition taskId := JsonParser.taskId.
Definition email := JsonParser.email.
Definition timestamp := JsonParser.assignmentTimestamp.

(** A row of assigntome.csv ([transformAssignToMe]). *)
Record AssignToMe : Type := {
  openTimestamp : option Date;       (* the field [timestamp] *)
  message : string;
  severityLevel : string;
  itemType : string;
  tasknum : option string
}.

(** A row of openCambridgeTime.csv ([transformOpenCambridgeTime]). *)
Record ScreenOpen : Type := {
  screenTimestamp : option Date;     (* the field [timestamp] *)
  screenEmail : option string;       (* the field [email] *)
  screenName : string                (* the field [name] *)
}.

Inductive Mode : Type := Auto | Manual | Unknown.

(** A record of the report.  The two derived fields are absent ([None])
    until the second pass assigns them a number or null. *)
Record ReportRecord : Type := {
  task : string;
  userName : string;
  userEmail : string;
  mode : Mode;
  createdTime : string;
  assignedTime : string;
  makerCompleteTime : string;
  openTime : string;
  productiveTime : option (option Z);
  waitingTime : option (option Z)
}.

(** A record of the auto task open analysis. *)
Record AnalysisRecord : Type := {
  aTaskId : string;
  aUserEmail : option string;
  aUserName : option string;
  aAssignedTime : string;
  aFirstScreenOpenTime : string;
  timeToOpenMinutes : option Z;
  screenOpenCount : nat;
  assignmentDate : string
}.

(** *** The processor: six indexes and the report under construction *)

Record Processor : Type := {
  taskActionIndex : JsMap.t (list TaskAction);
  taskHistoryIndex : JsMap.t (list TaskHistory);
  userIndex : JsMap.t string;
  autoAssignmentIndex : JsMap.t AutoAssignment;
  openTimeIndex : JsMap.t (option Date);
  screenOpenIndex : JsMap.t (list (option Date));
  (** [this.currentReportRecords || []]: the array [generateReport] is
      filling, shared with the helpers that read it. *)
  currentReportRecords : list ReportRecord
}.

(** [new TaskProcessor()]. *)
Definition new : Processor :=
  {| taskActionIndex := JsMap.empty; taskHistoryIndex := JsMap.empty;
     userIndex := JsMap.empty; autoAssignmentIndex := JsMap.empty;
     openTimeIndex := JsMap.empty; screenOpenIndex := JsMap.empty;
     currentReportRecords := [] |}.

Definition with_taskActionIndex (this : Processor) m : Processor :=
  {| taskActionIndex := m; taskHistoryIndex := taskHistoryIndex this;
     userIndex := userIndex this; autoAssignmentIndex := autoAssignmentIndex this;
     openTimeIndex := openTimeIndex this; screenOpenIndex := screenOpenIndex this;
     currentReportRecords := currentReportRecords this |}.

Definition with_taskHistoryIndex (this : Processor) m : Processor :=
  {| taskActionIndex := taskActionIndex this; taskHistoryIndex := m;
     userIndex := userIndex this; autoAssignmentIndex := autoAssignmentIndex this;
     openTimeIndex := openTimeIndex this; screenOpenIndex := screenOpenIndex this;
     currentReportRecords := currentReportRecords this |}.

Definition with_userIndex (this : Processor) m : Processor :=
  {| taskActionIndex := taskActionIndex this;
     taskHistoryIndex := taskHistoryIndex this;
     userIndex := m; autoAssignmentIndex := autoAssignmentIndex this;
     openTimeIndex := openTimeIndex this; screenOpenIndex := screenOpenIndex this;
     currentReportRecords := currentReportRecords this |}.

Definition with_autoAssignmentIndex (this : Processor) m : Processor :=
  {| taskActionIndex := taskActionIndex this;
     taskHistoryIndex := taskHistoryIndex this;
     userIndex := userIndex this; autoAssignmentIndex := m;
     openTimeIndex := openTimeIndex this; screenOpenIndex := screenOpenIndex this;
     currentReportRecords := currentReportRecords this |}.

Definition with_openTimeIndex (this : Processor) m : Processor :=
  {| taskActionIndex := taskActionIndex this;
     taskHistoryIndex := taskHistoryIndex this;
     userIndex := userIndex this; autoAssignmentIndex := autoAssignmentIndex this;
     openTimeIndex := m; screenOpenIndex := screenOpenIndex this;
     currentReportRecords := currentReportRecords this |}.

Definition with_screenOpenIndex (this : Processor) m : Processor :=
  {| taskActionIndex := taskActionIndex this;
     taskHistoryIndex := taskHistoryIndex this;
     userIndex := userIndex this; autoAssignmentIndex := autoAssignmentIndex this;
     openTimeIndex := openTimeIndex this; screenOpenIndex := m;
     currentReportRecords := currentReportRecords this |}.

Definition with_currentReportRecords (this : Processor) rs : Processor :=
  {| taskActionIndex := taskActionIndex this;
     taskHistoryIndex := taskHistoryIndex this;
     userIndex := userIndex this; autoAssignmentIndex := autoAssignmentIndex this;
     openTimeIndex := openTimeIndex this; screenOpenIndex := screenOpenIndex this;
     currentReportRecords := rs |}.

(** [if (!map.has(k)) map.set(k, []); map.get(k).push(x)]. *)
Definition push_at {A : Type} (k : string) (x : A) (m : JsMap.t (list A))
  : JsMap.t (list A) :=
  let m1 := if JsMap.has k m then m else JsMap.set k [] m in
  match JsMap.get k m1 with
  | Some l => JsMap.set k (l ++ [x])%list m1
  | None => m1
  end.

Definition buildTaskActionIndex (taskActions : list TaskAction)
    (this : Processor) : Processor :=
  fold_left
    (fun this action =>
       match actionTaskId action with
       | Some tid =>
           if truthy tid
           then with_taskActionIndex this
                  (push_at tid action (taskActionIndex this))
           else this
       | None => this
       end)
    taskActions this.

Definition buildTaskHistoryIndex (taskHistories : list TaskHistory)
    (this : Processor) : Processor :=
  fold_left
    (fun this history =>
       match historyTaskId history with
       | Some tid =>
           if truthy tid
           then with_taskHistoryIndex this
                  (push_at tid history (taskHistoryIndex this))
           else this
       | None => this
       end)
    taskHistories this.

Definition buildUserIndex (users : list User) (this : Processor) : Processor :=
  fold_left
    (fun this user =>
       with_userIndex this
         (JsMap.set (userPrincipalName user) (displayName user) (userIndex this)))
    users this.

Definition buildAutoAssignmentIndex (autoAssignments : list AutoAssignment)
    (this : Processor) : Processor :=
  fold_left
    (fun this assignment =>
       match taskId assignment with
       | Some tid =>
           if truthy tid
           then with_autoAssignmentIndex this
                  (JsMap.set tid assignment (autoAssignmentIndex this))
           else this
       | None => this
       end)
    autoAssignments this.

Definition buildOpenTimeIndex (assignToMeData : list AssignToMe)
    (this : Processor) : Processor :=
  fold_left
    (fun this assignment =>
       match tasknum assignment with
       | Some k =>
           if truthy k
           then with_openTimeIndex this
                  (JsMap.set k (openTimestamp assignment) (openTimeIndex this))
           else this
       | None => this
       end)
    assignToMeData this.

Definition buildScreenOpenIndex (screenOpenData : list ScreenOpen)
    (this : Processor) : Processor :=
  fold_left
    (fun this openEvent =>
       match screenEmail openEvent with
       | Some e =>
           if truthy e
           then with_screenOpenIndex this
                  (push_at e (screenTimestamp openEvent) (screenOpenIndex this))
           else this
       | None => this
       end)
    screenOpenData this.

(** *** Comparison of dates

    [a < b] on [Date | null] operands compares their numbers: the time
    value of a date, NaN for an Invalid Date, 0 for null; a comparison with
    NaN is false. *)
Definition toNumber (v : option Date) : option Z :=
  match v with
  | None => Some 0
  | Some (TimeValue t) => Some t
  | Some InvalidDate => None
  end.

Definition lessThan (a b : option Date) : bool :=
  match toNumber a, toNumber b with
  | Some x, Some y => x <? y
  | _, _ => false
  end.

(** [openTimes.reduce((earliest, current) => current < earliest ? current :
    earliest)] on a non-empty array. *)
Definition reduceEarliest (first : option Date) (rest : list (option Date))
  : option Date :=
  fold_left
    (fun earliest current => if lessThan current earliest then current else earliest)
    rest first.

(** The argument is the email of an auto assignment, which may be null; the
    index has strings for keys. *)
Definition getFirstScreenOpenTime (this : Processor) (email : option string)
  : option Date :=
  match email with
  | None => None
  | Some e =>
      match JsMap.get e (screenOpenIndex this) with
      | None | Some [] => None
      | Some (first :: rest) => reduceEarliest first rest
      end
  end.

Definition getScreenOpenTimes (this : Processor) (email : option string)
  : list (option Date) :=
  match email with
  | None => []
  | Some e =>
      match JsMap.get e (screenOpenIndex this) with
      | Some l => l
      | None => []
      end
  end.

Definition getOpenTime (this : Processor) (taskId : string) : option Date :=
  match JsMap.get taskId (openTimeIndex this) with
  | Some (Some d) => Some d
  | Some None | None => None
  end.

(** [histories.find(h => h.mcStatus === status && h.action === code)]. *)
Definition findHistory (status code : string) (histories : list TaskHistory)
  : option TaskHistory :=
  find (fun h => String.eqb (mcStatus h) status && String.eqb (action h) code)
       histories.

(** [entry?.actionTimestamp || null]. *)
Definition timestampOf (entry : option TaskHistory) : option Date :=
  match entry with
  | Some h => actionTimestamp h
  | None => None
  end.

Definition getCreatedTime (this : Processor) (taskId : string) : option Date :=
  match JsMap.get taskId (taskHistoryIndex this) with
  | None => None
  | Some histories => timestampOf (findHistory "PMA" "IN" histories)
  end.

Definition getManualAssignedTime (this : Processor) (taskId : string)
  : option Date :=
  match JsMap.get taskId (taskHistoryIndex this) with
  | None => None
  | Some histories => timestampOf (findHistory "PME" "AS" histories)
  end.

Definition getAutoAssignedTime (this : Processor) (taskId : string)
  : option Date :=
  match JsMap.get taskId (autoAssignmentIndex this) with
  | Some autoAssignment => timestamp autoAssignment
  | None => None
  end.

Definition getMakerCompleteTime (this : Processor) (taskId : string)
  : option Date :=
  match JsMap.get taskId (taskHistoryIndex this) with
  | None => None
  | Some histories => timestampOf (findHistory "PCA" "SC" histories)
  end.

Definition determineMode (this : Processor) (taskId : string) : Mode :=
  if JsMap.has taskId (autoAssignmentIndex this) then Auto
  else if JsMap.has taskId (taskActionIndex this) then Manual
  else Unknown.

Definition getAssignedTime (this : Processor) (taskId : string) : option Date :=
  match determineMode this taskId with
  | Auto => getAutoAssignedTime this taskId
  | Manual | Unknown => getManualAssignedTime this taskId
  end.

Definition getUserDisplayName (this : Processor) (email : string) : string :=
  match JsMap.get email (userIndex this) with
  | Some displayName =>
      if truthy displayName then displayName ++ " (" ++ email ++ ")" else email
  | None => email
  end.

Definition calculateWaitingTime (this : Processor) (taskId : string) : option Z :=
  let createdTime := getCreatedTime this taskId in
  let assignedTime := getAssignedTime this taskId in
  match createdTime, assignedTime with
  | None, _ | _, None => None
  | Some _, Some _ =>
      DateUtils.calculateTimeDifferenceMinutes createdTime assignedTime
  end.

(** [findRecordByTaskId(taskId)]: the first record of the report under
    construction with that task. *)
Definition findRecordByTaskId (this : Processor) (taskId : string)
  : option ReportRecord :=
  find (fun record => String.eqb (task record) taskId)
       (currentReportRecords this).

Section WithHost.
Context (host : Host).

(** [text ? new Date(text) : null]. *)
Definition reparse (text : string) : option Date :=
  if truthy text then Some (newDate host text) else None.

Definition calculateProductiveTime (this : Processor) (taskId : string)
  : option Z :=
  match findRecordByTaskId this taskId with
  | None => None
  | Some record =>
      let assignedTime := reparse (assignedTime record) in
      let makerCompleteTime := reparse (makerCompleteTime record) in
      match assignedTime, makerCompleteTime with
      | None, _ | _, None => None
      | Some _, Some _ =>
          DateUtils.calculateTimeDifferenceMinutes assignedTime makerCompleteTime
      end
  end.

(** [d ? d.toISOString() : ''], which throws on an Invalid Date. *)
Definition isoOrEmpty (d : option Date) : option string :=
  match d with
  | Some d => toISOString d
  | None => Some ""
  end.

(** The user of a task: from the first of its task actions, else from its
    auto assignment, else 'Unknown'. *)
Definition resolveUser (this : Processor) (taskId : string) : string :=
  match JsMap.get taskId (taskActionIndex this) with
  | Some (first :: _) => getUserDisplayName this (loginEmail first)
  | Some [] | None =>
      match JsMap.get taskId (autoAssignmentIndex this) with
      | Some autoAssignment =>
          match email autoAssignment with
          | Some e =>
              if truthy e then getUserDisplayName this e else "Unknown"
          | None => "Unknown"
          end
      | None => "Unknown"
      end
  end.

Fixpoint no_line_terminator (s : string) : bool :=
  match s with
  | String c s' => negb (is_line_terminator c) && no_line_terminator s'
  | EmptyString => true
  end.

(** [s] without its last character, and that character. *)
Fixpoint split_last (s : string) : option (string * ascii) :=
  match s with
  | EmptyString => None
  | String c s' =>
      match split_last s' with
      | None => Some (EmptyString, c)
      | Some (init, last) => Some (String c init, last)
      end
  end.

(** [ \((.*?)\)$] at the head of [s]: the group.  The text must end with
    the closing parenthesis, and [.] stops at a line terminator. *)
Definition paren_tail (s : string) : option string :=
  r <- strip_prefix " (" s ;;
  '(g2, last) <- split_last r ;;
  if Ascii.eqb last ")" && no_line_terminator g2 then Some g2 else None.

(** [user.match(/^(.*?) \((.*?)\)$/)]: the two groups.  The first group is
    lazy: it is the shortest prefix after which the rest matches, [g1] being
    what it has taken so far. *)
Fixpoint userMatchFrom (g1 : string) (s : string) : option (string * string) :=
  match paren_tail s with
  | Some g2 => Some (g1, g2)
  | None =>
      match s with
      | String c s' =>
          if is_line_terminator c then None
          else userMatchFrom (g1 ++ String c "") s'
      | EmptyString => None
      end
  end.

Definition userMatch (user : string) : option (string * string) :=
  userMatchFrom "" user.

(** The name and the email of a record, from the user. *)
Definition splitUser (user : string) : string * string :=
  if negb (String.eqb user "Unknown") then
    match userMatch user with
    | Some (name, mail) => (name, mail)
    | None => (user, user)
    end
  else ("Unknown", "Unknown").

(** The body of the first loop of [generateReport]: the record pushed for
    [taskId]. *)
Definition draftRecord (this : Processor) (taskId : string)
  : option ReportRecord :=
  let mode := determineMode this taskId in
  let createdTime := getCreatedTime this taskId in
  let assignedTime := getAssignedTime this taskId in
  let makerCompleteTime := getMakerCompleteTime this taskId in
  let openTime := getOpenTime this taskId in
  let user := resolveUser this taskId in
  let '(userName, userEmail) := splitUser user in
  createdText <- isoOrEmpty createdTime ;;
  assignedText <- isoOrEmpty assignedTime ;;
  makerCompleteText <- isoOrEmpty makerCompleteTime ;;
  openText <- isoOrEmpty openTime ;;
  Some {| task := taskId; userName := userName; userEmail := userEmail;
          mode := mode; createdTime := createdText;
          assignedTime := assignedText;
          makerCompleteTime := makerCompleteText; openTime := openText;
          productiveTime := None; waitingTime := None |}.

(** The task ids of the report, in the order the set yields them. *)
Definition allTaskIds (this : Processor) : JsSet.t :=
  JsSet.add_all (JsMap.keys (autoAssignmentIndex this))
    (JsSet.add_all (JsMap.keys (taskHistoryIndex this))
       (JsSet.add_all (JsMap.keys (taskActionIndex this)) [])).

(** The first pass: one record pushed per task id. *)
Fixpoint firstPass (taskIds : list string) (this : Processor)
  : option Processor :=
  match taskIds with
  | [] => Some this
  | taskId :: rest =>
      record <- draftRecord this taskId ;;
      firstPass rest
        (with_currentReportRecords this
           (currentReportRecords this ++ [record])%list)
  end.

(** Assignment to a field of the [i]-th record of the array. *)
Fixpoint update_nth {A : Type} (i : nat) (f : A -> A) (l : list A) : list A :=
  match l, i with
  | [], _ => []
  | x :: l', O => f x :: l'
  | x :: l', S i' => x :: update_nth i' f l'
  end.

Definition set_productiveTime (v : option Z) (r : ReportRecord) : ReportRecord :=
  {| task := task r; userName := userName r; userEmail := userEmail r;
     mode := mode r; createdTime := createdTime r;
     assignedTime := assignedTime r;
     makerCompleteTime := makerCompleteTime r; openTime := openTime r;
     productiveTime := Some v; waitingTime := waitingTime r |}.

Definition set_waitingTime (v : option Z) (r : ReportRecord) : ReportRecord :=
  {| task := task r; userName := userName r; userEmail := userEmail r;
     mode := mode r; createdTime := createdTime r;
     assignedTime := assignedTime r;
     makerCompleteTime := makerCompleteTime r; openTime := openTime r;
     productiveTime := productiveTime r; waitingTime := Some v |}.

(** The body of the second loop, on the [i]-th record of the array. *)
Definition deriveAt (this : Processor) (i : nat) : Processor :=
  match nth_error (currentReportRecords this) i with
  | None => this
  | Some record =>
      let this1 :=
        with_currentReportRecords this
          (update_nth i
             (set_productiveTime (calculateProductiveTime this (task record)))
             (currentReportRecords this)) in
      with_currentReportRecords this1
        (update_nth i
           (set_waitingTime (calculateWaitingTime this1 (task record)))
           (currentReportRecords this1))
  end.

(** The second pass, over the records in their order. *)
Definition secondPass (this : Processor) : Processor :=
  fold_left deriveAt (seq 0 (List.length (currentReportRecords this))) this.

(** [generateReport()]: the records returned and the processor as it is
    left; [None] when a time of the report is an Invalid Date. *)
Definition generateReport (this : Processor)
  : option (list ReportRecord * Processor) :=
  let this0 := with_currentReportRecords this [] in
  this1 <- firstPass (allTaskIds this0) this0 ;;
  let this2 := secondPass this1 in
  Some (currentReportRecords this2, this2).

End WithHost.

(** [iso.split('T')[0]]. *)
Fixpoint before_T (s : string) : string :=
  match s with
  | String c s' => if Ascii.eqb c "T" then EmptyString else String c (before_T s')
  | EmptyString => EmptyString
  end.

(** The body of the loop of [generateAutoTaskOpenAnalysis]. *)
Definition analysisRecord (this : Processor) (taskId : string)
    (autoAssignment : AutoAssignment) : option AnalysisRecord :=
  let assignedTime := timestamp autoAssignment in
  let userEmail := email autoAssignment in
  let firstScreenOpenTime := getFirstScreenOpenTime this userEmail in
  let timeToOpenMinutes :=
    match assignedTime, firstScreenOpenTime with
    | Some _, Some _ =>
        if lessThan assignedTime firstScreenOpenTime
        then DateUtils.calculateTimeDifferenceMinutes assignedTime
               firstScreenOpenTime
        else None
    | _, _ => None
    end in
  let screenOpenCount := List.length (getScreenOpenTimes this userEmail) in
  let userName :=
    match userEmail with
    | Some e => Some (getUserDisplayName this e)
    | None => None
    end in
  assignedText <- isoOrEmpty assignedTime ;;
  firstOpenText <- isoOrEmpty firstScreenOpenTime ;;
  Some {| aTaskId := taskId; aUserEmail := userEmail; aUserName := userName;
          aAssignedTime := assignedText;
          aFirstScreenOpenTime := firstOpenText;
          timeToOpenMinutes := timeToOpenMinutes;
          screenOpenCount := screenOpenCount;
          assignmentDate := before_T assignedText |}.

(** [generateAutoTaskOpenAnalysis()]; [None] when a time is an Invalid
    Date. *)
Fixpoint analysisOf (this : Processor)
    (entries : list (string * AutoAssignment)) : option (list AnalysisRecord) :=
  match entries with
  | [] => Some []
  | (taskId, autoAssignment) :: rest =>
      record <- analysisRecord this taskId autoAssignment ;;
      records <- analysisOf this rest ;;
      Some (record :: records)
  end.

Definition generateAutoTaskOpenAnalysis (this : Processor)
  : option (list AnalysisRecord) :=
  analysisOf this (autoAssignmentIndex this).

End TaskProcessor.

(** ** Vocabulary of the statements *)

Module Spec.
Import JsString JsDate.

(** [r] is the first element of [l], by position, that satisfies [P]; no
    element when none does. *)
Definition first_match {A : Type} (P : A -> bool) (l : list A) (r : option A)
  : Prop :=
  match r with
  | Some x =>
      exists l1 l2,
        l = (l1 ++ x :: l2)%list /\ P x = true /\ (forall y, In y l1 -> P y = false)
  | None => forall y, In y l -> P y = false
  end.

(** [r] is the last element of [l], by position, that satisfies [P]. *)
Definition last_match {A : Type} (P : A -> bool) (l : list A) (r : option A)
  : Prop :=
  match r with
  | Some x =>
      exists l1 l2,
        l = (l1 ++ x :: l2)%list /\ P x = true /\ (forall y, In y l2 -> P y = false)
  | None => forall y, In y l -> P y = false
  end.

(** A source record joins under [tid]: it has a key, the key is not the
    empty string, and it is [tid]. *)
Definition keyed_by (tid : string) (key : option string) : bool :=
  match key with
  | Some k => truthy k && String.eqb k tid
  | None => false
  end.

(** The source records with key [tid], in the order of the source. *)
Definition selected {A : Type} (key : A -> option string) (tid : string)
    (xs : list A) : list A :=
  filter (fun x => keyed_by tid (key x)) xs.

(** A history entry with the given status and action codes. *)
Definition has_codes (status code : string) (h : TaskProcessor.TaskHistory)
  : bool :=
  String.eqb (TaskProcessor.mcStatus h) status
  && String.eqb (TaskProcessor.action h) code.

(** The time value of a date that is present and valid. *)
Definition instant (d : option Date) : option Z :=
  match d with
  | Some (TimeValue t) => Some t
  | Some InvalidDate | None => None
  end.

(** Whole minutes between two instants, cut towards zero. *)
Definition minutes_between (a b : Z) : Z := Z.abs (Z.quot (b - a) 60000).

(** The greatest distance, in milliseconds, at which the difference of two
    time values and its division by 60000 come out of double arithmetic
    without a rounding that changes the whole minutes: 2^53. *)
Definition exact_span : Z := 9007199254740992.

(** [s] holds the text [p] somewhere. *)
Definition contains (p s : string) : Prop :=
  exists pre post, s = pre ++ p ++ post.

(** [s] consists of decimal digits. *)
Fixpoint all_digits (s : string) : bool :=
  match s with
  | String c s' => is_digit c && all_digits s'
  | EmptyString => true
  end.

(** The text names a task: it holds "TASK-" followed by a digit. *)
Definition mentions_task (text : string) : Prop :=
  exists pre d post,
    text = pre ++ "TASK-" ++ String d post /\ is_digit d = true.

(** What an index of lists holds under [k], nothing counting as empty. *)
Definition bucket {A : Type} (m : JsMap.t (list A)) (k : string) : list A :=
  match JsMap.get k m with
  | Some l => l
  | None => []
  end.

(** One step of an index that appends. *)
Definition push_keyed {A : Type} (key : A -> option string)
    (m : JsMap.t (list A)) (x : A) : JsMap.t (list A) :=
  match key x with
  | Some k => if truthy k then TaskProcessor.push_at k x m else m
  | None => m
  end.

(** One step of an index that overwrites. *)
Definition set_keyed {A : Type} (key : A -> option string)
    (m : JsMap.t A) (x : A) : JsMap.t A :=
  match key x with
  | Some k => if truthy k then JsMap.set k x m else m
  | None => m
  end.

(** Two records with the same task and the same texts of the two times that
    the productive time is computed from. *)
Definition same_draft (r r' : TaskProcessor.ReportRecord) : Prop :=
  TaskProcessor.task r = TaskProcessor.task r'
  /\ TaskProcessor.assignedTime r = TaskProcessor.assignedTime r'
  /\ TaskProcessor.makerCompleteTime r = TaskProcessor.makerCompleteTime r'.

(** The record of the report made from a draft: [drafts] are the records as
    the first pass left them. *)
Definition finalize (host : Host) (this : TaskProcessor.Processor)
    (drafts : list TaskProcessor.ReportRecord)
    (r : TaskProcessor.ReportRecord) : TaskProcessor.ReportRecord :=
  TaskProcessor.set_waitingTime
    (TaskProcessor.calculateWaitingTime this (TaskProcessor.task r))
    (TaskProcessor.set_productiveTime
       (TaskProcessor.calculateProductiveTime host
          (TaskProcessor.with_currentReportRecords this drafts)
          (TaskProcessor.task r))
       r).

(** The least of a time value and a list of time values. *)
Definition least (t : Z) (ts : list Z) : Z := fold_left Z.min ts t.

(** A date that is present and valid. *)
Definition valid (t : Z) : option Date := Some (TimeValue t).

(** The text of the fields after the year, as [toISOString] writes it. *)
Definition isoTail (mo d h mi s ms : Z) : string :=
  "-" ++ pad2 mo ++ "-" ++ pad2 d ++ "T" ++ pad2 h ++ ":" ++ pad2 mi ++ ":"
    ++ pad2 s ++ "." ++ pad3 ms ++ "Z".

End Spec.

(** ** Sample data *)

Module Samples.
Import JsString JsDate TaskProcessor Spec.

(** A host in UTC whose parsers know no format but those modelled here. *)
Definition utc_host : Host :=
  {| localTZA := fun _ => 0;
     dateParseOther := fun _ => InvalidDate;
     momentLenient := fun _ => InvalidDate |}.

(** A host one hour east of UTC, all year. *)
Definition east_host : Host :=
  {| localTZA := fun _ => 3600000;
     dateParseOther := fun _ => InvalidDate;
     momentLenient := fun _ => InvalidDate |}.

(** A history entry of a task with a status, an action and a time. *)
Definition history (tid status code : string) (t : Z) : TaskHistory :=
  {| taskH := "TaskH"; historyTaskId := Some tid; workStatus := "RR";
     mcStatus := status; action := code;
     actionTimestamp := Some (TimeValue t); lastModifiedByUser := "User A" |}.

(** A task action of a task by a user. *)
Definition taskAction (tid mail : string) : TaskAction :=
  {| createdOn := None; actionLabel := "Task Opened"; rawProductiveTime := None;
     actionTaskId := Some tid; loginEmail := mail; taskOpenTime := None |}.

(** A screen-open event of a user. *)
Definition screenOpen (e : string) (d : option Date) : ScreenOpen :=
  {| screenTimestamp := d; screenEmail := Some e; screenName := "User" |}.

(** An entry of the log. *)
Definition logEntry (text : string) (time : option string) : JsonParser.GcpItem :=
  {| JsonParser.textPayload := Some text; JsonParser.timestamp := time |}.

(** A task with a task action and an auto assignment, one with a task action
    only, and one with neither. *)
Definition sample_modes : Processor :=
  buildAutoAssignmentIndex
    [ {| JsonParser.taskId := Some "TASK-1"; JsonParser.email := None;
         JsonParser.assignmentTimestamp := Some (TimeValue 0) |} ]
    (buildTaskActionIndex
       [ {| createdOn := None; actionLabel := "Task Opened";
            rawProductiveTime := None; actionTaskId := Some "TASK-1";
            loginEmail := "b@x.com"; taskOpenTime := None |};
         {| createdOn := None; actionLabel := "Task Opened";
            rawProductiveTime := None; actionTaskId := Some "TASK-2";
            loginEmail := "b@x.com"; taskOpenTime := None |} ]
       new).

(** An auto-assigned task that also has an assignment in its history, and a
    task that has the history only. *)
Definition sample_assigned : Processor :=
  buildAutoAssignmentIndex
    [ {| JsonParser.taskId := Some "TASK-2"; JsonParser.email := Some "svc@x.com";
         JsonParser.assignmentTimestamp := Some (TimeValue 7000) |} ]
    (buildTaskHistoryIndex
       [history "TASK-2" "PME" "AS" 300; history "TASK-3" "PMA" "IN" 100;
        history "TASK-3" "PME" "AS" 200; history "TASK-3" "PME" "AS" 150] new).

(** A processor with one task in each of the three indexes that feed the
    report, one task in two of them, and one task and one user known to the
    open-time and screen-open indexes only. *)
Definition sample_report : Processor :=
  buildScreenOpenIndex
    [ {| screenTimestamp := Some (TimeValue 9000); screenEmail := Some "TASK-9";
         screenName := "Nine" |} ]
    (buildOpenTimeIndex
       [ {| openTimestamp := Some (TimeValue 5000); message := "open";
            severityLevel := "1"; itemType := "trace"; tasknum := Some "TASK-7" |};
         {| openTimestamp := Some (TimeValue 6000); message := "open";
            severityLevel := "1"; itemType := "trace"; tasknum := Some "TASK-3" |} ]
       (buildAutoAssignmentIndex
          [ {| JsonParser.taskId := Some "TASK-2";
               JsonParser.email := Some "svc@x.com";
               JsonParser.assignmentTimestamp := Some (TimeValue 7000) |};
            {| JsonParser.taskId := Some "TASK-1";
               JsonParser.email := Some "svc@x.com";
               JsonParser.assignmentTimestamp := Some (TimeValue 8000) |} ]
          (buildUserIndex
             [ {| id := "1"; userPrincipalName := "b@x.com";
                  displayName := "User B" |} ]
             (buildTaskHistoryIndex
                [ history "TASK-3" "PMA" "IN" 60000;
                  history "TASK-3" "PME" "AS" 200000;
                  history "TASK-3" "PCA" "SC" 500000 ]
                (buildTaskActionIndex
                   [ {| createdOn := None; actionLabel := "Task Opened";
                        rawProductiveTime := None;
                        actionTaskId := Some "TASK-1";
                        loginEmail := "b@x.com"; taskOpenTime := None |} ]
                   new))))).

(** An auto-assigned task whose user opened the screen twice, two minutes
    and five minutes after the assignment. *)
Definition sample_analysis : Processor :=
  buildScreenOpenIndex
    [screenOpen "u@x.com" (valid 360000); screenOpen "u@x.com" (valid 180000)]
    (buildAutoAssignmentIndex
       [ {| JsonParser.taskId := Some "TASK-1"; JsonParser.email := Some "u@x.com";
            JsonParser.assignmentTimestamp := valid 60000 |} ]
       new).

(** A user whose display name holds a parenthesis, and one whose display
    name does not; each has opened a task. *)
Definition sample_users : Processor :=
  buildUserIndex
    [ {| id := "1"; userPrincipalName := "j@x.com";
         displayName := "John Smith (IT)" |};
      {| id := "2"; userPrincipalName := "b@x.com"; displayName := "User B" |} ]
    (buildTaskActionIndex
       [taskAction "TASK-1" "j@x.com"; taskAction "TASK-2" "b@x.com";
        taskAction "TASK-3" "c@x.com"]
       new).

(** Two entries for TASK-5, an entry without a task, an entry for TASK-6
    without a time, and an entry for TASK-7 whose time is in its text. *)
Definition sample_log : list JsonParser.GcpItem :=
  [ logEntry "Auto assigned TASK-5 to email=a@x.com, queue=1"
      (Some "2025-08-25T13:20:00.000Z");
    logEntry "nothing assigned" (Some "2025-08-25T13:21:00.000Z");
    logEntry "Auto assigned TASK-5 to email= b@x.com , queue=2"
      (Some "2025-08-25T13:22:00.000Z");
    logEntry "Auto assigned TASK-6 to email=c@x.com" None;
    logEntry "Auto assigned TASK-7 at 2025-08-25T13:23:00.000Z" None ].

End Samples.

(** ** src/parsers/jsonParser.js, the map of assignments *)

Module JsonParserMap.
Import JsString JsonParser.

(** [buildAutoAssignmentMap(assignments)]. *)
Definition buildAutoAssignmentMap (assignments : list AutoAssignment)
  : JsMap.t AutoAssignment :=
  fold_left
    (fun assignmentMap assignment =>
       match taskId assignment with
       | Some tid =>
           if truthy tid then JsMap.set tid assignment assignmentMap
           else assignmentMap
       | None => assignmentMap
       end)
    assignments JsMap.empty.

End JsonParserMap.

(** ** More vocabulary *)

Module SpecMore.
Import JsString JsDate Spec.

(** The elements of [l] in the order of their first occurrence. *)
Fixpoint firsts (l : list string) : list string :=
  match l with
  | [] => []
  | k :: l' => k :: filter (fun x => negb (String.eqb x k)) (firsts l')
  end.

(** The keys under which the records of a source join, in its order. *)
Definition join_keys {A : Type} (key : A -> option string) (xs : list A)
  : list string :=
  flat_map
    (fun x =>
       match key x with
       | Some k => if truthy k then [k] else []
       | None => []
       end)
    xs.

(** A number below 100 in decimal, without a leading zero. *)
Definition dec2 (v : Z) : string :=
  if v <? 10 then String (digit_char v) "" else pad2 v.

(** The instant of a time of UTC, from its fields; months count from 1. *)
Definition utc_instant (y mo d h mi s ms : Z) : Z :=
  MakeDate (MakeDay y (mo - 1) d) (MakeTime h mi s ms).

(** The instant of a local time on a host, from its fields. *)
Definition local_instant (host : Host) (y mo d h mi s ms : Z) : Z :=
  let t := utc_instant y mo d h mi s ms in
  t - localTZA host t.

(** The text of a date and a time without a zone, as in an ISO string. *)
Definition iso_fields (y mo d h mi s ms : Z) : string :=
  pad4 y ++ "-" ++ pad2 mo ++ "-" ++ pad2 d ++ "T" ++ pad2 h ++ ":" ++ pad2 mi
    ++ ":" ++ pad2 s ++ "." ++ pad3 ms.

(** The hour of the day of a clock hour (1 to 12) before or after noon. *)
Definition clock_hour (h : Z) (pm : bool) : Z :=
  h mod 12 + (if pm then 12 else 0).

(** An offset from UTC of so many minutes, as +hh:mm or -hh:mm. *)
Definition offset_text (minutes : Z) : string :=
  (if minutes <? 0 then "-" else "+")
    ++ pad2 (Z.abs minutes / 60) ++ ":" ++ pad2 (Z.abs minutes mod 60).

(** The character [c] occurs in [s]. *)
Fixpoint occurs (c : ascii) (s : string) : bool :=
  match s with
  | String x s' => Ascii.eqb x c || occurs c s'
  | EmptyString => false
  end.

(** A date that is null, or valid and after the epoch. *)
Definition null_or_after_epoch (d : option Date) : bool :=
  match d with
  | None => true
  | Some (TimeValue t) => 0 <? t
  | Some InvalidDate => false
  end.

(** Some record of the source joins under [tid]. *)
Definition joins {A : Type} (key : A -> option string) (tid : string)
    (xs : list A) : bool :=
  existsb (fun x => keyed_by tid (key x)) xs.

(** One step of the open-time index. *)
Definition open_step (m : JsMap.t (option Date)) (a : TaskProcessor.AssignToMe)
  : JsMap.t (option Date) :=
  match TaskProcessor.tasknum a with
  | Some k =>
      if truthy k then JsMap.set k (TaskProcessor.openTimestamp a) m else m
  | None => m
  end.

(** One step of the user index. *)
Definition user_step (m : JsMap.t string) (u : TaskProcessor.User)
  : JsMap.t string :=
  JsMap.set (TaskProcessor.userPrincipalName u) (TaskProcessor.displayName u) m.

End SpecMore.

(** ** More sample data *)

Module SamplesMore.
Import JsString JsDate TaskProcessor Spec Samples.

(** An auto assignment of a task to a user at a time. *)
Definition assignment (tid mail : string) (t : Z) : AutoAssignment :=
  {| JsonParser.taskId := Some tid; JsonParser.email := Some mail;
     JsonParser.assignmentTimestamp := Some (TimeValue t) |}.

(** Four tasks met in the three sources in an order that is not that of
    their numbers: TASK-2 twice among the task actions and once among the
    auto assignments, TASK-1 among the task actions and the histories, and
    a task action without a task. *)
Definition sample_order : Processor :=
  buildAutoAssignmentIndex
    [assignment "TASK-4" "svc@x.com" 400; assignment "TASK-2" "svc@x.com" 500]
    (buildTaskHistoryIndex
       [history "TASK-3" "PMA" "IN" 100; history "TASK-1" "PMA" "IN" 200;
        history "TASK-3" "PME" "AS" 300]
       (buildTaskActionIndex
          [taskAction "TASK-2" "b@x.com"; taskAction "TASK-1" "b@x.com";
           taskAction "" "b@x.com"; taskAction "TASK-2" "c@x.com"]
          new)).

(** An assignment a quarter of an hour before midnight, UTC, to a user with
    two screen-open events, one without a time; and an assignment one
    millisecond before the epoch to a user without events. *)
Definition sample_midnight : Processor :=
  buildScreenOpenIndex
    [screenOpen "u@x.com" (valid 360000); screenOpen "u@x.com" None]
    (buildAutoAssignmentIndex
       [assignment "TASK-1" "u@x.com" 1756165500000;
        assignment "TASK-2" "v@x.com" (-1)]
       new).

(** A row of assigntome.csv for a task. *)
Definition opened (tid : string) (d : option Date) : AssignToMe :=
  {| openTimestamp := d; message := "open"; severityLevel := "1";
     itemType := "trace"; tasknum := Some tid |}.

(** TASK-3 opened twice, the second row without a time; TASK-4 opened twice. *)
Definition sample_opened : list AssignToMe :=
  [opened "TASK-3" (valid 5000); opened "TASK-4" (valid 6000);
   opened "TASK-3" None; opened "TASK-4" (valid 4000)].

(** The sources of a run as the parsers read them on a host in UTC: the
    dates of the rows come from [parseDate], one of them from a cell that is
    not a date, and the auto assignments from the log. *)
Definition parsed_histories : list TaskHistory :=
  [ {| taskH := "TaskH"; historyTaskId := Some "TASK-5"; workStatus := "RR";
       mcStatus := "PMA"; action := "IN";
       actionTimestamp := DateUtils.parseDate utc_host (Some "8/25/2025 8:50");
       lastModifiedByUser := "User A" |};
    {| taskH := "TaskH"; historyTaskId := Some "TASK-5"; workStatus := "RR";
       mcStatus := "PCA"; action := "SC";
       actionTimestamp := DateUtils.parseDate utc_host (Some "not a date");
       lastModifiedByUser := "User A" |} ].

Definition parsed_opened : list AssignToMe :=
  [ opened "TASK-5" (DateUtils.parseDate utc_host (Some "8/25/2025 9:05")) ].

Definition parsed_screens : list ScreenOpen :=
  [ screenOpen "b@x.com" (DateUtils.parseDate utc_host (Some "8/25/2025 13:30"));
    screenOpen "b@x.com" (DateUtils.parseDate utc_host None) ].

Definition sample_parsed : Processor :=
  buildScreenOpenIndex parsed_screens
    (buildOpenTimeIndex parsed_opened
       (buildAutoAssignmentIndex (JsonParser.extractAll utc_host sample_log)
          (buildTaskHistoryIndex parsed_histories new))).

(** The life of TASK-8, assigned by hand: created, assigned and completed
    by the maker, each step recorded twice; and that of TASK-9, which the
    log assigns twice although its history records an assignment by hand. *)
Definition sample_lives : list TaskHistory :=
  [ history "TASK-8" "PCA" "SC" 960000; history "TASK-8" "PMA" "IN" 60000;
    history "TASK-9" "PMA" "IN" 0; history "TASK-8" "PME" "AS" 240000;
    history "TASK-8" "PME" "AS" 300000; history "TASK-9" "PME" "AS" 120000;
    history "TASK-9" "PCA" "SC" 600000; history "TASK-8" "PMA" "IN" 30000 ].

Definition sample_lives_log : list AutoAssignment :=
  [assignment "TASK-9" "svc@x.com" 180000; assignment "TASK-9" "svc@x.com" 420000].

Definition sample_lived : Processor :=
  buildAutoAssignmentIndex sample_lives_log
    (buildTaskHistoryIndex sample_lives new).

(** A user listed twice, a user without a display name, and a row without
    a principal name. *)
Definition sample_directory : list User :=
  [ {| id := "1"; userPrincipalName := "b@x.com"; displayName := "User B" |};
    {| id := "2"; userPrincipalName := "c@x.com"; displayName := "" |};
    {| id := "3"; userPrincipalName := ""; displayName := "Nobody" |};
    {| id := "4"; userPrincipalName := "b@x.com"; displayName := "Bee" |} ].

End SamplesMore.

(* ================================================================== *)
(** * Part II: properties *)
(* ================================================================== *)

(** ** Maps and sets *)

Module JsMapFacts.
Import JsMap.

Section Facts.
Context {V : Type}.
Implicit Types (m : JsMap.t V) (k : string) (v : V).

Lemma get_set_same : forall m k v, get k (set k v m) = Some v.
Proof.
  induction m as [|[k' v'] m IH]; intros k v; simpl.
  - now rewrite String.eqb_refl.
  - destruct (String.eqb k' k) eqn:E; simpl.
    + now rewrite String.eqb_refl.
    + now rewrite E.
Qed.

Lemma get_set_other : forall m k k' v, k <> k' -> get k' (set k v m) = get k' m.
Proof.
  induction m as [|[k0 v0] m IH]; intros k k' v Hne; simpl.
  - destruct (String.eqb k k') eqn:E; [apply String.eqb_eq in E; contradiction | reflexivity].
  - destruct (String.eqb k0 k) eqn:E; simpl.
    + apply String.eqb_eq in E; subst k0.
      destruct (String.eqb k k') eqn:E'; [apply String.eqb_eq in E'; contradiction | reflexivity].
    + destruct (String.eqb k0 k'); [reflexivity | now apply IH].
Qed.

Lemma has_true_iff : forall m k, has k m = true <-> In k (keys m).
Proof.
  unfold has, keys.
  induction m as [|[k' v'] m IH]; intros k; simpl.
  - split; [discriminate | tauto].
  - destruct (String.eqb k' k) eqn:E.
    + apply String.eqb_eq in E. split; auto.
    + apply String.eqb_neq in E. rewrite IH. split; [auto | intros [?|?]; [contradiction | assumption]].
Qed.

Lemma has_false_iff : forall m k, has k m = false <-> ~ In k (keys m).
Proof.
  intros m k. rewrite <- has_true_iff. destruct (has k m); split; congruence.
Qed.

Lemma get_some_has : forall m k v, get k m = Some v -> has k m = true.
Proof. unfold has. intros m k v ->. reflexivity. Qed.

Lemma has_get : forall m k, has k m = true -> exists v, get k m = Some v.
Proof. unfold has. intros m k. destruct (get k m); [eauto | discriminate]. Qed.

Lemma get_none_iff : forall m k, get k m = None <-> ~ In k (keys m).
Proof.
  intros m k. rewrite <- has_false_iff. unfold has.
  destruct (get k m); split; congruence.
Qed.

Lemma get_in : forall m k v, get k m = Some v -> In (k, v) m.
Proof.
  induction m as [|[k' v'] m IH]; intros k v; simpl; [discriminate|].
  destruct (String.eqb k' k) eqn:E.
  - apply String.eqb_eq in E. intros [= ->]. subst. now left.
  - intros H. right. now apply IH.
Qed.

Lemma keys_set : forall m k v,
  keys (set k v m) = if has k m then keys m else (keys m ++ [k])%list.
Proof.
  unfold has, keys.
  induction m as [|[k' v'] m IH]; intros k v; simpl; [reflexivity|].
  destruct (String.eqb k' k) eqn:E; simpl.
  - apply String.eqb_eq in E. now subst.
  - rewrite IH. now destruct (get k m).
Qed.

Lemma NoDup_keys_set : forall m k v, NoDup (keys m) -> NoDup (keys (set k v m)).
Proof.
  intros m k v Hnd. rewrite keys_set.
  destruct (has k m) eqn:E; [assumption|].
  apply has_false_iff in E.
  apply NoDup_rev in Hnd. rewrite <- (rev_involutive (keys m ++ [k])%list).
  apply NoDup_rev. rewrite rev_app_distr. simpl. constructor; [|assumption].
  now rewrite <- in_rev.
Qed.

Lemma in_keys_set : forall m k v k',
  In k' (keys (set k v m)) <-> k' = k \/ In k' (keys m).
Proof.
  intros m k v k'. rewrite keys_set. destruct (has k m) eqn:E.
  - apply has_true_iff in E. split; [auto | intros [->|?]; assumption].
  - rewrite in_app_iff. simpl. split; [intros [?|[?|[]]] | intros [?|?]]; auto.
Qed.

(** With distinct keys, an entry is found under its key. *)
Lemma in_get : forall m k v, NoDup (keys m) -> In (k, v) m -> get k m = Some v.
Proof.
  induction m as [|[k' v'] m IH]; intros k v Hnd Hin; simpl in *; [contradiction|].
  inversion Hnd as [|? ? Hnotin Hnd']; subst.
  destruct Hin as [[= -> ->]|Hin].
  - now rewrite String.eqb_refl.
  - destruct (String.eqb k' k) eqn:E.
    + apply String.eqb_eq in E. subst k'. exfalso. apply Hnotin.
      change (In (fst (k, v)) (map fst m)). now apply in_map.
    + now apply IH.
Qed.

End Facts.
End JsMapFacts.

Module JsSetFacts.
Import JsSet.

Lemma set_has_true_iff : forall s k, has k s = true <-> In k s.
Proof.
  unfold has. intros s k. rewrite existsb_exists. split.
  - intros [x [Hin E]]. apply String.eqb_eq in E. now subst.
  - intros Hin. exists k. split; [assumption | apply String.eqb_refl].
Qed.

Lemma in_add : forall s k k', In k' (add k s) <-> k' = k \/ In k' s.
Proof.
  intros s k k'. unfold add. destruct (has k s) eqn:E.
  - apply set_has_true_iff in E. split; [auto | intros [->|?]; assumption].
  - rewrite in_app_iff. simpl. split; [intros [?|[?|[]]] | intros [?|?]]; auto.
Qed.

Lemma NoDup_add : forall s k, NoDup s -> NoDup (add k s).
Proof.
  intros s k Hnd. unfold add. destruct (has k s) eqn:E; [assumption|].
  assert (Hnotin : ~ In k s) by (rewrite <- set_has_true_iff; congruence).
  apply NoDup_rev in Hnd. rewrite <- (rev_involutive (s ++ [k])%list).
  apply NoDup_rev. rewrite rev_app_distr. simpl. constructor; [|assumption].
  now rewrite <- in_rev.
Qed.

Lemma in_add_all : forall ks s k, In k (add_all ks s) <-> In k ks \/ In k s.
Proof.
  unfold add_all. induction ks as [|k0 ks IH]; intros s k; simpl.
  - tauto.
  - rewrite IH, in_add. intuition congruence.
Qed.

Lemma NoDup_add_all : forall ks s, NoDup s -> NoDup (add_all ks s).
Proof.
  unfold add_all. induction ks as [|k0 ks IH]; intros s Hnd; simpl.
  - assumption.
  - apply IH. now apply NoDup_add.
Qed.

End JsSetFacts.

(** ** Search in a list *)

Module ListFacts.
Import Spec.

Lemma find_first_match : forall (A : Type) (P : A -> bool) (l : list A),
  first_match P l (find P l).
Proof.
  intros A P. induction l as [|x l IH]; simpl.
  - intros y [].
  - destruct (P x) eqn:E.
    + exists [], l. repeat split; [assumption | intros y []].
    + destruct (find P l) as [r|] eqn:F; simpl in *.
      * destruct IH as (l1 & l2 & -> & HP & Hl1).
        exists (x :: l1), l2. repeat split; [assumption|].
        intros y [<-|Hy]; [assumption | now apply Hl1].
      * intros y [<-|Hy]; [assumption | now apply IH].
Qed.

(** The first match is unique. *)
Lemma first_match_unique : forall (A : Type) (P : A -> bool) (l : list A) r,
  first_match P l r -> r = find P l.
Proof.
  intros A P l r. destruct r as [x|]; simpl.
  - intros (l1 & l2 & -> & HP & Hl1).
    induction l1 as [|y l1 IH]; simpl.
    + now rewrite HP.
    + rewrite (Hl1 y (or_introl eq_refl)). apply IH.
      intros z Hz. apply Hl1. now right.
  - induction l as [|y l IH]; simpl; intros H; [reflexivity|].
    rewrite (H y (or_introl eq_refl)). apply IH. intros z Hz. apply H. now right.
Qed.

Lemma find_filter : forall (A : Type) (P Q : A -> bool) (l : list A),
  find P (filter Q l) = find (fun x => Q x && P x) l.
Proof.
  intros A P Q. induction l as [|x l IH]; simpl; [reflexivity|].
  destruct (Q x); simpl; [destruct (P x); [reflexivity | exact IH] | exact IH].
Qed.

End ListFacts.

(** ** Elapsed minutes *)

Module DateUtilsFacts.
Import JsDate DateUtils Spec.

Lemma quot_abs_sym : forall a b : Z,
  Z.abs (Z.quot (a - b) 60000) = Z.abs (Z.quot (b - a) 60000).
Proof.
  intros a b. replace (b - a) with (- (a - b)) by lia.
  rewrite Z.quot_opp_l by lia. now rewrite Z.abs_opp.
Qed.

Lemma difference_of_instants : forall a b x y,
  instant a = Some x -> instant b = Some y ->
  calculateTimeDifferenceMinutes a b = Some (minutes_between x y).
Proof.
  intros [[|s]|] [[|e]|] x y; simpl; try discriminate.
  now intros [= ->] [= ->].
Qed.

Lemma difference_none_l : forall a b,
  instant a = None -> calculateTimeDifferenceMinutes a b = None.
Proof. intros [[|s]|] [[|e]|]; simpl; congruence. Qed.

Lemma difference_none_r : forall a b,
  instant b = None -> calculateTimeDifferenceMinutes a b = None.
Proof. intros [[|s]|] [[|e]|]; simpl; congruence. Qed.

(** C8. [calculateTimeDifferenceMinutes] does not depend on the order of its
    arguments; on two valid instants it returns a number, a non-negative
    integer, which for instants at most 2^53 milliseconds apart is the
    absolute difference in whole minutes (cut towards zero); and it returns
    null as soon as an argument is null or an Invalid Date. *)
Theorem calculateTimeDifferenceMinutes_symmetric_nonneg :
  forall a b : option Date,
    calculateTimeDifferenceMinutes a b = calculateTimeDifferenceMinutes b a
    /\ (forall x y, a = Some (TimeValue x) -> b = Some (TimeValue y) ->
          exists n, calculateTimeDifferenceMinutes a b = Some n
                 /\ 0 <= n
                 /\ (Z.abs (y - x) <= exact_span ->
                       n = Z.abs (Z.quot (y - x) 60000)
                       /\ 60000 * n <= Z.abs (y - x) < 60000 * n + 60000))
    /\ (forall n, calculateTimeDifferenceMinutes a b = Some n -> 0 <= n)
    /\ (a = None \/ a = Some InvalidDate \/ b = None \/ b = Some InvalidDate ->
          calculateTimeDifferenceMinutes a b = None).
Proof.
  intros a b. split; [|split; [|split]].
  - destruct a as [[|s]|], b as [[|e]|]; simpl; try reflexivity.
    unfold Moment.diff_minutes. f_equal. apply quot_abs_sym.
  - intros x y -> ->. unfold calculateTimeDifferenceMinutes, Moment.diff_minutes.
    exists (Z.abs (Z.quot (y - x) 60000)).
    split; [reflexivity|]. split; [apply Z.abs_nonneg|].
    intros _. split; [reflexivity|].
    rewrite <- Z.quot_abs by lia. change (Z.abs 60000) with 60000.
    rewrite Z.quot_div_nonneg by lia.
    pose proof (Z.abs_nonneg (y - x)) as Hnn.
    pose proof (Z.div_mod (Z.abs (y - x)) 60000 ltac:(lia)) as Hdm.
    pose proof (Z.mod_pos_bound (Z.abs (y - x)) 60000 ltac:(lia)) as Hb.
    lia.
  - intros n. destruct a as [[|s]|], b as [[|e]|]; simpl; try discriminate.
    intros H. injection H as H. subst n. apply Z.abs_nonneg.
  - intros [-> | [-> | [-> | ->]]];
      try reflexivity; try (destruct b as [[|?]|]; reflexivity);
      destruct a as [[|?]|]; reflexivity.
Qed.

(** A pair of instants 119.999 seconds apart, in either order. *)
Lemma calculateTimeDifferenceMinutes_witness :
  calculateTimeDifferenceMinutes (Some (TimeValue 0)) (Some (TimeValue (-119999)))
  = calculateTimeDifferenceMinutes (Some (TimeValue (-119999))) (Some (TimeValue 0))
  /\ calculateTimeDifferenceMinutes (Some (TimeValue 0)) (Some (TimeValue (-119999)))
     = Some 1
  /\ calculateTimeDifferenceMinutes (Some InvalidDate) (Some (TimeValue 0)) = None.
Proof.
  pose proof (calculateTimeDifferenceMinutes_symmetric_nonneg
                (Some (TimeValue 0)) (Some (TimeValue (-119999)))) as [Hs _].
  pose proof (calculateTimeDifferenceMinutes_symmetric_nonneg
                (Some InvalidDate) (Some (TimeValue 0))) as (_ & _ & _ & Hn).
  split; [exact Hs|]. split; [reflexivity|].
  apply Hn. right. left. reflexivity.
Defined.

End DateUtilsFacts.

(** ** The indexes *)

Module IndexFacts.
Import JsString JsDate JsMap JsMapFacts TaskProcessor Spec ListFacts.

Section Grouping.
Context {A : Type}.
Implicit Types (m : JsMap.t (list A)) (k : string) (x : A).

Lemma push_at_eq : forall m k x,
  push_at k x m =
    set k (bucket m k ++ [x])%list (if has k m then m else set k [] m).
Proof.
  intros m k x. unfold push_at, bucket, has.
  destruct (get k m) as [l|] eqn:E.
  - now rewrite E.
  - now rewrite get_set_same.
Qed.

Lemma get_push_at_same : forall m k x,
  get k (push_at k x m) = Some (bucket m k ++ [x])%list.
Proof. intros. rewrite push_at_eq. apply get_set_same. Qed.

Lemma get_push_at_other : forall m k k' x,
  k <> k' -> get k' (push_at k x m) = get k' m.
Proof.
  intros m k k' x Hne. rewrite push_at_eq, get_set_other by assumption.
  destruct (has k m); [reflexivity | now apply get_set_other].
Qed.

Lemma in_keys_push_at : forall m k x k',
  In k' (keys (push_at k x m)) <-> k' = k \/ In k' (keys m).
Proof.
  intros m k x k'. rewrite push_at_eq, in_keys_set.
  destruct (has k m); [tauto | rewrite in_keys_set; tauto].
Qed.

Lemma NoDup_keys_push_at : forall m k x,
  NoDup (keys m) -> NoDup (keys (push_at k x m)).
Proof.
  intros m k x H. rewrite push_at_eq. apply NoDup_keys_set.
  destruct (has k m); [assumption | now apply NoDup_keys_set].
Qed.

Lemma get_push_keyed : forall key m x tid,
  get tid (push_keyed key m x) =
    if keyed_by tid (key x) then Some (bucket m tid ++ [x])%list else get tid m.
Proof.
  intros key m x tid. unfold push_keyed, keyed_by.
  destruct (key x) as [k|]; [|reflexivity].
  destruct (truthy k); simpl; [|reflexivity].
  destruct (String.eqb k tid) eqn:E.
  - apply String.eqb_eq in E. subst. apply get_push_at_same.
  - apply String.eqb_neq in E. now apply get_push_at_other.
Qed.

(** After the loop, the bucket of [tid] holds what it held, then the source
    records keyed by [tid] in their order. *)
Lemma get_fold_push_keyed : forall key xs m tid,
  get tid (fold_left (push_keyed key) xs m) =
    match selected key tid xs with
    | [] => get tid m
    | l => Some (bucket m tid ++ l)%list
    end.
Proof.
  intros key. induction xs as [|x xs IH]; intros m tid; [reflexivity|].
  cbn [fold_left]. rewrite IH. unfold selected at 2. cbn [filter].
  fold (selected key tid xs). unfold bucket at 1. rewrite get_push_keyed.
  destruct (keyed_by tid (key x)).
  - destruct (selected key tid xs); [reflexivity|].
    now rewrite <- app_assoc.
  - reflexivity.
Qed.

Lemma NoDup_keys_fold_push_keyed : forall key xs m,
  NoDup (keys m) -> NoDup (keys (fold_left (push_keyed key) xs m)).
Proof.
  intros key. induction xs as [|x xs IH]; intros m H; simpl; [assumption|].
  apply IH. unfold push_keyed. destruct (key x) as [k|]; [|assumption].
  destruct (truthy k); [now apply NoDup_keys_push_at | assumption].
Qed.

End Grouping.

Section Overwriting.
Context {A : Type}.
Implicit Types (m : JsMap.t A) (k : string) (x : A).

Lemma get_set_keyed : forall key m x tid,
  get tid (set_keyed key m x) = if keyed_by tid (key x) then Some x else get tid m.
Proof.
  intros key m x tid. unfold set_keyed, keyed_by.
  destruct (key x) as [k|]; [|reflexivity].
  destruct (truthy k); simpl; [|reflexivity].
  destruct (String.eqb k tid) eqn:E.
  - apply String.eqb_eq in E. subst. apply get_set_same.
  - apply String.eqb_neq in E. now apply get_set_other.
Qed.

Lemma NoDup_keys_fold_set_keyed : forall key xs m,
  NoDup (keys m) -> NoDup (keys (fold_left (set_keyed key) xs m)).
Proof.
  intros key. induction xs as [|x xs IH]; intros m H; simpl; [assumption|].
  apply IH. unfold set_keyed. destruct (key x) as [k|]; [|assumption].
  destruct (truthy k); [now apply NoDup_keys_set | assumption].
Qed.

(** After the loop, [tid] holds the last source record keyed by it. *)
Lemma get_fold_set_keyed : forall key xs m tid,
  exists r,
    last_match (fun x => keyed_by tid (key x)) xs r
    /\ get tid (fold_left (set_keyed key) xs m) =
         match r with Some x => Some x | None => get tid m end.
Proof.
  intros key xs. induction xs as [|x xs IH] using rev_ind; intros m tid.
  - exists None. split; [intros y [] | reflexivity].
  - rewrite fold_left_app. simpl. rewrite get_set_keyed.
    destruct (keyed_by tid (key x)) eqn:E.
    + exists (Some x). split; [|reflexivity].
      exists xs, []. repeat split; [assumption | intros y []].
    + destruct (IH m tid) as (r & Hr & Hget). exists r. split; [|assumption].
      destruct r as [y|]; simpl in *.
      * destruct Hr as (l1 & l2 & -> & HP & Hl2).
        exists l1, (l2 ++ [x])%list. rewrite <- app_assoc. simpl.
        repeat split; [assumption|].
        intros z Hz. apply in_app_iff in Hz. destruct Hz as [Hz|[<-|[]]]; auto.
      * intros z Hz. apply in_app_iff in Hz. destruct Hz as [Hz|[<-|[]]]; auto.
Qed.

Lemma in_keys_fold_set_keyed : forall key xs m tid,
  In tid (keys (fold_left (set_keyed key) xs m)) <->
  In tid (keys m) \/ exists x, In x xs /\ keyed_by tid (key x) = true.
Proof.
  intros key. induction xs as [|x xs IH]; intros m tid; simpl.
  - split; [auto | intros [?|[? [[] _]]]; assumption].
  - rewrite IH. unfold set_keyed at 1, keyed_by.
    destruct (key x) as [k|] eqn:K.
    + destruct (truthy k) eqn:T.
      * rewrite in_keys_set. split.
        -- intros [[->|?]|[y [? ?]]]; eauto.
           right. exists x. rewrite K, T, String.eqb_refl. auto.
        -- intros [?|[y [[<-|?] Hy]]]; eauto.
           rewrite K, T in Hy. simpl in Hy. apply String.eqb_eq in Hy. auto.
      * split; [intros [?|[y [? ?]]]; eauto|].
        intros [?|[y [[<-|?] Hy]]]; eauto. rewrite K, T in Hy. discriminate.
    + split; [intros [?|[y [? ?]]]; eauto|].
      intros [?|[y [[<-|?] Hy]]]; eauto. rewrite K in Hy. discriminate.
Qed.

End Overwriting.

(** The builders change one index each, by the steps above. *)

Lemma taskActionIndex_build : forall taskActions this,
  taskActionIndex (buildTaskActionIndex taskActions this) =
    fold_left (push_keyed actionTaskId) taskActions (taskActionIndex this).
Proof.
  unfold buildTaskActionIndex.
  induction taskActions as [|x xs IH]; intros this; simpl; [reflexivity|].
  rewrite IH. f_equal. unfold push_keyed.
  destruct (actionTaskId x) as [k|]; [destruct (truthy k)|]; reflexivity.
Qed.

Lemma taskHistoryIndex_build : forall taskHistories this,
  taskHistoryIndex (buildTaskHistoryIndex taskHistories this) =
    fold_left (push_keyed historyTaskId) taskHistories (taskHistoryIndex this).
Proof.
  unfold buildTaskHistoryIndex.
  induction taskHistories as [|x xs IH]; intros this; simpl; [reflexivity|].
  rewrite IH. f_equal. unfold push_keyed.
  destruct (historyTaskId x) as [k|]; [destruct (truthy k)|]; reflexivity.
Qed.

Lemma autoAssignmentIndex_build : forall autoAssignments this,
  autoAssignmentIndex (buildAutoAssignmentIndex autoAssignments this) =
    fold_left (set_keyed taskId) autoAssignments (autoAssignmentIndex this).
Proof.
  unfold buildAutoAssignmentIndex.
  induction autoAssignments as [|x xs IH]; intros this; simpl; [reflexivity|].
  rewrite IH. f_equal. unfold set_keyed.
  destruct (taskId x) as [k|]; [destruct (truthy k)|]; reflexivity.
Qed.

Lemma screenOpenIndex_build : forall screenOpenData this,
  screenOpenIndex (buildScreenOpenIndex screenOpenData this) =
    fold_left
      (fun m e =>
         match screenEmail e with
         | Some k => if truthy k then push_at k (screenTimestamp e) m else m
         | None => m
         end)
      screenOpenData (screenOpenIndex this).
Proof.
  unfold buildScreenOpenIndex.
  induction screenOpenData as [|x xs IH]; intros this; simpl; [reflexivity|].
  rewrite IH. f_equal.
  destruct (screenEmail x) as [k|]; [destruct (truthy k)|]; reflexivity.
Qed.

(** The history of a task in the index is its history in the source. *)
Lemma history_of_task : forall taskHistories tid,
  get tid (taskHistoryIndex (buildTaskHistoryIndex taskHistories new)) =
    match selected historyTaskId tid taskHistories with
    | [] => None
    | l => Some l
    end.
Proof.
  intros. rewrite taskHistoryIndex_build, get_fold_push_keyed. reflexivity.
Qed.

(** A first match among the records of a task is a first match in the
    source. *)
Lemma find_in_history : forall taskHistories this tid status code,
  taskHistoryIndex this =
    taskHistoryIndex (buildTaskHistoryIndex taskHistories new) ->
  match get tid (taskHistoryIndex this) with
  | None => None
  | Some histories => findHistory status code histories
  end
  = find (fun h => keyed_by tid (historyTaskId h) && has_codes status code h)
         taskHistories.
Proof.
  intros hs this tid status code ->. rewrite history_of_task.
  unfold findHistory.
  rewrite <- (find_filter _ (has_codes status code)
                (fun h => keyed_by tid (historyTaskId h))).
  fold (selected historyTaskId tid hs).
  now destruct (selected historyTaskId tid hs).
Qed.

End IndexFacts.

(** ** The phase resolver: mode and phase times of a task *)

Module PhaseFacts.
Import Samples.
Import JsString JsDate JsMap JsMapFacts TaskProcessor Spec ListFacts IndexFacts.

(** C3. The mode of a task is Auto when its id is a key of the
    auto-assignment index (whether or not it is a key of the task-action index
    too), else Manual when it is a key of the task-action index, else
    Unknown. *)
Theorem determineMode_priority : forall (this : Processor) (taskId : string),
  (In taskId (keys (autoAssignmentIndex this)) ->
     determineMode this taskId = Auto)
  /\ (~ In taskId (keys (autoAssignmentIndex this)) ->
      In taskId (keys (taskActionIndex this)) ->
        determineMode this taskId = Manual)
  /\ (~ In taskId (keys (autoAssignmentIndex this)) ->
      ~ In taskId (keys (taskActionIndex this)) ->
        determineMode this taskId = Unknown)
  /\ (In taskId (keys (autoAssignmentIndex this)) ->
      In taskId (keys (taskActionIndex this)) ->
        determineMode this taskId = Auto).
Proof.
  intros this taskId. unfold determineMode.
  repeat split; intros H; try intros H'.
  - apply has_true_iff in H. now rewrite H.
  - apply has_false_iff in H. apply has_true_iff in H'. now rewrite H, H'.
  - apply has_false_iff in H. apply has_false_iff in H'. now rewrite H, H'.
  - apply has_true_iff in H. now rewrite H.
Qed.

Lemma determineMode_priority_witness :
  determineMode sample_modes "TASK-1" = Auto
  /\ determineMode sample_modes "TASK-2" = Manual
  /\ determineMode sample_modes "TASK-3" = Unknown.
Proof.
  split; [|split].
  - apply (determineMode_priority sample_modes "TASK-1"); simpl; auto.
  - apply (determineMode_priority sample_modes "TASK-2"); simpl.
    + intros [H|[]]; discriminate.
    + auto.
  - apply (determineMode_priority sample_modes "TASK-3"); simpl.
    + intros [H|[]]; discriminate.
    + intros [H|[H|[]]]; discriminate.
Defined.

(** C4. The created time of a task is the action time stamp of the first
    record of the source, in the order it was read, that carries the task's
    id with status PMA and action IN, and null when the source has no such
    record.  Position decides, not the time stamps. *)
Theorem getCreatedTime_first_in_source_order :
  forall (taskHistories : list TaskHistory) (this : Processor) (taskId : string),
    taskHistoryIndex this =
      taskHistoryIndex (buildTaskHistoryIndex taskHistories new) ->
    exists entry : option TaskHistory,
      first_match
        (fun h => keyed_by taskId (historyTaskId h) && has_codes "PMA" "IN" h)
        taskHistories entry
      /\ getCreatedTime this taskId =
           match entry with
           | Some h => actionTimestamp h
           | None => None
           end.
Proof.
  intros hs this tid Hidx.
  exists (find (fun h => keyed_by tid (historyTaskId h) && has_codes "PMA" "IN" h) hs).
  split; [apply find_first_match|].
  rewrite <- (find_in_history hs this tid "PMA" "IN" Hidx).
  unfold getCreatedTime, timestampOf.
  destruct (get tid (taskHistoryIndex this)); reflexivity.
Qed.

(** Two creation records of one task, the later one read first: the created
    time is that of the record read first. *)
Lemma getCreatedTime_witness :
  getCreatedTime
    (buildTaskHistoryIndex
       [history "TASK-3" "PME" "AS" 50; history "TASK-3" "PMA" "IN" 200;
        history "TASK-3" "PMA" "IN" 100] new)
    "TASK-3"
  = Some (TimeValue 200).
Proof.
  destruct (getCreatedTime_first_in_source_order
              [history "TASK-3" "PME" "AS" 50; history "TASK-3" "PMA" "IN" 200;
               history "TASK-3" "PMA" "IN" 100]
              (buildTaskHistoryIndex
                 [history "TASK-3" "PME" "AS" 50; history "TASK-3" "PMA" "IN" 200;
                  history "TASK-3" "PMA" "IN" 100] new)
              "TASK-3" eq_refl) as (entry & Hfirst & Hget).
  rewrite Hget. apply first_match_unique in Hfirst. rewrite Hfirst. reflexivity.
Defined.

(** C5. The assigned time of a task follows its mode: for Auto it is the
    time stamp of the task's record in the auto-assignment index; for Manual
    and Unknown it is the action time stamp of the first record of the
    source, in the order it was read, that carries the task's id with status
    PME and action AS, and null when there is none. *)
Theorem getAssignedTime_by_mode :
  forall (taskHistories : list TaskHistory) (this : Processor) (taskId : string),
    taskHistoryIndex this =
      taskHistoryIndex (buildTaskHistoryIndex taskHistories new) ->
    match determineMode this taskId with
    | Auto =>
        exists autoAssignment,
          get taskId (autoAssignmentIndex this) = Some autoAssignment
          /\ getAssignedTime this taskId = timestamp autoAssignment
    | Manual | Unknown =>
        exists entry : option TaskHistory,
          first_match
            (fun h => keyed_by taskId (historyTaskId h) && has_codes "PME" "AS" h)
            taskHistories entry
          /\ getAssignedTime this taskId =
               match entry with
               | Some h => actionTimestamp h
               | None => None
               end
    end.
Proof.
  intros hs this tid Hidx.
  assert (Hmanual :
    exists entry : option TaskHistory,
      first_match
        (fun h => keyed_by tid (historyTaskId h) && has_codes "PME" "AS" h)
        hs entry
      /\ getManualAssignedTime this tid =
           match entry with Some h => actionTimestamp h | None => None end).
  { exists (find (fun h => keyed_by tid (historyTaskId h) && has_codes "PME" "AS" h) hs).
    split; [apply find_first_match|].
    rewrite <- (find_in_history hs this tid "PME" "AS" Hidx).
    unfold getManualAssignedTime, timestampOf.
    destruct (get tid (taskHistoryIndex this)); reflexivity. }
  unfold getAssignedTime.
  destruct (determineMode this tid) eqn:Hmode; try exact Hmanual.
  unfold determineMode in Hmode.
  destruct (has tid (autoAssignmentIndex this)) eqn:Hhas.
  - destruct (has_get _ _ Hhas) as [a Ha]. exists a. split; [assumption|].
    unfold getAutoAssignedTime. now rewrite Ha.
  - destruct (has tid (taskActionIndex this)); discriminate.
Qed.

Lemma getAssignedTime_witness :
  getAssignedTime sample_assigned "TASK-2" = Some (TimeValue 7000)
  /\ getAssignedTime sample_assigned "TASK-3" = Some (TimeValue 200)
  /\ getAssignedTime sample_assigned "TASK-4" = None.
Proof.
  split; [|split].
  - pose proof (getAssignedTime_by_mode
                  [history "TASK-2" "PME" "AS" 300; history "TASK-3" "PMA" "IN" 100;
                   history "TASK-3" "PME" "AS" 200; history "TASK-3" "PME" "AS" 150]
                  sample_assigned "TASK-2" eq_refl) as H.
    change (determineMode sample_assigned "TASK-2") with Auto in H.
    destruct H as (a & Ha & ->). simpl in Ha. injection Ha as <-. reflexivity.
  - pose proof (getAssignedTime_by_mode
                  [history "TASK-2" "PME" "AS" 300; history "TASK-3" "PMA" "IN" 100;
                   history "TASK-3" "PME" "AS" 200; history "TASK-3" "PME" "AS" 150]
                  sample_assigned "TASK-3" eq_refl) as H.
    change (determineMode sample_assigned "TASK-3") with Unknown in H.
    destruct H as (entry & Hfirst & ->).
    apply first_match_unique in Hfirst. rewrite Hfirst. reflexivity.
  - pose proof (getAssignedTime_by_mode
                  [history "TASK-2" "PME" "AS" 300; history "TASK-3" "PMA" "IN" 100;
                   history "TASK-3" "PME" "AS" 200; history "TASK-3" "PME" "AS" 150]
                  sample_assigned "TASK-4" eq_refl) as H.
    change (determineMode sample_assigned "TASK-4") with Unknown in H.
    destruct H as (entry & Hfirst & ->).
    apply first_match_unique in Hfirst. rewrite Hfirst. reflexivity.
Defined.

End PhaseFacts.

(** ** The report *)

Module ReportFacts.
Import JsString JsDate JsMap JsMapFacts TaskProcessor Spec ListFacts IndexFacts.

(** The helpers of the first pass read the indexes only. *)
Lemma draftRecord_records : forall this rs tid,
  draftRecord (with_currentReportRecords this rs) tid = draftRecord this tid.
Proof. reflexivity. Qed.

Lemma with_records_same : forall this,
  with_currentReportRecords this (currentReportRecords this) = this.
Proof. now destruct this. Qed.

(** What the first pass writes on the record of a task. *)
Lemma draftRecord_fields : forall this tid r,
  draftRecord this tid = Some r ->
  task r = tid
  /\ mode r = determineMode this tid
  /\ (userName r, userEmail r) = splitUser (resolveUser this tid)
  /\ isoOrEmpty (getCreatedTime this tid) = Some (createdTime r)
  /\ isoOrEmpty (getAssignedTime this tid) = Some (assignedTime r)
  /\ isoOrEmpty (getMakerCompleteTime this tid) = Some (makerCompleteTime r)
  /\ isoOrEmpty (getOpenTime this tid) = Some (openTime r)
  /\ productiveTime r = None /\ waitingTime r = None.
Proof.
  intros this tid r. unfold draftRecord.
  destruct (splitUser (resolveUser this tid)) as [n e].
  destruct (isoOrEmpty (getCreatedTime this tid)); [|discriminate].
  destruct (isoOrEmpty (getAssignedTime this tid)); [|discriminate].
  destruct (isoOrEmpty (getMakerCompleteTime this tid)); [|discriminate].
  destruct (isoOrEmpty (getOpenTime this tid)); [|discriminate].
  intros H. injection H as <-. simpl. repeat split.
Qed.

(** The first pass fails only on a time that is an Invalid Date. *)
Lemma draftRecord_none : forall this tid,
  draftRecord this tid = None ->
  getCreatedTime this tid = Some InvalidDate
  \/ getAssignedTime this tid = Some InvalidDate
  \/ getMakerCompleteTime this tid = Some InvalidDate
  \/ getOpenTime this tid = Some InvalidDate.
Proof.
  intros this tid. unfold draftRecord.
  destruct (splitUser (resolveUser this tid)) as [n e].
  destruct (getCreatedTime this tid) as [[|?]|]; auto.
  all: destruct (getAssignedTime this tid) as [[|?]|]; auto.
  all: destruct (getMakerCompleteTime this tid) as [[|?]|]; auto.
  all: destruct (getOpenTime this tid) as [[|?]|]; auto; discriminate.
Qed.

Lemma firstPass_some : forall ids this this1,
  firstPass ids this = Some this1 ->
  exists drafts,
    Forall2 (fun tid r => draftRecord this tid = Some r) ids drafts
    /\ this1 = with_currentReportRecords this
                 (currentReportRecords this ++ drafts)%list.
Proof.
  induction ids as [|tid ids IH]; intros this this1; simpl.
  - intros H. injection H as <-. exists []. split; [constructor|].
    rewrite app_nil_r. symmetry. apply with_records_same.
  - destruct (draftRecord this tid) as [r|] eqn:Hr; [|discriminate].
    intros H. apply IH in H. destruct H as (drafts & HF & ->).
    exists (r :: drafts). split.
    + constructor; [assumption|]. exact HF.
    + simpl. now rewrite <- app_assoc.
Qed.

Lemma firstPass_none : forall ids this,
  firstPass ids this = None ->
  exists tid, In tid ids /\ draftRecord this tid = None.
Proof.
  induction ids as [|tid ids IH]; intros this; simpl; [discriminate|].
  destruct (draftRecord this tid) as [r|] eqn:Hr.
  - intros H. apply IH in H. destruct H as (tid' & Hin & Hd).
    exists tid'. split; [now right | exact Hd].
  - intros _. exists tid. split; [now left | assumption].
Qed.

Lemma Forall2_draft_tasks : forall this ids drafts,
  Forall2 (fun tid r => draftRecord this tid = Some r) ids drafts ->
  map task drafts = ids.
Proof.
  intros this ids drafts H. induction H as [|tid r ids drafts Hr _ IH]; simpl.
  - reflexivity.
  - apply draftRecord_fields in Hr. destruct Hr as [-> _]. now rewrite IH.
Qed.

(** *** The second pass *)

Lemma find_same_draft : forall tid l l',
  Forall2 same_draft l l' ->
  match find (fun r => String.eqb (task r) tid) l,
        find (fun r => String.eqb (task r) tid) l' with
  | Some a, Some b => same_draft a b
  | None, None => True
  | _, _ => False
  end.
Proof.
  intros tid l l' H. induction H as [|r r' l l' Hr _ IH]; simpl; [exact I|].
  destruct Hr as (Ht & Ha & Hm). rewrite <- Ht.
  destruct (String.eqb (task r) tid); [repeat split; assumption | exact IH].
Qed.

Section WithHost.
Context (host : Host).

Lemma calculateProductiveTime_same_draft : forall this l l' tid,
  Forall2 same_draft l l' ->
  calculateProductiveTime host (with_currentReportRecords this l) tid =
  calculateProductiveTime host (with_currentReportRecords this l') tid.
Proof.
  intros this l l' tid H. unfold calculateProductiveTime, findRecordByTaskId.
  simpl. pose proof (find_same_draft tid l l' H) as Hf.
  destruct (find _ l) as [a|], (find _ l') as [b|]; try contradiction;
    [|reflexivity].
  destruct Hf as (_ & -> & ->). reflexivity.
Qed.

Lemma same_draft_finalize : forall this drafts r r',
  same_draft r r' -> same_draft (finalize host this drafts r) r'.
Proof. intros this drafts r r' H. exact H. Qed.

Lemma update_nth_app : forall (A : Type) (f : A -> A) (l1 : list A) x l2,
  update_nth (List.length l1) f (l1 ++ x :: l2)%list = (l1 ++ f x :: l2)%list.
Proof.
  intros A f. induction l1 as [|y l1 IH]; intros x l2; simpl; [reflexivity|].
  now rewrite IH.
Qed.

Lemma nth_error_middle : forall (A : Type) (l1 : list A) x l2,
  nth_error (l1 ++ x :: l2)%list (List.length l1) = Some x.
Proof.
  intros A. induction l1 as [|y l1 IH]; intros x l2; simpl; [reflexivity|].
  apply IH.
Qed.

Lemma deriveAt_middle : forall this drafts done r todo,
  Forall2 same_draft (done ++ r :: todo)%list drafts ->
  deriveAt host (with_currentReportRecords this (done ++ r :: todo)%list)
    (List.length done)
  = with_currentReportRecords this
      (done ++ finalize host this drafts r :: todo)%list.
Proof.
  intros this drafts done r todo HF. unfold deriveAt.
  cbn [currentReportRecords with_currentReportRecords].
  rewrite nth_error_middle.
  rewrite (calculateProductiveTime_same_draft this _ drafts (task r) HF).
  rewrite update_nth_app.
  cbn [currentReportRecords with_currentReportRecords].
  rewrite update_nth_app. reflexivity.
Qed.

Lemma secondPass_from : forall this drafts todo done,
  Forall2 same_draft (done ++ todo)%list drafts ->
  fold_left (deriveAt host) (seq (List.length done) (List.length todo))
    (with_currentReportRecords this (done ++ todo)%list)
  = with_currentReportRecords this
      (done ++ map (finalize host this drafts) todo)%list.
Proof.
  intros this drafts. induction todo as [|r todo IH]; intros done HF.
  - reflexivity.
  - cbn [List.length seq fold_left map].
    rewrite (deriveAt_middle this drafts done r todo HF).
    replace (done ++ finalize host this drafts r :: todo)%list
      with ((done ++ [finalize host this drafts r]) ++ todo)%list
      by (now rewrite <- app_assoc).
    replace (S (List.length done))
      with (List.length (done ++ [finalize host this drafts r])%list)
      by (rewrite length_app; simpl; lia).
    rewrite IH.
    + now rewrite <- app_assoc.
    + rewrite <- app_assoc. simpl.
      apply Forall2_app_inv_l in HF.
      destruct HF as (d1 & d2 & H1 & H2 & ->).
      apply Forall2_app; [assumption|].
      inversion H2 as [|? r' ? d2' Hr Hrest]; subst.
      constructor; [now apply same_draft_finalize | assumption].
Qed.

Lemma Forall2_same_draft_refl : forall l, Forall2 same_draft l l.
Proof. induction l; constructor; [repeat split | assumption]. Qed.

(** The second pass rewrites every record from the drafts of the first. *)
Lemma secondPass_eq : forall this,
  secondPass host this =
    with_currentReportRecords this
      (map (finalize host this (currentReportRecords this)) (currentReportRecords this)).
Proof.
  intros this. unfold secondPass.
  pose proof (secondPass_from this (currentReportRecords this)
                (currentReportRecords this) []
                (Forall2_same_draft_refl _)) as H.
  simpl in H. rewrite with_records_same in H.
  rewrite H. destruct this; reflexivity.
Qed.

(** [generateReport] in one piece. *)
Lemma generateReport_some : forall this records this',
  generateReport host this = Some (records, this') ->
  exists drafts,
    Forall2 (fun tid r => draftRecord this tid = Some r) (allTaskIds this) drafts
    /\ records = map (finalize host this drafts) drafts.
Proof.
  intros this records this'. unfold generateReport.
  destruct (firstPass _ _) as [this1|] eqn:H1; [|discriminate].
  apply firstPass_some in H1. destruct H1 as (drafts & HF & ->).
  intros H. injection H as <- _. exists drafts. split; [exact HF|].
  rewrite secondPass_eq. reflexivity.
Qed.

Lemma generateReport_none : forall this,
  generateReport host this = None ->
  exists tid, In tid (allTaskIds this) /\ draftRecord this tid = None.
Proof.
  intros this. unfold generateReport.
  destruct (firstPass _ _) as [this1|] eqn:H1; [discriminate|].
  intros _. apply firstPass_none in H1. exact H1.
Qed.

End WithHost.

Lemma in_allTaskIds : forall this tid,
  In tid (allTaskIds this) <->
    In tid (keys (taskActionIndex this))
    \/ In tid (keys (taskHistoryIndex this))
    \/ In tid (keys (autoAssignmentIndex this)).
Proof.
  intros this tid. unfold allTaskIds.
  rewrite !JsSetFacts.in_add_all. simpl. tauto.
Qed.

Lemma NoDup_allTaskIds : forall this, NoDup (allTaskIds this).
Proof.
  intros this. unfold allTaskIds.
  repeat apply JsSetFacts.NoDup_add_all. constructor.
Qed.

Lemma find_by_task : forall (l : list ReportRecord) d,
  NoDup (map task l) -> In d l ->
  find (fun r => String.eqb (task r) (task d)) l = Some d.
Proof.
  induction l as [|x l IH]; intros d Hnd Hin; simpl in *; [contradiction|].
  inversion Hnd as [|? ? Hnotin Hnd']; subst.
  destruct Hin as [->|Hin].
  - now rewrite String.eqb_refl.
  - destruct (String.eqb (task x) (task d)) eqn:E.
    + apply String.eqb_eq in E. exfalso. apply Hnotin. rewrite E.
      now apply in_map.
    + now apply IH.
Qed.

(** A record of the report is the final form of a draft, and the drafts are
    those of the task ids of the report, one each. *)
Lemma report_record_draft : forall host this records this' r,
  generateReport host this = Some (records, this') ->
  In r records ->
  exists drafts d,
    r = finalize host this drafts d
    /\ In d drafts
    /\ NoDup (map task drafts)
    /\ draftRecord this (task d) = Some d.
Proof.
  intros host this records this' r H Hin.
  apply generateReport_some in H. destruct H as (drafts & HF & ->).
  apply in_map_iff in Hin. destruct Hin as (d & <- & Hd).
  exists drafts, d. split; [reflexivity|]. split; [assumption|]. split.
  - rewrite (Forall2_draft_tasks _ _ _ HF). apply NoDup_allTaskIds.
  - clear - HF Hd. induction HF as [|tid x ids l Hx _ IH]; [contradiction|].
    destruct Hd as [->|Hd]; [|now apply IH].
    pose proof (draftRecord_fields _ _ _ Hx) as [<- _]. exact Hx.
Qed.

End ReportFacts.

Module ReportClaims.
Import Samples.
Import JsString JsDate JsMap JsMapFacts TaskProcessor Spec ListFacts IndexFacts.
Import ReportFacts.

(** C7. When [generateReport] returns, its records carry pairwise distinct
    tasks, and the tasks are exactly the keys of the task-action, task-history
    and auto-assignment indexes; a key of the open-time or screen-open index
    that is a key of none of the three is not reported.  It fails to return
    only when a time selected for some task is an Invalid Date. *)
Theorem generateReport_one_record_per_task :
  forall (host : Host) (this : Processor),
    match generateReport host this with
    | Some (records, _) =>
        NoDup (map task records)
        /\ (forall tid,
              In tid (map task records) <->
                In tid (keys (taskActionIndex this))
                \/ In tid (keys (taskHistoryIndex this))
                \/ In tid (keys (autoAssignmentIndex this)))
        /\ (forall tid,
              In tid (keys (openTimeIndex this))
              \/ In tid (keys (screenOpenIndex this)) ->
              ~ In tid (keys (taskActionIndex this)) ->
              ~ In tid (keys (taskHistoryIndex this)) ->
              ~ In tid (keys (autoAssignmentIndex this)) ->
              ~ In tid (map task records))
    | None =>
        exists tid,
          In tid (allTaskIds this)
          /\ (getCreatedTime this tid = Some InvalidDate
              \/ getAssignedTime this tid = Some InvalidDate
              \/ getMakerCompleteTime this tid = Some InvalidDate
              \/ getOpenTime this tid = Some InvalidDate)
    end.
Proof.
  intros host this.
  destruct (generateReport host this) as [[records this']|] eqn:H.
  - apply generateReport_some in H. destruct H as (drafts & HF & ->).
    assert (Htasks : map task (map (finalize host this drafts) drafts)
                     = allTaskIds this).
    { rewrite map_map. simpl.
      change (map (fun x => task x) drafts) with (map task drafts).
      eapply Forall2_draft_tasks; eassumption. }
    rewrite Htasks. split; [apply NoDup_allTaskIds|].
    split; [intros tid; apply in_allTaskIds|].
    intros tid _ H1 H2 H3 Hin. apply in_allTaskIds in Hin. tauto.
  - apply generateReport_none in H. destruct H as (tid & Hin & Hd).
    exists tid. split; [assumption | now apply draftRecord_none].
Qed.

Lemma generateReport_one_record_per_task_witness :
  option_map (fun p => map task (fst p)) (generateReport utc_host sample_report)
    = Some ["TASK-1"; "TASK-3"; "TASK-2"]
  /\ In "TASK-7" (keys (openTimeIndex sample_report))
  /\ In "TASK-9" (keys (screenOpenIndex sample_report))
  /\ forall records this',
       generateReport utc_host sample_report = Some (records, this') ->
       NoDup (map task records)
       /\ ~ In "TASK-7" (map task records)
       /\ ~ In "TASK-9" (map task records).
Proof.
  split; [reflexivity|]. split; [simpl; auto|]. split; [simpl; auto|].
  intros records this' H.
  pose proof (generateReport_one_record_per_task utc_host sample_report) as T.
  rewrite H in T. destruct T as (Hnd & _ & Hout).
  split; [exact Hnd|].
  split; apply Hout; simpl; auto;
    intros Hin; repeat (destruct Hin as [Hin|Hin]; [discriminate|]); exact Hin.
Defined.

(** C1. In a report that [generateReport] returns, the productive time of a
    record is computed from the two texts the first pass stored on it: the
    assigned time and the maker-complete time in their ISO form (or empty).
    It is null when one of the texts is empty, and otherwise what
    [calculateTimeDifferenceMinutes] gives for the two dates read back from
    the texts by [new Date]: null when one of them is an Invalid Date, and
    for two dates at most 2^53 milliseconds apart the whole minutes between
    them. *)
Theorem productiveTime_from_stored_text :
  forall (host : Host) (this : Processor) records this',
    generateReport host this = Some (records, this') ->
    forall r, In r records ->
      isoOrEmpty (getAssignedTime this (task r)) = Some (assignedTime r)
      /\ isoOrEmpty (getMakerCompleteTime this (task r))
           = Some (makerCompleteTime r)
      /\ productiveTime r =
           Some
             (if String.eqb (assignedTime r) ""
                 || String.eqb (makerCompleteTime r) ""
              then None
              else
                DateUtils.calculateTimeDifferenceMinutes
                  (Some (newDate host (assignedTime r)))
                  (Some (newDate host (makerCompleteTime r))))
      /\ (forall a m,
            assignedTime r <> "" -> makerCompleteTime r <> "" ->
            newDate host (assignedTime r) = TimeValue a ->
            newDate host (makerCompleteTime r) = TimeValue m ->
            Z.abs (m - a) <= exact_span ->
            productiveTime r = Some (Some (minutes_between a m)))
      /\ (assignedTime r = "" \/ makerCompleteTime r = ""
          \/ newDate host (assignedTime r) = InvalidDate
          \/ newDate host (makerCompleteTime r) = InvalidDate ->
          productiveTime r = Some None).
Proof.
  intros host this records this' H r Hin.
  destruct (report_record_draft host this records this' r H Hin)
    as (drafts & d & -> & Hd & Hnd & Hdraft).
  apply draftRecord_fields in Hdraft.
  destruct Hdraft as (_ & _ & _ & _ & Ha & Hm & _).
  assert (Hp : productiveTime (finalize host this drafts d) =
               Some
                 (if String.eqb (assignedTime d) ""
                     || String.eqb (makerCompleteTime d) ""
                  then None
                  else
                    DateUtils.calculateTimeDifferenceMinutes
                      (Some (newDate host (assignedTime d)))
                      (Some (newDate host (makerCompleteTime d))))).
  { cbn [finalize set_waitingTime set_productiveTime productiveTime].
    f_equal. unfold calculateProductiveTime, findRecordByTaskId.
    cbn [currentReportRecords with_currentReportRecords].
    rewrite (find_by_task drafts d Hnd Hd).
    unfold reparse, truthy.
    destruct (String.eqb (assignedTime d) ""); [reflexivity|].
    destruct (String.eqb (makerCompleteTime d) ""); [reflexivity|].
    reflexivity. }
  change (task (finalize host this drafts d)) with (task d).
  change (assignedTime (finalize host this drafts d)) with (assignedTime d).
  change (makerCompleteTime (finalize host this drafts d))
    with (makerCompleteTime d).
  split; [exact Ha|]. split; [exact Hm|]. split; [exact Hp|].
  rewrite Hp. split.
  - intros a m Hna Hnm Ea Em _.
    apply String.eqb_neq in Hna. apply String.eqb_neq in Hnm.
    rewrite Hna, Hnm, Ea, Em. reflexivity.
  - intros [-> | [-> | [-> | ->]]]; try reflexivity.
    + now rewrite orb_true_r.
    + now destruct (_ || _).
    + destruct (_ || _); [reflexivity|].
      now destruct (newDate host (assignedTime d)).
Qed.

Lemma productiveTime_from_stored_text_witness :
  option_map
    (fun p => map (fun r => (task r, assignedTime r, makerCompleteTime r,
                             productiveTime r)) (fst p))
    (generateReport utc_host sample_report)
  = Some [ ("TASK-1", "1970-01-01T00:00:08.000Z", "", Some None);
           ("TASK-3", "1970-01-01T00:03:20.000Z", "1970-01-01T00:08:20.000Z",
            Some (Some 5));
           ("TASK-2", "1970-01-01T00:00:07.000Z", "", Some None) ]
  /\ forall r,
       In r (match generateReport utc_host sample_report with
             | Some (records, _) => records
             | None => []
             end) ->
       makerCompleteTime r = "" -> productiveTime r = Some None.
Proof.
  split; [reflexivity|].
  destruct (generateReport utc_host sample_report) as [[records this']|] eqn:H;
    [|intros r []].
  intros r Hin Hempty.
  apply (productiveTime_from_stored_text utc_host sample_report records this' H r Hin).
  right. left. exact Hempty.
Defined.

End ReportClaims.

(** ** The auto-assignment index *)

Module AutoAssignmentFacts.
Import JsString JsDate JsMap JsMapFacts TaskProcessor Spec IndexFacts.
Import JsonParser.

Lemma strip_prefix_some : forall p s r,
  strip_prefix p s = Some r <-> s = p ++ r.
Proof.
  induction p as [|a p IH]; intros s r; simpl.
  - split; [intros [= ->] | intros ->]; reflexivity.
  - destruct s as [|b s]; [split; discriminate|].
    destruct (Ascii.eqb a b) eqn:E.
    + apply Ascii.eqb_eq in E. subst b. rewrite IH.
      split; [intros -> | intros [= ->]]; reflexivity.
    + apply Ascii.eqb_neq in E. split; [discriminate|].
      intros [= <- _]. contradiction.
Qed.

Lemma span_digits_eq : forall s ds r,
  span_digits s = (ds, r) -> s = ds ++ r /\ all_digits ds = true.
Proof.
  induction s as [|c s IH]; intros ds r; simpl.
  - intros [= <- <-]. split; reflexivity.
  - destruct (is_digit c) eqn:E.
    + destruct (span_digits s) as [ds' r'] eqn:Hs. intros [= <- <-].
      destruct (IH ds' r' eq_refl) as [-> Hd]. simpl. rewrite E, Hd.
      split; reflexivity.
    + intros [= <- <-]. split; reflexivity.
Qed.

Lemma task_id_at_some : forall s m,
  task_id_at s = Some m ->
  exists ds post,
    s = m ++ post /\ m = "TASK-" ++ ds /\ ds <> "" /\ all_digits ds = true.
Proof.
  intros s m. unfold task_id_at.
  destruct (strip_prefix "TASK-" s) as [r|] eqn:Hp; [|discriminate].
  apply strip_prefix_some in Hp. subst s.
  destruct (span_digits r) as [ds post] eqn:Hs.
  apply span_digits_eq in Hs. destruct Hs as [-> Hd].
  destruct ds as [|d ds]; [discriminate|].
  intros [= <-]. exists (String d ds), post.
  split; [|split; [|split]];
    [simpl; reflexivity | reflexivity | discriminate | assumption].
Qed.

(** The match of [TASK-\\d+] is a piece of the text: "TASK-" and at least
    one digit. *)
Lemma taskIdMatch_some : forall s m,
  taskIdMatch s = Some m ->
  contains m s
  /\ exists ds, m = "TASK-" ++ ds /\ ds <> "" /\ all_digits ds = true.
Proof.
  induction s as [|c s IH]; intros m; simpl.
  - unfold task_id_at. simpl. discriminate.
  - destruct (task_id_at (String c s)) as [m'|] eqn:Hat.
    + intros [= <-]. apply task_id_at_some in Hat.
      destruct Hat as (ds & post & Hs & Hm & Hne & Hd).
      split; [exists "", post; exact Hs | exists ds; auto].
    + intros H. apply IH in H. destruct H as [(pre & post & ->) Hds].
      split; [|exact Hds]. exists (String c pre), post. reflexivity.
Qed.

Lemma taskIdMatch_mentions : forall text,
  mentions_task text -> taskIdMatch text <> None.
Proof.
  intros text (pre & d & post & -> & Hd).
  induction pre as [|c pre IH].
  - simpl. unfold task_id_at. simpl. rewrite Hd.
    destruct (span_digits post). discriminate.
  - change (String c pre ++ "TASK-" ++ String d post)
      with (String c (pre ++ "TASK-" ++ String d post)).
    cbn [taskIdMatch].
    destruct (task_id_at _); [discriminate | exact IH].
Qed.

Lemma taskIdMatch_none_iff : forall text,
  taskIdMatch text = None <-> ~ mentions_task text.
Proof.
  intros text. split.
  - intros H Hm. now apply taskIdMatch_mentions in Hm.
  - intros Hn. destruct (taskIdMatch text) as [m|] eqn:H; [|reflexivity].
    exfalso. apply Hn. apply taskIdMatch_some in H.
    destruct H as [(pre & post & ->) (ds & -> & Hne & Hd)].
    destruct ds as [|d ds]; [contradiction|].
    simpl in Hd. apply andb_prop in Hd. destruct Hd as [Hd _].
    exists pre, d, (ds ++ post). split; [|assumption].
    simpl. reflexivity.
Qed.

Section WithHost.
Context (host : Host).

(** Every assignment extracted names a task of the text and carries a valid
    time. *)
Lemma extractAutoAssignment_some : forall item a,
  extractAutoAssignment host item = Some a ->
  exists tid t text,
    taskId a = Some tid /\ truthy tid = true
    /\ TaskProcessor.timestamp a = Some (TimeValue t)
    /\ textPayload item = Some text /\ contains tid text
    /\ (exists ds, tid = "TASK-" ++ ds /\ ds <> "" /\ all_digits ds = true).
Proof.
  intros item a. unfold extractAutoAssignment.
  destruct (textPayload item) as [text|]; [|discriminate].
  destruct (truthy text); [|discriminate]. cbn [negb].
  destruct (taskIdMatch text) as [tid|] eqn:Hm; [|discriminate].
  apply taskIdMatch_some in Hm. destruct Hm as [Hc (ds & Hds & Hne & Hd)].
  match goal with
  | |- match ?ts with _ => _ end = _ -> _ => destruct ts as [[|t]|]
  end; try discriminate.
  intros [= <-]. exists tid, t, text. cbn.
  repeat split; try assumption.
  - subst tid. reflexivity.
  - exists ds. auto.
Qed.

(** An entry without a payload, without a task in its payload, with a time
    stamp of its own that is not a date, or without a time stamp of its own
    and none to be had from the payload, gives no assignment. *)
Lemma extractAutoAssignment_none : forall item,
  textPayload item = None
  \/ (exists text, textPayload item = Some text /\ ~ mentions_task text)
  \/ (exists t, timestamp item = Some t /\ t <> ""
                /\ newDate host t = InvalidDate)
  \/ ((timestamp item = None \/ timestamp item = Some "")
      /\ DateUtils.extractTimestampFromTextPayload host (textPayload item)
         = None) ->
  extractAutoAssignment host item = None.
Proof.
  intros item H. unfold extractAutoAssignment.
  destruct (textPayload item) as [text|] eqn:Htext; [|reflexivity].
  destruct (truthy text); [|reflexivity]. cbn [negb].
  destruct H as [H | [(text' & H & Hn) | [(t & Ht & Hne & Hinv) | [Ht Hnone]]]].
  - discriminate.
  - injection H as <-. apply taskIdMatch_none_iff in Hn. now rewrite Hn.
  - destruct (taskIdMatch text); [|reflexivity].
    rewrite Ht. unfold truthy.
    destruct (String.eqb t "") eqn:E; [apply String.eqb_eq in E; contradiction|].
    cbn [negb]. now rewrite Hinv.
  - destruct (taskIdMatch text); [|reflexivity].
    destruct Ht as [-> | ->];
      cbn -[DateUtils.extractTimestampFromTextPayload]; now rewrite Hnone.
Qed.

(** An entry that gives no assignment leaves no trace in what is indexed. *)
Lemma extractAll_skip : forall l1 item l2,
  extractAutoAssignment host item = None ->
  extractAll host (l1 ++ item :: l2) = extractAll host (l1 ++ l2).
Proof.
  induction l1 as [|x l1 IH]; intros item l2 H; simpl.
  - now rewrite H.
  - rewrite (IH item l2 H). reflexivity.
Qed.

Lemma in_extractAll : forall jsonData a,
  In a (extractAll host jsonData) <->
  exists item, In item jsonData /\ extractAutoAssignment host item = Some a.
Proof.
  induction jsonData as [|x l IH]; intros a; simpl.
  - split; [contradiction | intros (? & [] & _)].
  - destruct (extractAutoAssignment host x) as [b|] eqn:Hx; simpl; rewrite IH.
    + split.
      * intros [<-|(item & Hin & He)]; [exists x; auto | exists item; auto].
      * intros (item & [<-|Hin] & He); [left; congruence | right; eauto].
    + split.
      * intros (item & Hin & He). exists item; auto.
      * intros (item & [<-|Hin] & He); [congruence | eauto].
Qed.

End WithHost.

(** C10. The auto-assignment index built from a list of assignments has
    pairwise distinct keys, and under a task id it holds the last assignment
    of the list that carries the id (none when no assignment carries it).
    An entry of the log from which no task id or no valid time can be
    extracted gives no assignment, so nothing of it reaches the index; every
    assignment extracted names a task of its text and carries a valid
    time. *)
Theorem autoAssignmentIndex_last_write_wins :
  forall (host : Host) (autoAssignments : list AutoAssignment),
    let index :=
      autoAssignmentIndex (buildAutoAssignmentIndex autoAssignments new) in
    NoDup (keys index)
    /\ (forall tid,
          exists r,
            last_match (fun a => keyed_by tid (taskId a)) autoAssignments r
            /\ get tid index = r)
    /\ (forall item,
          textPayload item = None
          \/ (exists text, textPayload item = Some text /\ ~ mentions_task text)
          \/ (exists t, JsonParser.timestamp item = Some t /\ t <> ""
                        /\ newDate host t = InvalidDate)
          \/ ((JsonParser.timestamp item = None
               \/ JsonParser.timestamp item = Some "")
              /\ DateUtils.extractTimestampFromTextPayload host
                   (textPayload item) = None) ->
          extractAutoAssignment host item = None
          /\ forall l1 l2,
               autoAssignmentIndex
                 (buildAutoAssignmentIndex
                    (extractAll host (l1 ++ item :: l2)) new)
               = autoAssignmentIndex
                   (buildAutoAssignmentIndex (extractAll host (l1 ++ l2)) new))
    /\ (forall jsonData tid a,
          get tid
            (autoAssignmentIndex
               (buildAutoAssignmentIndex (extractAll host jsonData) new))
            = Some a ->
          taskId a = Some tid
          /\ (exists t, TaskProcessor.timestamp a = Some (TimeValue t))
          /\ exists item text,
               In item jsonData /\ textPayload item = Some text
               /\ contains tid text).
Proof.
  intros host autoAssignments index. subst index.
  rewrite autoAssignmentIndex_build.
  split; [apply NoDup_keys_fold_set_keyed; constructor|].
  split.
  { intros tid.
    destruct (get_fold_set_keyed TaskProcessor.taskId autoAssignments
                (autoAssignmentIndex new) tid) as (r & Hr & Hget).
    exists r. split; [exact Hr|].
    refine (eq_trans Hget _). now destruct r. }
  split.
  { intros item H. pose proof (extractAutoAssignment_none host item H) as Hn.
    split; [exact Hn|]. intros l1 l2. now rewrite (extractAll_skip host l1 item l2 Hn). }
  intros jsonData tid a Hget.
  rewrite autoAssignmentIndex_build in Hget.
  destruct (get_fold_set_keyed TaskProcessor.taskId (extractAll host jsonData)
              (autoAssignmentIndex new) tid) as (r & Hr & Hget').
  pose proof (eq_trans (eq_sym Hget) Hget') as Heq. clear Hget Hget'.
  destruct r as [x|]; [|discriminate].
  injection Heq as ->.
  destruct Hr as (l1 & l2 & Hl & Hkey & _).
  assert (Hin : In x (extractAll host jsonData))
    by (rewrite Hl; apply in_app_iff; right; now left).
  apply in_extractAll in Hin. destruct Hin as (item & Hitem & He).
  apply extractAutoAssignment_some in He.
  destruct He as (tid' & t & text & Htid & _ & Ht & Htext & Hc & _).
  unfold keyed_by, TaskProcessor.taskId in Hkey. rewrite Htid in Hkey.
  apply andb_prop in Hkey. destruct Hkey as [_ Hk].
  apply String.eqb_eq in Hk. subst tid'.
  split; [exact Htid|]. split; [exists t; exact Ht|].
  exists item, text. auto.
Qed.

End AutoAssignmentFacts.

(** ** The auto task open analysis *)

Module AnalysisFacts.
Import Samples.
Import JsString JsDate JsMap JsMapFacts TaskProcessor Spec IndexFacts.

Lemma least_le_first : forall ts t, least t ts <= t.
Proof.
  unfold least. induction ts as [|x ts IH]; intros t; simpl; [lia|].
  specialize (IH (Z.min t x)). lia.
Qed.

Lemma least_le : forall ts t x, In x ts -> least t ts <= x.
Proof.
  unfold least. induction ts as [|y ts IH]; intros t x; simpl; [contradiction|].
  intros [->|Hin]; [|now apply IH].
  pose proof (least_le_first ts (Z.min t x)). unfold least in *. lia.
Qed.

Lemma least_in : forall ts t, least t ts = t \/ In (least t ts) ts.
Proof.
  unfold least. induction ts as [|y ts IH]; intros t; simpl; [now left|].
  destruct (IH (Z.min t y)) as [H|H]; [|now right; right].
  rewrite H. destruct (Z.min_spec t y) as [[_ ->]|[_ ->]]; auto.
Qed.

(** On dates that are all present and valid, the reduction of
    [getFirstScreenOpenTime] returns the least of them. *)
Lemma reduceEarliest_valid : forall ts t,
  reduceEarliest (valid t) (map valid ts) = valid (least t ts).
Proof.
  unfold reduceEarliest, least.
  induction ts as [|x ts IH]; intros t; simpl; [reflexivity|].
  unfold lessThan at 2. simpl.
  destruct (Z.ltb_spec x t).
  - replace (Z.min t x) with x by lia. apply IH.
  - replace (Z.min t x) with t by lia. apply IH.
Qed.

(** The least element does not depend on the order of the list. *)
Lemma least_permutation : forall t ts t' ts',
  (forall x, t = x \/ In x ts <-> t' = x \/ In x ts') ->
  least t ts = least t' ts'.
Proof.
  intros t ts t' ts' H.
  assert (H1 : least t ts <= least t' ts').
  { destruct (least_in ts' t') as [E|E].
    - rewrite E. destruct (proj2 (H t') (or_introl eq_refl)) as [<-|Hin];
        [apply least_le_first | now apply least_le].
    - destruct (proj2 (H _) (or_intror E)) as [<-|Hin];
        [apply least_le_first | now apply least_le]. }
  assert (H2 : least t' ts' <= least t ts).
  { destruct (least_in ts t) as [E|E].
    - rewrite E. destruct (proj1 (H t) (or_introl eq_refl)) as [<-|Hin];
        [apply least_le_first | now apply least_le].
    - destruct (proj1 (H _) (or_intror E)) as [<-|Hin];
        [apply least_le_first | now apply least_le]. }
  lia.
Qed.

(** The times of the screen-open events of a user, as the index holds
    them: in the order of the source. *)
Lemma screen_open_of_user : forall screenOpenData e,
  get e (screenOpenIndex (buildScreenOpenIndex screenOpenData new)) =
    match map screenTimestamp (selected screenEmail e screenOpenData) with
    | [] => None
    | l => Some l
    end.
Proof.
  intros data e. rewrite screenOpenIndex_build.
  assert (G : forall m,
    get e (fold_left
             (fun m ev =>
                match screenEmail ev with
                | Some k => if truthy k then push_at k (screenTimestamp ev) m else m
                | None => m
                end) data m)
    = match map screenTimestamp (selected screenEmail e data) with
      | [] => get e m
      | l => Some (bucket m e ++ l)%list
      end).
  { induction data as [|ev data IH]; intros m; [reflexivity|].
    cbn [fold_left]. rewrite IH. unfold selected at 2. cbn [filter].
    fold (selected screenEmail e data). unfold keyed_by, bucket at 1.
    destruct (screenEmail ev) as [k|]; [|reflexivity].
    destruct (truthy k); [|reflexivity]. cbn [andb].
    destruct (String.eqb k e) eqn:E.
    - apply String.eqb_eq in E. subst k. rewrite get_push_at_same. cbn [map].
      destruct (map screenTimestamp (selected screenEmail e data));
        [reflexivity | now rewrite <- app_assoc].
    - apply String.eqb_neq in E. rewrite (get_push_at_other _ _ _ _ E).
      reflexivity. }
  rewrite G.
  destruct (map screenTimestamp (selected screenEmail e data)); reflexivity.
Qed.

(** Where every screen-open event of a user carries a valid date, the first
    screen-open time of the user is the least of the dates, whatever the
    order in which the events were read. *)
Theorem getFirstScreenOpenTime_least_of_valid :
  forall (screenOpenData : list ScreenOpen) (this : Processor) (e : string)
         (t : Z) (ts : list Z),
    screenOpenIndex this =
      screenOpenIndex (buildScreenOpenIndex screenOpenData new) ->
    map screenTimestamp (selected screenEmail e screenOpenData)
      = map valid (t :: ts) ->
    getFirstScreenOpenTime this (Some e) = valid (least t ts)
    /\ (forall x, In x (t :: ts) -> least t ts <= x)
    /\ In (least t ts) (t :: ts)
    /\ (forall screenOpenData' this' t' ts',
          screenOpenIndex this' =
            screenOpenIndex (buildScreenOpenIndex screenOpenData' new) ->
          map screenTimestamp (selected screenEmail e screenOpenData')
            = map valid (t' :: ts') ->
          (forall x, In x (t :: ts) <-> In x (t' :: ts')) ->
          getFirstScreenOpenTime this' (Some e)
            = getFirstScreenOpenTime this (Some e)).
Proof.
  assert (G : forall data this e t ts,
    screenOpenIndex this = screenOpenIndex (buildScreenOpenIndex data new) ->
    map screenTimestamp (selected screenEmail e data) = map valid (t :: ts) ->
    getFirstScreenOpenTime this (Some e) = valid (least t ts)).
  { intros data this e t ts Hidx Hsel. unfold getFirstScreenOpenTime.
    rewrite Hidx, screen_open_of_user, Hsel. cbn [map].
    apply reduceEarliest_valid. }
  intros data this e t ts Hidx Hsel.
  split; [now apply (G data)|].
  split; [intros x [<-|Hin]; [apply least_le_first | now apply least_le]|].
  split; [destruct (least_in ts t) as [->|H]; [now left | now right]|].
  intros data' this' t' ts' Hidx' Hsel' Hsame.
  rewrite (G data this e t ts Hidx Hsel), (G data' this' e t' ts' Hidx' Hsel').
  unfold valid. do 2 f_equal. apply least_permutation.
  intros x. symmetry. apply Hsame.
Qed.

(** Two events of one user, read in either order. *)
Lemma getFirstScreenOpenTime_witness :
  getFirstScreenOpenTime
    (buildScreenOpenIndex
       [screenOpen "u@x.com" (valid 500); screenOpen "v@x.com" (valid 100);
        screenOpen "u@x.com" (valid 300)] new) (Some "u@x.com")
  = valid 300
  /\ getFirstScreenOpenTime
       (buildScreenOpenIndex
          [screenOpen "u@x.com" (valid 300); screenOpen "u@x.com" (valid 500)]
          new) (Some "u@x.com")
     = valid 300.
Proof.
  split.
  - apply (getFirstScreenOpenTime_least_of_valid
             [screenOpen "u@x.com" (valid 500); screenOpen "v@x.com" (valid 100);
              screenOpen "u@x.com" (valid 300)] _ "u@x.com" 500 [300]);
      reflexivity.
  - apply (getFirstScreenOpenTime_least_of_valid
             [screenOpen "u@x.com" (valid 300); screenOpen "u@x.com" (valid 500)]
             _ "u@x.com" 300 [500]);
      reflexivity.
Defined.

Lemma analysisRecord_some : forall this tid a row,
  analysisRecord this tid a = Some row ->
  aTaskId row = tid
  /\ timeToOpenMinutes row =
       match instant (timestamp a),
             instant (getFirstScreenOpenTime this (email a)) with
       | Some x, Some y => if x <? y then Some (minutes_between x y) else None
       | _, _ => None
       end
  /\ screenOpenCount row = List.length (getScreenOpenTimes this (email a)).
Proof.
  intros this tid a row. unfold analysisRecord.
  destruct (timestamp a) as [[|x]|];
    destruct (getFirstScreenOpenTime this (email a)) as [[|y]|];
    cbn -[Z.ltb]; try discriminate;
    intros H; injection H as <-; repeat split.
Qed.

(** The rows of the analysis: one per entry of the auto-assignment index, in
    its order; the time to open is what [calculateTimeDifferenceMinutes]
    gives for the assignment and the first screen-open time of the user when
    both are there and the second is after the first, and null otherwise;
    for two times at most 2^53 milliseconds apart it is the whole minutes
    from the first to the second. *)
Theorem generateAutoTaskOpenAnalysis_rows : forall (this : Processor) rows,
  generateAutoTaskOpenAnalysis this = Some rows ->
  Forall2
    (fun (entry : string * AutoAssignment) row =>
       aTaskId row = fst entry
       /\ timeToOpenMinutes row =
            match instant (timestamp (snd entry)),
                  instant (getFirstScreenOpenTime this (email (snd entry))) with
            | Some x, Some y =>
                if x <? y
                then DateUtils.calculateTimeDifferenceMinutes (valid x) (valid y)
                else None
            | _, _ => None
            end
       /\ (forall x y,
             instant (timestamp (snd entry)) = Some x ->
             instant (getFirstScreenOpenTime this (email (snd entry))) = Some y ->
             x < y -> y - x <= exact_span ->
             timeToOpenMinutes row = Some (minutes_between x y)))
    (autoAssignmentIndex this) rows.
Proof.
  intros this. unfold generateAutoTaskOpenAnalysis.
  induction (autoAssignmentIndex this) as [|[tid a] entries IH]; intros rows;
    cbn [analysisOf].
  - intros H. injection H as <-. constructor.
  - destruct (analysisRecord this tid a) as [row|] eqn:Hrow; [|discriminate].
    destruct (analysisOf this entries) as [rest|]; [|discriminate].
    intros H. injection H as <-. constructor; [|now apply IH].
    apply analysisRecord_some in Hrow. destruct Hrow as (H1 & H2 & _).
    cbn [fst snd]. split; [exact H1|]. split; [exact H2|].
    intros x y Hx Hy Hlt _. rewrite H2, Hx, Hy.
    apply Z.ltb_lt in Hlt. now rewrite Hlt.
Qed.

Lemma generateAutoTaskOpenAnalysis_witness :
  option_map (map timeToOpenMinutes) (generateAutoTaskOpenAnalysis sample_analysis)
  = Some [Some 2].
Proof.
  destruct (generateAutoTaskOpenAnalysis sample_analysis) as [rows|] eqn:H;
    [|discriminate].
  pose proof (generateAutoTaskOpenAnalysis_rows sample_analysis rows H) as HF.
  inversion HF as [|entry row entries rows' (_ & _ & Hrow) Hrest]; subst.
  inversion Hrest; subst. cbn [option_map map].
  rewrite (Hrow 60000 180000 eq_refl eq_refl ltac:(lia) ltac:(vm_compute; discriminate)).
  reflexivity.
Defined.

(** C9, on an input that breaks it.  A user has two screen-open events: one
    two minutes after the assignment of task TASK-1, and one whose time
    stamp could not be parsed (null; the index keeps it).  The first
    screen-open time of the user comes out null, and with it the time to
    open, although the user has a screen-open time after the assignment.
    And with an event at the epoch the result depends on the order of the
    events. *)
Theorem getFirstScreenOpenTime_null_entry :
  let assignment :=
    {| JsonParser.taskId := Some "TASK-1"; JsonParser.email := Some "u@x.com";
       JsonParser.assignmentTimestamp := valid 60000 |} in
  let this :=
    buildScreenOpenIndex
      [screenOpen "u@x.com" (valid 180000); screenOpen "u@x.com" None]
      (buildAutoAssignmentIndex [assignment] new) in
  getFirstScreenOpenTime this (Some "u@x.com") = None
  /\ option_map (map timeToOpenMinutes) (generateAutoTaskOpenAnalysis this)
     = Some [None]
  /\ getFirstScreenOpenTime
       (buildScreenOpenIndex
          [screenOpen "u@x.com" (valid 0); screenOpen "u@x.com" None] new)
       (Some "u@x.com") = valid 0
  /\ getFirstScreenOpenTime
       (buildScreenOpenIndex
          [screenOpen "u@x.com" None; screenOpen "u@x.com" (valid 0)] new)
       (Some "u@x.com") = None.
Proof. repeat split. Qed.

End AnalysisFacts.

(** ** The user of a record *)

Module UserFacts.
Import JsString JsDate JsMap JsMapFacts TaskProcessor Spec.
Import AutoAssignmentFacts ReportFacts.

Lemma split_last_snoc : forall s c, split_last (s ++ String c "") = Some (s, c).
Proof.
  induction s as [|a s IH]; intros c; simpl; [reflexivity|].
  now rewrite IH.
Qed.

Lemma split_last_some : forall s init c,
  split_last s = Some (init, c) -> s = init ++ String c "".
Proof.
  induction s as [|a s IH]; intros init c; simpl; [discriminate|].
  destruct (split_last s) as [[i l]|] eqn:E.
  - intros H. injection H as <- <-. simpl. f_equal. now apply IH.
  - intros H. injection H as <- <-. destruct s; [reflexivity|].
    simpl in E. destruct (split_last s) as [[? ?]|]; discriminate.
Qed.

Lemma append_assoc : forall a b c : string, (a ++ b) ++ c = a ++ (b ++ c).
Proof.
  induction a as [|x a IH]; intros b c; simpl; [reflexivity|].
  now rewrite IH.
Qed.

Lemma append_nil_r : forall s : string, s ++ "" = s.
Proof. induction s; simpl; [reflexivity | now f_equal]. Qed.

(** What the pattern takes apart, it takes apart at " (" and the final
    ")". *)
Lemma paren_tail_some : forall s g2,
  paren_tail s = Some g2 ->
  s = " (" ++ g2 ++ ")" /\ no_line_terminator g2 = true.
Proof.
  intros s g2. unfold paren_tail.
  destruct (strip_prefix " (" s) as [r|] eqn:Hp; [|discriminate].
  apply strip_prefix_some in Hp. subst s.
  destruct (split_last r) as [[g c]|] eqn:Hs; [|discriminate].
  apply split_last_some in Hs. subst r.
  destruct (Ascii.eqb c ")") eqn:Hc; [|discriminate].
  apply Ascii.eqb_eq in Hc. subst c.
  destruct (no_line_terminator g) eqn:Hn; [|discriminate].
  intros [= <-]. split; [reflexivity | assumption].
Qed.

Lemma userMatchFrom_some : forall s g1 name mail,
  userMatchFrom g1 s = Some (name, mail) ->
  exists g, name = g1 ++ g /\ s = g ++ " (" ++ mail ++ ")"
            /\ no_line_terminator g = true /\ no_line_terminator mail = true.
Proof.
  induction s as [|c s IH]; intros g1 name mail; cbn [userMatchFrom].
  - destruct (paren_tail "") as [g2|] eqn:Hp; [|discriminate].
    apply paren_tail_some in Hp. destruct Hp as [Hp _]. discriminate.
  - destruct (paren_tail (String c s)) as [g2|] eqn:Hp.
    + intros H. injection H as <- <-.
      apply paren_tail_some in Hp. destruct Hp as [Hp Hn].
      exists "". rewrite Hp. repeat split; try assumption.
      symmetry. apply append_nil_r.
    + destruct (is_line_terminator c) eqn:Hc; [discriminate|].
      intros H. apply IH in H. destruct H as (g & -> & -> & Hg & Hm).
      exists (String c g). rewrite append_assoc. simpl.
      rewrite Hc, Hg. repeat split; assumption.
Qed.

(** The pattern of [generateReport] takes a user of the form
    "name (mail)" apart into a name and a mail that give the user back; a
    user it does not match is not of that form. *)
Lemma userMatch_some : forall user name mail,
  userMatch user = Some (name, mail) -> user = name ++ " (" ++ mail ++ ")".
Proof.
  intros user name mail H. apply userMatchFrom_some in H.
  destruct H as (g & -> & -> & _). reflexivity.
Qed.

Lemma paren_tail_of : forall mail,
  no_line_terminator mail = true -> paren_tail (" (" ++ mail ++ ")") = Some mail.
Proof.
  intros mail H. unfold paren_tail. simpl.
  rewrite split_last_snoc. simpl. now rewrite H.
Qed.

Lemma userMatchFrom_none : forall s g1,
  userMatchFrom g1 s = None ->
  forall name mail,
    no_line_terminator name = true -> no_line_terminator mail = true ->
    s <> name ++ " (" ++ mail ++ ")".
Proof.
  induction s as [|c s IH]; intros g1 H name mail Hn Hm Heq.
  - destruct name; discriminate.
  - cbn [userMatchFrom] in H.
    destruct (paren_tail (String c s)) as [g2|] eqn:Hp; [discriminate|].
    destruct name as [|a name].
    + simpl in Heq. rewrite Heq in Hp.
      change (String " " (String "(" (mail ++ ")"))) with (" (" ++ mail ++ ")") in Hp.
      rewrite (paren_tail_of mail Hm) in Hp. discriminate.
    + simpl in Heq. injection Heq as -> ->.
      simpl in Hn. apply andb_prop in Hn. destruct Hn as [Ha Hn].
      apply negb_true_iff in Ha. rewrite Ha in H.
      now apply (IH _ H name mail).
Qed.

Lemma userMatchFrom_head : forall s g1 g2,
  paren_tail s = Some g2 -> userMatchFrom g1 s = Some (g1, g2).
Proof. intros s g1 g2 H. destruct s; cbn [userMatchFrom]; now rewrite H. Qed.

(** A name without " (" in it and a mail, both without line terminators,
    come back from "name (mail)" as they went in. *)
Lemma userMatchFrom_display : forall name g1 mail,
  no_line_terminator name = true -> no_line_terminator mail = true ->
  ~ contains " (" name ->
  userMatchFrom g1 (name ++ " (" ++ mail ++ ")") = Some (g1 ++ name, mail).
Proof.
  induction name as [|c name IH]; intros g1 mail Hn Hm Hc.
  - change ("" ++ " (" ++ mail ++ ")") with (" (" ++ mail ++ ")").
    rewrite (userMatchFrom_head _ g1 mail (paren_tail_of mail Hm)).
    now rewrite append_nil_r.
  - change (String c name ++ " (" ++ mail ++ ")")
      with (String c (name ++ " (" ++ mail ++ ")")).
    cbn [userMatchFrom].
    destruct (paren_tail (String c (name ++ " (" ++ mail ++ ")"))) as [g2|] eqn:Hp.
    + exfalso. apply Hc. unfold paren_tail in Hp.
      destruct (strip_prefix " (" (String c (name ++ " (" ++ mail ++ ")")))
        as [r|] eqn:Hs; [|discriminate].
      apply strip_prefix_some in Hs. simpl in Hs. injection Hs as -> Hs.
      destruct name as [|b name].
      * simpl in Hs. discriminate.
      * simpl in Hs. injection Hs as -> _. exists "", name. reflexivity.
    + simpl in Hn. apply andb_prop in Hn. destruct Hn as [Ha Hn].
      apply negb_true_iff in Ha. rewrite Ha.
      rewrite IH; [| assumption | assumption |].
      * now rewrite append_assoc.
      * intros (pre & post & ->). apply Hc. exists (String c pre), post.
        reflexivity.
Qed.

Lemma splitUser_display : forall name mail,
  no_line_terminator name = true -> no_line_terminator mail = true ->
  ~ contains " (" name ->
  splitUser (name ++ " (" ++ mail ++ ")") = (name, mail).
Proof.
  intros name mail Hn Hm Hc. unfold splitUser, userMatch.
  rewrite (userMatchFrom_display name "" mail Hn Hm Hc).
  destruct (String.eqb (name ++ " (" ++ mail ++ ")") "Unknown") eqn:E;
    [|reflexivity].
  exfalso. apply String.eqb_eq in E.
  assert (H : userMatchFrom "" (name ++ " (" ++ mail ++ ")") = None)
    by (rewrite E; reflexivity).
  rewrite (userMatchFrom_display name "" mail Hn Hm Hc) in H. discriminate.
Qed.

(** The user of a record, step by step: the login email of the first task
    action of the task, else the email of its auto assignment, else
    'Unknown'; then the display name, if the user index has one. *)
Lemma resolveUser_cases : forall this tid,
  (forall first rest,
     get tid (taskActionIndex this) = Some (first :: rest) ->
     resolveUser this tid = getUserDisplayName this (loginEmail first))
  /\ (forall a e,
        get tid (taskActionIndex this) = None ->
        get tid (autoAssignmentIndex this) = Some a ->
        email a = Some e -> e <> "" ->
        resolveUser this tid = getUserDisplayName this e)
  /\ (get tid (taskActionIndex this) = None ->
      get tid (autoAssignmentIndex this) = None ->
      resolveUser this tid = "Unknown").
Proof.
  intros this tid. unfold resolveUser. repeat split.
  - intros first rest ->. reflexivity.
  - intros a e -> -> -> Hne. unfold truthy.
    destruct (String.eqb e "") eqn:E; [apply String.eqb_eq in E; contradiction|].
    reflexivity.
  - intros -> ->. reflexivity.
Qed.

Lemma no_line_terminator_app : forall a b,
  no_line_terminator (a ++ b) = no_line_terminator a && no_line_terminator b.
Proof.
  induction a as [|c a IH]; intros b; cbn [append no_line_terminator];
    [reflexivity|].
  rewrite IH. now rewrite andb_assoc.
Qed.

(** The pattern matches no text that holds a line terminator. *)
Lemma userMatchFrom_line_terminator : forall s g1,
  no_line_terminator s = false -> userMatchFrom g1 s = None.
Proof.
  induction s as [|c s IH]; intros g1 H; [discriminate H|].
  cbn [userMatchFrom].
  destruct (paren_tail (String c s)) as [g2|] eqn:Hp.
  - apply paren_tail_some in Hp. destruct Hp as [E Hg].
    rewrite E in H. rewrite !no_line_terminator_app, Hg in H. discriminate H.
  - destruct (is_line_terminator c) eqn:Hc; [reflexivity|].
    apply IH. cbn [no_line_terminator] in H. now rewrite Hc in H.
Qed.

(** The name and the email of a record of the report, for a task with task
    actions, from the login email of the first of them.  When the user index
    has a display name for the email, the display name is not empty and has
    no " (" in it, and neither the display name nor the email holds a line
    terminator (LF or CR, the two that a string of this development can
    hold), the record has the display name and the email.  When the user
    index has nothing for the email and the pattern "name (mail)" does not
    match the email, the record has the email twice.  An email with a line
    terminator in it is not covered by the first case: the pattern does not
    match its display form, and the record gets the display form twice
    (the third case). *)
Theorem report_user_of_plain_display_name :
  forall (host : Host) (this : Processor) records this' r first rest,
    generateReport host this = Some (records, this') ->
    In r records ->
    get (task r) (taskActionIndex this) = Some (first :: rest) ->
    (forall name,
       get (loginEmail first) (userIndex this) = Some name -> name <> "" ->
       no_line_terminator name = true ->
       no_line_terminator (loginEmail first) = true ->
       ~ contains " (" name ->
       userName r = name /\ userEmail r = loginEmail first)
    /\ (get (loginEmail first) (userIndex this) = None ->
        userMatch (loginEmail first) = None ->
        userName r = loginEmail first /\ userEmail r = loginEmail first)
    /\ (forall name,
          get (loginEmail first) (userIndex this) = Some name -> name <> "" ->
          no_line_terminator (loginEmail first) = false ->
          userName r = name ++ " (" ++ loginEmail first ++ ")"
          /\ userEmail r = name ++ " (" ++ loginEmail first ++ ")").
Proof.
  intros host this records this' r first rest H Hin Hact.
  destruct (report_record_draft host this records this' r H Hin)
    as (drafts & d & -> & Hd & Hnd & Hdraft).
  change (task (finalize host this drafts d)) with (task d) in Hact.
  change (userName (finalize host this drafts d)) with (userName d).
  change (userEmail (finalize host this drafts d)) with (userEmail d).
  apply draftRecord_fields in Hdraft. destruct Hdraft as (_ & _ & Hu & _).
  rewrite (proj1 (resolveUser_cases this (task d)) first rest Hact) in Hu.
  unfold getUserDisplayName in Hu. split; [|split].
  - intros name Hname Hne Hn Hmail Hc. rewrite Hname in Hu. unfold truthy in Hu.
    destruct (String.eqb name "") eqn:E; [apply String.eqb_eq in E; contradiction|].
    cbn [negb] in Hu. rewrite (splitUser_display name _ Hn Hmail Hc) in Hu.
    injection Hu as -> ->. split; reflexivity.
  - intros Hnone Hnomatch. rewrite Hnone in Hu. unfold splitUser in Hu.
    rewrite Hnomatch in Hu.
    destruct (negb (String.eqb (loginEmail first) "Unknown")) eqn:E.
    + injection Hu as -> ->. split; reflexivity.
    + apply negb_false_iff in E. apply String.eqb_eq in E.
      injection Hu as -> ->. rewrite E. split; reflexivity.
  - intros name Hname Hne Hmail. rewrite Hname in Hu. unfold truthy in Hu.
    destruct (String.eqb name "") eqn:E; [apply String.eqb_eq in E; contradiction|].
    cbn [negb] in Hu. unfold splitUser, userMatch in Hu.
    rewrite userMatchFrom_line_terminator in Hu
      by (rewrite !no_line_terminator_app, Hmail;
          now rewrite andb_false_r).
    destruct (negb (String.eqb (name ++ " (" ++ loginEmail first ++ ")")
                      "Unknown")) eqn:U.
    + injection Hu as -> ->. split; reflexivity.
    + apply negb_false_iff in U. apply String.eqb_eq in U.
      injection Hu as -> ->. rewrite U. split; reflexivity.
Qed.

End UserFacts.

(** ** The calendar *)

Module CalendarFacts.
Import JsDate.

Ltac euclid := Z.to_euclidean_division_equations; lia.

(** The year of the era: the 400 years of an era start on the days
    [365 y + y / 4 - y / 100]. *)
Lemma year_of_era : forall doe, 0 <= doe < 146097 ->
  let yoe := (doe - doe / 1460 + doe / 36524 - doe / 146096) / 365 in
  0 <= yoe <= 399
  /\ 365 * yoe + yoe / 4 - yoe / 100 <= doe
  /\ doe < 365 * (yoe + 1) + (yoe + 1) / 4 - (yoe + 1) / 100
           + (if yoe =? 399 then 1 else 0).
Proof.
  intros doe H yoe. subst yoe.
  assert (C : doe / 36524 = 0 \/ doe / 36524 = 1 \/ doe / 36524 = 2
              \/ doe / 36524 = 3 \/ doe / 36524 = 4) by euclid.
  assert (D : doe / 146096 = 0 \/ doe / 146096 = 1) by euclid.
  destruct (Z.eqb_spec ((doe - doe / 1460 + doe / 36524 - doe / 146096) / 365) 399).
  - euclid.
  - destruct C as [C|[C|[C|[C|C]]]]; destruct D as [D|D]; rewrite ?C, ?D; euclid.
Qed.

(** The day of the year, counted from 1 March, is below 365, or is 365 in a
    year before a leap February. *)
Lemma day_of_year : forall doe, 0 <= doe < 146097 ->
  let yoe := (doe - doe / 1460 + doe / 36524 - doe / 146096) / 365 in
  let doy := doe - (365 * yoe + yoe / 4 - yoe / 100) in
  0 <= doy <= 365 /\ (doy = 365 -> isLeapYear (yoe + 1) = true).
Proof.
  intros doe H yoe doy.
  pose proof (year_of_era doe H) as (Hy & Hlo & Hhi). fold yoe in Hy, Hlo, Hhi.
  subst doy. unfold isLeapYear.
  destruct (Z.eqb_spec yoe 399) as [E|E].
  - rewrite E in *. split; [euclid | reflexivity].
  - split; [euclid|]. intros Hd.
    assert (H4 : (yoe + 1) mod 4 = 0) by euclid.
    assert (H100 : (yoe + 1) mod 100 <> 0) by euclid.
    rewrite H4. apply Z.eqb_neq in H100. rewrite H100. reflexivity.
Qed.

(** Month and day of the month from the day of the year. *)
Lemma month_of_year : forall doy, 0 <= doy <= 365 ->
  let mp := (5 * doy + 2) / 153 in
  let d := doy - (153 * mp + 2) / 5 + 1 in
  let m := if mp <? 10 then mp + 3 else mp - 9 in
  0 <= mp <= 11 /\ 1 <= m <= 12 /\ 1 <= d
  /\ (if 2 <? m then m - 3 else m + 9) = mp
  /\ (m <= 2 <-> 10 <= mp)
  /\ (m <> 2 -> d <= 31 - ((m - 1) mod 7) mod 2)
  /\ (m = 2 -> d <= 29 /\ (d = 29 -> doy = 365)).
Proof.
  intros doy H mp d m.
  assert (Hmp : 0 <= mp <= 11) by (subst mp; euclid).
  assert (C : mp = 0 \/ mp = 1 \/ mp = 2 \/ mp = 3 \/ mp = 4 \/ mp = 5
              \/ mp = 6 \/ mp = 7 \/ mp = 8 \/ mp = 9 \/ mp = 10 \/ mp = 11)
    by lia.
  subst d m.
  destruct C as [C|[C|[C|[C|[C|[C|[C|[C|[C|[C|[C|C]]]]]]]]]]];
    rewrite C; cbn -[Z.div Z.modulo Z.mul Z.add Z.sub];
    subst mp; repeat split; intros; try euclid.
Qed.

Lemma leap_year_period : forall y k, isLeapYear (y + 400 * k) = isLeapYear y.
Proof.
  intros y k. unfold isLeapYear.
  replace ((y + 400 * k) mod 4) with (y mod 4) by euclid.
  replace ((y + 400 * k) mod 100) with (y mod 100) by euclid.
  replace ((y + 400 * k) mod 400) with (y mod 400) by euclid.
  reflexivity.
Qed.

(** The civil date of a day is a date of the calendar, and the day of that
    date is the day. *)
Theorem civil_from_days_inverse : forall z : Z,
  let '(y, m, d) := civil_from_days z in
  days_from_civil y m d = z
  /\ 1 <= m <= 12 /\ 1 <= d <= daysInMonth y (m - 1).
Proof.
  intros z0. unfold civil_from_days.
  set (z := z0 + 719468).
  set (era := z / 146097). set (doe := z mod 146097).
  assert (Hdoe : 0 <= doe < 146097) by (subst doe; euclid).
  assert (Hz : z = era * 146097 + doe) by (subst era doe; euclid).
  pose proof (year_of_era doe Hdoe) as (Hy & Hlo & _).
  pose proof (day_of_year doe Hdoe) as (Hdoy & Hleap).
  cbv zeta in Hy, Hlo, Hdoy, Hleap.
  set (yoe := (doe - doe / 1460 + doe / 36524 - doe / 146096) / 365) in *.
  set (doy := doe - (365 * yoe + yoe / 4 - yoe / 100)) in *.
  pose proof (month_of_year doy Hdoy) as (Hmp & Hm & Hd1 & Hinv & Hjf & Hd & Hfeb).
  cbv zeta in Hmp, Hm, Hd1, Hinv, Hjf, Hd, Hfeb.
  set (mp := (5 * doy + 2) / 153) in *.
  set (d := doy - (153 * mp + 2) / 5 + 1) in *.
  set (m := if mp <? 10 then mp + 3 else mp - 9) in *.
  split; [|split; [exact Hm|split; [exact Hd1|]]].
  - unfold days_from_civil. rewrite Hinv.
    destruct (Z.leb_spec m 2) as [Hle|Hgt].
    + replace (yoe + era * 400 + 1 - 1) with (yoe + era * 400) by lia.
      replace ((yoe + era * 400) / 400) with era by euclid.
      replace ((yoe + era * 400) mod 400) with yoe by euclid.
      subst d doy. lia.
    + replace (yoe + era * 400 + 0) with (yoe + era * 400) by lia.
      replace ((yoe + era * 400) / 400) with era by euclid.
      replace ((yoe + era * 400) mod 400) with yoe by euclid.
      subst d doy. lia.
  - unfold daysInMonth.
    destruct (Z.eqb_spec (m - 1) 1) as [E|E].
    + assert (Hm2 : m = 2) by lia. destruct (Hfeb Hm2) as [H29 Hd29].
      destruct (Z.leb_spec m 2) as [_|?]; [|lia].
      replace (yoe + era * 400 + 1) with (yoe + 1 + 400 * era) by lia.
      rewrite leap_year_period.
      destruct (isLeapYear (yoe + 1)) eqn:L; [exact H29|].
      assert (d <> 29) by (intros E29; apply Hd29 in E29; apply Hleap in E29; congruence).
      lia.
    + apply Hd. lia.
Qed.
End CalendarFacts.

(** ** Dates written and read back *)

Module IsoFacts.
Import JsString JsDate CalendarFacts.

Lemma digit_char_cases : forall d, 0 <= d <= 9 ->
  d = 0 \/ d = 1 \/ d = 2 \/ d = 3 \/ d = 4 \/ d = 5 \/ d = 6 \/ d = 7
  \/ d = 8 \/ d = 9.
Proof. intros; lia. Qed.

Ltac each_digit d H :=
  destruct (digit_char_cases d H) as [?|[?|[?|[?|[?|[?|[?|[?|[?|?]]]]]]]]]; subst d.

Lemma is_digit_digit_char : forall d, 0 <= d <= 9 -> is_digit (digit_char d) = true.
Proof. intros d H. each_digit d H; reflexivity. Qed.

Lemma digit_val_digit_char : forall d, 0 <= d <= 9 -> digit_val (digit_char d) = d.
Proof. intros d H. each_digit d H; reflexivity. Qed.

Lemma is_white_space_digit_char : forall d, 0 <= d <= 9 ->
  is_white_space (digit_char d) = false.
Proof. intros d H. each_digit d H; reflexivity. Qed.

Lemma slash_digit_char : forall d, 0 <= d <= 9 -> Ascii.eqb "/" (digit_char d) = false.
Proof. intros d H. each_digit d H; reflexivity. Qed.

Lemma strip_prefix_app : forall p r, strip_prefix p (p ++ r) = Some r.
Proof.
  induction p as [|a p IH]; intros r; simpl; [reflexivity|].
  now rewrite Ascii.eqb_refl.
Qed.

Lemma digit_mod : forall v, 0 <= v mod 10 <= 9.
Proof. intros v. pose proof (Z.mod_pos_bound v 10). lia. Qed.

Lemma read_digits_pad2 : forall v rest, 0 <= v <= 99 ->
  read_digits 2 0 (pad2 v ++ rest) = Some (v, rest).
Proof.
  intros v rest H. unfold pad2. cbn [append read_digits].
  rewrite !is_digit_digit_char, !digit_val_digit_char by apply digit_mod.
  do 2 f_equal. euclid.
Qed.

Lemma read_digits_pad3 : forall v rest, 0 <= v <= 999 ->
  read_digits 3 0 (pad3 v ++ rest) = Some (v, rest).
Proof.
  intros v rest H. unfold pad3, pad2. cbn [append read_digits].
  rewrite !is_digit_digit_char, !digit_val_digit_char by apply digit_mod.
  do 2 f_equal. euclid.
Qed.

Lemma read_digits_pad4 : forall v rest, 0 <= v <= 9999 ->
  read_digits 4 0 (pad4 v ++ rest) = Some (v, rest).
Proof.
  intros v rest H. unfold pad4, pad3, pad2. cbn [append read_digits].
  rewrite !is_digit_digit_char, !digit_val_digit_char by apply digit_mod.
  do 2 f_equal. euclid.
Qed.

Lemma read_digits_pad6 : forall v rest, 0 <= v <= 999999 ->
  read_digits 6 0 (pad6 v ++ rest) = Some (v, rest).
Proof.
  intros v rest H. unfold pad6, pad4, pad3, pad2. cbn [append read_digits].
  rewrite !is_digit_digit_char, !digit_val_digit_char by apply digit_mod.
  do 2 f_equal. euclid.
Qed.

(** The time of day, taken apart and put together. *)
Lemma time_fields : forall t,
  0 <= HourFromTime t <= 23 /\ 0 <= MinFromTime t <= 59
  /\ 0 <= SecFromTime t <= 59 /\ 0 <= msFromTime t <= 999
  /\ MakeDate (Day t)
       (MakeTime (HourFromTime t) (MinFromTime t) (SecFromTime t) (msFromTime t))
     = t.
Proof.
  intros t.
  unfold HourFromTime, MinFromTime, SecFromTime, msFromTime, MakeDate, MakeTime,
    Day, msPerHour, msPerMinute, msPerSecond, msPerDay.
  repeat split; euclid.
Qed.

(** The date of a time value, taken apart and put together. *)
Lemma date_fields : forall t,
  1 <= MonthFromTime t + 1 <= 12
  /\ 1 <= DateFromTime t <= daysInMonth (YearFromTime t) (MonthFromTime t)
  /\ MakeDay (YearFromTime t) (MonthFromTime t) (DateFromTime t) = Day t.
Proof.
  intros t. unfold YearFromTime, MonthFromTime, DateFromTime, MakeDay.
  pose proof (civil_from_days_inverse (Day t)) as H.
  destruct (civil_from_days (Day t)) as [[y m] d]. cbn [fst snd].
  destruct H as (Hinv & Hm & Hd).
  split; [lia|]. split; [exact Hd|].
  replace ((m - 1) / 12) with 0 by euclid.
  replace ((m - 1) mod 12 + 1) with m by euclid.
  rewrite Z.add_0_r. rewrite <- Hinv. unfold days_from_civil. lia.
Qed.

Lemma daysInMonth_le_31 : forall y m, daysInMonth y m <= 31.
Proof.
  intros y m. unfold daysInMonth.
  destruct (m =? 1); [destruct (isLeapYear y); lia | euclid].
Qed.

(** Years 0000 to 9999 are the time values from -62167219200000 to
    253402300799999. *)
Lemma year_four_digits : forall t,
  -62167219200000 <= t <= 253402300799999 -> 0 <= YearFromTime t <= 9999.
Proof.
  intros t Ht. unfold YearFromTime.
  pose proof (civil_from_days_inverse (Day t)) as H.
  destruct (civil_from_days (Day t)) as [[y m] d]. cbn [fst snd].
  destruct H as (Hinv & Hm & Hd1 & Hd).
  pose proof (daysInMonth_le_31 y (m - 1)) as H31.
  assert (Hday : -719528 <= Day t <= 2932896)
    by (unfold Day, msPerDay; euclid).
  rewrite <- Hinv in Hday. unfold days_from_civil in Hday.
  assert (Hd31 : d <= 31) by lia.
  clear Hinv Hd Ht H31.
  destruct (Z.leb_spec m 2); destruct (Z.ltb_spec 2 m); try lia; euclid.
Qed.

End IsoFacts.

Module RoundTrip.
Import JsString JsDate Spec CalendarFacts IsoFacts.

Ltac decide_leb :=
  repeat match goal with
         | |- context [?a <=? ?b] => destruct (Z.leb_spec a b); try lia
         | |- context [?a <? ?b] => destruct (Z.ltb_spec a b); try lia
         end.

Ltac read_fields :=
  repeat (first [ rewrite strip_prefix_app
                | rewrite read_digits_pad2 by lia
                | rewrite read_digits_pad3 by lia
                | rewrite read_digits_pad4 by lia
                | rewrite read_digits_pad6 by lia ];
          cbv beta iota).

Lemma parse_iso_after_year_fields : forall y mo d h mi s ms,
  1 <= mo <= 12 -> 1 <= d <= daysInMonth y (mo - 1) ->
  0 <= h <= 23 -> 0 <= mi <= 59 -> 0 <= s <= 59 -> 0 <= ms <= 999 ->
  parse_iso_after_year y (isoTail mo d h mi s ms)
  = Some (TimeClip (MakeDate (MakeDay y (mo - 1) d) (MakeTime h mi s ms))).
Proof.
  intros y mo d h mi s ms Hmo Hd Hh Hmi Hs Hms.
  pose proof (daysInMonth_le_31 y (mo - 1)) as H31.
  unfold parse_iso_after_year, isoTail. read_fields.
  change (strip_prefix "Z" "Z") with (Some ""). cbv beta iota.
  unfold iso_fields_valid. decide_leb. reflexivity.
Qed.

Lemma isoStringOfTime_eq : forall t,
  isoStringOfTime t =
    isoYear (YearFromTime t)
      ++ isoTail (MonthFromTime t + 1) (DateFromTime t) (HourFromTime t)
           (MinFromTime t) (SecFromTime t) (msFromTime t).
Proof. reflexivity. Qed.

Lemma parse_iso_utc_digit : forall c s,
  is_digit c = true ->
  parse_iso_utc (String c s) =
    match read_digits 4 0 (String c s) with
    | Some (y, r) => parse_iso_after_year y r
    | None => None
    end.
Proof.
  intros c s H.
  destruct c as [[] [] [] [] [] [] [] []]; try discriminate H; reflexivity.
Qed.

Lemma parse_fields_of_time : forall t,
  parse_iso_after_year (YearFromTime t)
    (isoTail (MonthFromTime t + 1) (DateFromTime t) (HourFromTime t)
       (MinFromTime t) (SecFromTime t) (msFromTime t))
  = Some (TimeClip t).
Proof.
  intros t.
  pose proof (time_fields t) as (Hh & Hmi & Hs & Hms & Ht).
  pose proof (date_fields t) as (Hmo & Hd & Hday).
  rewrite parse_iso_after_year_fields; try assumption.
  - replace (MonthFromTime t + 1 - 1) with (MonthFromTime t) by lia.
    now rewrite Hday, Ht.
  - now replace (MonthFromTime t + 1 - 1) with (MonthFromTime t) by lia.
Qed.

(** Every time value is within 1,000,000 years of year 0. *)
Lemma year_six_digits : forall t,
  Z.abs t <= 8640000000000000 -> -999999 <= YearFromTime t <= 999999.
Proof.
  intros t Ht. unfold YearFromTime.
  pose proof (civil_from_days_inverse (Day t)) as H.
  destruct (civil_from_days (Day t)) as [[y m] d]. cbn [fst snd].
  destruct H as (Hinv & Hm & Hd1 & Hd).
  pose proof (daysInMonth_le_31 y (m - 1)) as H31.
  assert (Hday : -100000000 <= Day t <= 100000000)
    by (unfold Day, msPerDay; euclid).
  rewrite <- Hinv in Hday. unfold days_from_civil in Hday.
  assert (Hd31 : d <= 31) by lia.
  clear Hinv Hd Ht H31.
  destruct (Z.leb_spec m 2); destruct (Z.ltb_spec 2 m); try lia; euclid.
Qed.

(** [Date.parse] reads back what [toISOString] wrote. *)
Lemma parse_iso_utc_inverse : forall t,
  Z.abs t <= 8640000000000000 ->
  parse_iso_utc (isoStringOfTime t) = Some (TimeValue t).
Proof.
  intros t Ht. rewrite isoStringOfTime_eq.
  pose proof (year_six_digits t Ht) as Hy.
  pose proof (parse_fields_of_time t) as Hp.
  assert (Hclip : TimeClip t = TimeValue t).
  { unfold TimeClip. destruct (Z.leb_spec (Z.abs t) 8640000000000000); [reflexivity | lia]. }
  rewrite Hclip in Hp.
  unfold isoYear.
  destruct ((0 <=? YearFromTime t) && (YearFromTime t <=? 9999)) eqn:E4.
  - apply andb_prop in E4. destruct E4 as [E0 E9].
    apply Z.leb_le in E0. apply Z.leb_le in E9.
    unfold pad4 at 1. cbn [append].
    rewrite parse_iso_utc_digit by (apply is_digit_digit_char, digit_mod).
    change (String (digit_char (YearFromTime t / 1000 mod 10))
              (pad3 (YearFromTime t) ++ ?r))
      with (pad4 (YearFromTime t) ++ r).
    rewrite read_digits_pad4 by lia. exact Hp.
  - destruct (Z.leb_spec 0 (YearFromTime t)) as [Hpos|Hneg].
    + cbn [append parse_iso_utc]. rewrite read_digits_pad6 by lia. exact Hp.
    + cbn [append parse_iso_utc]. rewrite read_digits_pad6 by lia.
      destruct (Z.eqb_spec (- YearFromTime t) 0); [lia|].
      now rewrite Z.opp_involutive.
Qed.

End RoundTrip.

(** ** The date parser on what [toISOString] writes *)

Module ParseDateFacts.
Import JsString JsDate Spec CalendarFacts IsoFacts RoundTrip.
Import Moment DateUtils.

(** A format that starts with the month and a slash does not fit a text
    that starts with four digits. *)
Lemma month_first_fails : forall y rest f c, 0 <= y <= 9999 ->
  read_tokens (tM :: Lit "/" :: f) c (pad4 y ++ rest) = None.
Proof.
  intros y rest f c Hy. unfold pad4, pad3, pad2.
  cbn [append read_tokens read_token read_1to2_no_leading_zero].
  destruct (is_nonzero_digit (digit_char (y / 1000 mod 10))); [|reflexivity].
  rewrite is_digit_digit_char by apply digit_mod.
  cbv beta iota. cbn [read_tokens read_token strip_prefix].
  rewrite slash_digit_char by apply digit_mod. reflexivity.
Qed.

Lemma trim_not_empty : forall c s,
  is_white_space c = false -> String.eqb (trim (String c s)) "" = false.
Proof.
  intros c s H. unfold trim. cbn [trim_start]. rewrite H. cbn [trim_end].
  destruct (trim_end s); [rewrite H|]; reflexivity.
Qed.

Lemma read_tokens_cons : forall t f c s,
  read_tokens (t :: f) c s =
    match read_token t c s with
    | Some (c', s') => read_tokens f c' s'
    | None => None
    end.
Proof. reflexivity. Qed.

Section WithHost.
Context (host : Host).

Lemma strict_iso_fields : forall y mo d h mi s ms,
  0 <= y <= 9999 -> 1 <= mo <= 12 -> 1 <= d <= daysInMonth y (mo - 1) ->
  0 <= h <= 23 -> 0 <= mi <= 59 -> 0 <= s <= 59 -> 0 <= ms <= 999 ->
  strict host (pad4 y ++ isoTail mo d h mi s ms)
    [tYYYY; Lit "-"; tMM; Lit "-"; tDD; Lit "T"; tHH; Lit ":"; tmm; Lit ":";
     tss; Lit "."; tSSS; Lit "Z"]
  = let t := MakeDate (MakeDay y (mo - 1) d) (MakeTime h mi s ms) in
    Some (t - localTZA host t).
Proof.
  intros y mo d h mi s ms Hy Hmo Hd Hh Hmi Hs Hms.
  pose proof (daysInMonth_le_31 y (mo - 1)) as H31.
  assert (Hd31 : 1 <= d <= 31) by lia.
  unfold strict, isoTail.
  do 13 (rewrite read_tokens_cons; cbn [read_token];
         first [ rewrite strip_prefix_app
               | rewrite read_digits_pad2 by assumption || lia
               | rewrite read_digits_pad3 by assumption || lia
               | rewrite read_digits_pad4 by assumption || lia ];
         cbv beta iota;
         cbn [cYear cMonth cDate cHour cMinute cSecond cMillisecond cIsPM
              cTzm config0]).
  rewrite read_tokens_cons. cbn [read_token].
  change (strip_prefix "Z" "Z") with (Some ""). cbv beta iota.
  cbn [read_tokens cYear cMonth cDate cHour cMinute cSecond cMillisecond
       cIsPM cTzm config0 meridiemFixWrap].
  unfold no_overflow.
  replace (0 <=? mo - 1) with true by (symmetry; apply Z.leb_le; lia).
  replace (mo - 1 <=? 11) with true by (symmetry; apply Z.leb_le; lia).
  replace (1 <=? d) with true by (symmetry; apply Z.leb_le; lia).
  replace (d <=? daysInMonth y (mo - 1)) with true
    by (symmetry; apply Z.leb_le; lia).
  replace (0 <=? h) with true by (symmetry; apply Z.leb_le; lia).
  replace (h <=? 24) with true by (symmetry; apply Z.leb_le; lia).
  replace (h <? 24) with true by (symmetry; apply Z.ltb_lt; lia).
  replace (0 <=? mi) with true by (symmetry; apply Z.leb_le; lia).
  replace (mi <=? 59) with true by (symmetry; apply Z.leb_le; lia).
  replace (0 <=? s) with true by (symmetry; apply Z.leb_le; lia).
  replace (s <=? 59) with true by (symmetry; apply Z.leb_le; lia).
  replace (0 <=? ms) with true by (symmetry; apply Z.leb_le; lia).
  replace (ms <=? 999) with true by (symmetry; apply Z.leb_le; lia).
  cbn [andb orb].
  unfold instant_of_config.
  cbn [cYear cMonth cDate cHour cMinute cSecond cMillisecond cIsPM cTzm
       meridiemFixWrap].
  reflexivity.
Qed.

(** [parseDate] reads the text [toISOString] wrote for a time value with a
    year of four digits by the third format, whose fields are local time:
    the result is the time value moved by the offset of the host's zone. *)
Lemma parseDate_iso_as_local : forall t,
  -62167219200000 <= t <= 253402300799999 ->
  parseDate host (Some (isoStringOfTime t))
  = Some (TimeValue (t - localTZA host t)).
Proof.
  intros t Ht.
  pose proof (year_four_digits t Ht) as Hy.
  pose proof (time_fields t) as (Hh & Hmi & Hs & Hms & Htime).
  pose proof (date_fields t) as (Hmo & Hd & Hday).
  rewrite isoStringOfTime_eq. unfold isoYear.
  destruct (Z.leb_spec 0 (YearFromTime t)); [|lia].
  destruct (Z.leb_spec (YearFromTime t) 9999); [|lia].
  cbn [andb]. unfold parseDate.
  assert (Hguard :
    negb (truthy (pad4 (YearFromTime t)
                    ++ isoTail (MonthFromTime t + 1) (DateFromTime t)
                         (HourFromTime t) (MinFromTime t) (SecFromTime t)
                         (msFromTime t)))
    || String.eqb
         (trim (pad4 (YearFromTime t)
                  ++ isoTail (MonthFromTime t + 1) (DateFromTime t)
                       (HourFromTime t) (MinFromTime t) (SecFromTime t)
                       (msFromTime t))) "" = false).
  { unfold pad4 at 1 2. cbn [append].
    rewrite trim_not_empty by (apply is_white_space_digit_char, digit_mod).
    reflexivity. }
  rewrite Hguard. unfold formats. cbn [first_valid].
  unfold strict at 1. rewrite month_first_fails by lia.
  unfold strict at 1. rewrite month_first_fails by lia.
  assert (Hd' : 1 <= DateFromTime t
                <= daysInMonth (YearFromTime t) (MonthFromTime t + 1 - 1))
    by (now replace (MonthFromTime t + 1 - 1) with (MonthFromTime t) by lia).
  rewrite (strict_iso_fields (YearFromTime t) (MonthFromTime t + 1)
             (DateFromTime t) (HourFromTime t) (MinFromTime t)
             (SecFromTime t) (msFromTime t) Hy Hmo Hd' Hh Hmi Hs Hms).
  cbv zeta.
  replace (MonthFromTime t + 1 - 1) with (MonthFromTime t) by lia.
  now rewrite Hday, Htime.
Qed.

End WithHost.
End ParseDateFacts.

Module ParseDateClaims.
Import Samples.
Import JsString JsDate DateUtils ParseDateFacts RoundTrip.

(** C2, on an input that breaks it.  On a host one hour east of UTC, the
    text that [toISOString] writes for the epoch, 1970-01-01T00:00:00.000Z,
    is parsed by [parseDate] to the instant one hour before the epoch: the
    third format takes the Z for a letter and the fields for local time.
    The same text with the Z apart as an offset is read as UTC. *)
Theorem parseDate_reads_utc_text_as_local_time :
  toISOString (TimeValue 0) = Some "1970-01-01T00:00:00.000Z"
  /\ parseDate east_host (Some "1970-01-01T00:00:00.000Z")
     = Some (TimeValue (-3600000))
  /\ parseDate east_host (Some "1970-01-01T00:00:00.000 Z")
     = Some (TimeValue 0)
  /\ toISOString (TimeValue 1756128000000) = Some "2025-08-25T13:20:00.000Z"
  /\ parseDate east_host (Some "2025-08-25T13:20:00.000Z")
     = Some (TimeValue 1756124400000).
Proof. repeat split. Qed.

(** For a time value with a year of four digits, [parseDate] reads the
    text that [toISOString] wrote as local time: it returns the time value
    moved by the offset of the host's zone from UTC. *)
Theorem parseDate_isoStringOfTime : forall (host : Host) (t : Z),
  -62167219200000 <= t <= 253402300799999 ->
  exists text,
    toISOString (TimeValue t) = Some text
    /\ parseDate host (Some text) = Some (TimeValue (t - localTZA host t)).
Proof.
  intros host t Ht. exists (isoStringOfTime t). split; [reflexivity|].
  now apply parseDate_iso_as_local.
Qed.

(** [new Date(text)] reads back the time value that [toISOString] wrote,
    whatever the host. *)
Theorem newDate_toISOString : forall (host : Host) (t : Z),
  Z.abs t <= 8640000000000000 ->
  exists text,
    toISOString (TimeValue t) = Some text
    /\ newDate host text = TimeValue t.
Proof.
  intros host t Ht. exists (isoStringOfTime t). split; [reflexivity|].
  unfold newDate. now rewrite parse_iso_utc_inverse.
Qed.

(** On a host whose zone is UTC, [parseDate] reads back the time value that
    [toISOString] wrote, for the years 0000 to 9999. *)
Theorem parseDate_toISOString_on_utc_host : forall (host : Host) (t : Z),
  (forall x, localTZA host x = 0) ->
  -62167219200000 <= t <= 253402300799999 ->
  exists text,
    toISOString (TimeValue t) = Some text
    /\ parseDate host (Some text) = Some (TimeValue t).
Proof.
  intros host t Hutc Ht. exists (isoStringOfTime t). split; [reflexivity|].
  rewrite parseDate_iso_as_local by assumption.
  rewrite Hutc. do 2 f_equal. lia.
Qed.

Lemma parseDate_toISOString_on_utc_host_witness :
  exists text,
    toISOString (TimeValue 1756128000123) = Some text
    /\ parseDate utc_host (Some text)
       = Some (TimeValue 1756128000123).
Proof.
  apply (parseDate_toISOString_on_utc_host utc_host 1756128000123).
  - reflexivity.
  - lia.
Defined.

Lemma parseDate_isoStringOfTime_witness :
  exists text,
    toISOString (TimeValue 1756128000123) = Some text
    /\ parseDate east_host (Some text)
       = Some (TimeValue (1756128000123 - 3600000)).
Proof.
  apply (parseDate_isoStringOfTime east_host 1756128000123). lia.
Defined.

Lemma newDate_toISOString_witness :
  exists text,
    toISOString (TimeValue (-8640000000000000)) = Some text
    /\ newDate east_host text = TimeValue (-8640000000000000).
Proof.
  apply (newDate_toISOString east_host (-8640000000000000)). simpl. lia.
Defined.

End ParseDateClaims.

Module ReportRoundTrip.
Import Samples.
Import JsString JsDate JsMap TaskProcessor Spec.
Import ReportFacts ReportClaims RoundTrip IsoFacts.

Lemma isoStringOfTime_not_empty : forall t,
  String.eqb (isoStringOfTime t) "" = false.
Proof.
  intros t. rewrite isoStringOfTime_eq. unfold isoYear, pad4.
  destruct (_ && _); [reflexivity|]. destruct (_ <=? _); reflexivity.
Qed.

(** What is read back from the text of a time is the time. *)
Lemma reparse_isoOrEmpty : forall host d text,
  (forall t, d = Some (TimeValue t) -> Z.abs t <= 8640000000000000) ->
  isoOrEmpty d = Some text -> reparse host text = d.
Proof.
  intros host [[|t]|] text Hrange; cbn [isoOrEmpty toISOString]; try discriminate.
  - intros H. injection H as <-. unfold reparse, truthy, newDate.
    rewrite isoStringOfTime_not_empty. cbn [negb].
    now rewrite (parse_iso_utc_inverse t (Hrange t eq_refl)).
  - intros H. injection H as <-. reflexivity.
Qed.

(** The productive time of a record is what the minutes between the
    assigned time and the maker-complete time of its task are in the indexes:
    writing the two times to text and reading them back loses nothing. *)
Theorem productiveTime_equals_index_times :
  forall (host : Host) (this : Processor) records this' r,
    generateReport host this = Some (records, this') ->
    In r records ->
    (forall t, getAssignedTime this (task r) = Some (TimeValue t) ->
               Z.abs t <= 8640000000000000) ->
    (forall t, getMakerCompleteTime this (task r) = Some (TimeValue t) ->
               Z.abs t <= 8640000000000000) ->
    productiveTime r =
      Some (DateUtils.calculateTimeDifferenceMinutes
              (getAssignedTime this (task r))
              (getMakerCompleteTime this (task r))).
Proof.
  intros host this records this' r H Hin Ha Hm.
  destruct (report_record_draft host this records this' r H Hin)
    as (drafts & d & -> & Hd & Hnd & Hdraft).
  apply draftRecord_fields in Hdraft.
  destruct Hdraft as (_ & _ & _ & _ & Hat & Hmt & _).
  change (task (finalize host this drafts d)) with (task d) in *.
  cbn [finalize set_waitingTime set_productiveTime productiveTime].
  f_equal. unfold calculateProductiveTime, findRecordByTaskId.
  cbn [currentReportRecords with_currentReportRecords].
  rewrite (find_by_task drafts d Hnd Hd).
  rewrite (reparse_isoOrEmpty host _ _ Ha Hat).
  rewrite (reparse_isoOrEmpty host _ _ Hm Hmt).
  destruct (getAssignedTime this (task d)) as [[|a]|],
           (getMakerCompleteTime this (task d)) as [[|m]|]; reflexivity.
Qed.

Lemma productiveTime_equals_index_times_witness :
  match generateReport utc_host sample_report with
  | Some (records, _) =>
      exists r,
        In r records /\ task r = "TASK-3"
        /\ productiveTime r =
             Some (DateUtils.calculateTimeDifferenceMinutes
                     (getAssignedTime sample_report "TASK-3")
                     (getMakerCompleteTime sample_report "TASK-3"))
  | None => False
  end.
Proof.
  destruct (generateReport utc_host sample_report) as [[records this']|] eqn:H;
    [|discriminate H].
  pose proof H as H'. vm_compute in H'. injection H' as Hrecords _.
  assert (Hin : In (nth 1 records (nth 0 records
                      {| task := ""; userName := ""; userEmail := "";
                         mode := Unknown; createdTime := ""; assignedTime := "";
                         makerCompleteTime := ""; openTime := "";
                         productiveTime := None; waitingTime := None |}))
                   records)
    by (rewrite <- Hrecords; right; left; reflexivity).
  eexists. split; [exact Hin|].
  assert (Htask : task (nth 1 records (nth 0 records
                      {| task := ""; userName := ""; userEmail := "";
                         mode := Unknown; createdTime := ""; assignedTime := "";
                         makerCompleteTime := ""; openTime := "";
                         productiveTime := None; waitingTime := None |}))
                  = "TASK-3")
    by (rewrite <- Hrecords; reflexivity).
  split; [exact Htask|].
  rewrite <- Htask.
  apply (productiveTime_equals_index_times utc_host sample_report records this'
           _ H Hin);
    rewrite Htask; intros t E; vm_compute in E; injection E as E; subst t;
    vm_compute; discriminate.
Defined.

End ReportRoundTrip.

Module UserClaims.
Import Samples.
Import JsString JsDate JsMap TaskProcessor Spec.
Import ReportFacts ReportClaims UserFacts.

(** C6, on an input that breaks it.  The user index gives the display name
    "John Smith (IT)" for j@x.com, so the user of the task is
    "John Smith (IT) (j@x.com)".  The record gets the name "John Smith" and
    the email "IT) (j@x.com": the pattern cuts at the first " (", not at the
    one before the email. *)
Theorem report_user_cut_at_first_parenthesis :
  resolveUser sample_users "TASK-1" = "John Smith (IT) (j@x.com)"
  /\ splitUser "John Smith (IT) (j@x.com)" = ("John Smith", "IT) (j@x.com")
  /\ option_map
       (fun p => map (fun r => (task r, userName r, userEmail r)) (fst p))
       (generateReport utc_host sample_users)
     = Some [ ("TASK-1", "John Smith", "IT) (j@x.com");
              ("TASK-2", "User B", "b@x.com");
              ("TASK-3", "c@x.com", "c@x.com") ].
Proof. repeat split. Qed.

Lemma report_user_of_plain_display_name_witness :
  match generateReport utc_host sample_users with
  | Some (records, _) =>
      exists r,
        In r records /\ task r = "TASK-2"
        /\ userName r = "User B" /\ userEmail r = "b@x.com"
  | None => False
  end.
Proof.
  destruct (generateReport utc_host sample_users) as [[records this']|] eqn:H;
    [|discriminate H].
  pose proof H as H'. vm_compute in H'. injection H' as Hrecords _.
  assert (Hin : In (nth 1 records (nth 0 records
                      {| task := ""; userName := ""; userEmail := "";
                         mode := Unknown; createdTime := ""; assignedTime := "";
                         makerCompleteTime := ""; openTime := "";
                         productiveTime := None; waitingTime := None |}))
                   records)
    by (rewrite <- Hrecords; right; left; reflexivity).
  assert (Htask : task (nth 1 records (nth 0 records
                      {| task := ""; userName := ""; userEmail := "";
                         mode := Unknown; createdTime := ""; assignedTime := "";
                         makerCompleteTime := ""; openTime := "";
                         productiveTime := None; waitingTime := None |}))
                  = "TASK-2")
    by (rewrite <- Hrecords; reflexivity).
  eexists. split; [exact Hin|]. split; [exact Htask|].
  assert (Hact : get (task (nth 1 records (nth 0 records
                      {| task := ""; userName := ""; userEmail := "";
                         mode := Unknown; createdTime := ""; assignedTime := "";
                         makerCompleteTime := ""; openTime := "";
                         productiveTime := None; waitingTime := None |})))
                   (taskActionIndex sample_users)
                 = Some [taskAction "TASK-2" "b@x.com"])
    by (rewrite Htask; reflexivity).
  destruct (report_user_of_plain_display_name utc_host sample_users records
              this' _ (taskAction "TASK-2" "b@x.com") [] H Hin Hact)
    as [Hplain _].
  apply (Hplain "User B").
  - reflexivity.
  - discriminate.
  - reflexivity.
  - reflexivity.
  - intros (pre & post & E).
    destruct pre as [|c1 [|c2 [|c3 [|c4 [|c5 [|c6 [|c7 pre]]]]]]];
      simpl in E; discriminate E.
Defined.

End UserClaims.

Module AutoAssignmentClaims.
Import Samples.
Import JsString JsDate JsMap TaskProcessor Spec.
Import AutoAssignmentFacts ReportClaims.

Lemma autoAssignmentIndex_witness :
  let index :=
    autoAssignmentIndex
      (buildAutoAssignmentIndex
         (JsonParser.extractAll utc_host sample_log) new) in
  NoDup (keys index)
  /\ keys index = ["TASK-5"; "TASK-7"]
  /\ get "TASK-5" index
     = Some {| JsonParser.taskId := Some "TASK-5";
               JsonParser.email := Some "b@x.com";
               JsonParser.assignmentTimestamp :=
                 Some (TimeValue 1756128120000) |}
  /\ get "TASK-6" index = None
  /\ JsonParser.extractAutoAssignment utc_host
       (logEntry "nothing assigned" (Some "2025-08-25T13:21:00.000Z")) = None.
Proof.
  pose proof (autoAssignmentIndex_last_write_wins utc_host
                (JsonParser.extractAll utc_host sample_log))
    as (Hnd & _ & Hnone & _).
  split; [exact Hnd|]. split; [reflexivity|]. split; [reflexivity|].
  split; [reflexivity|].
  apply Hnone. right. left. exists "nothing assigned". split; [reflexivity|].
  intros Hm. apply taskIdMatch_mentions in Hm. apply Hm. reflexivity.
Defined.

End AutoAssignmentClaims.

(** ** More on the report *)

Module ReportMore.
Import JsString JsDate JsMap JsMapFacts TaskProcessor Spec ListFacts IndexFacts.
Import ReportFacts Samples SpecMore.

(** The processor that [generateReport] leaves is the one it was given, with
    the records it returns. *)
Lemma generateReport_state : forall host this records this',
  generateReport host this = Some (records, this') ->
  this' = with_currentReportRecords this records.
Proof.
  intros host this records this'. unfold generateReport.
  destruct (firstPass _ _) as [this1|] eqn:H1; [|discriminate].
  apply firstPass_some in H1. destruct H1 as (drafts & HF & ->).
  rewrite secondPass_eq. intros H. injection H as <- <-. reflexivity.
Qed.

Lemma generateReport_ignores_records : forall host this rs,
  generateReport host (with_currentReportRecords this rs)
  = generateReport host this.
Proof. reflexivity. Qed.

Lemma find_none_not_in : forall (l : list ReportRecord) tid,
  ~ In tid (map task l) ->
  find (fun r => String.eqb (task r) tid) l = None.
Proof.
  induction l as [|x l IH]; intros tid H; simpl; [reflexivity|].
  destruct (String.eqb (task x) tid) eqn:E.
  - apply String.eqb_eq in E. exfalso. apply H. now left.
  - apply IH. intros Hin. apply H. now right.
Qed.

Lemma Forall2_same_draft_finalize : forall host this drafts l,
  Forall2 same_draft (map (finalize host this drafts) l) l.
Proof.
  intros host this drafts. induction l as [|x l IH]; simpl; constructor;
    [repeat split | exact IH].
Qed.

(** The records of a report are the final forms of the drafts of its task
    ids. *)
Lemma report_drafts : forall host this records this',
  generateReport host this = Some (records, this') ->
  exists drafts,
    records = map (finalize host this drafts) drafts
    /\ map task drafts = allTaskIds this
    /\ NoDup (map task drafts)
    /\ (forall d, In d drafts -> draftRecord this (task d) = Some d).
Proof.
  intros host this records this' H.
  apply generateReport_some in H. destruct H as (drafts & HF & ->).
  exists drafts. split; [reflexivity|].
  pose proof (Forall2_draft_tasks _ _ _ HF) as Ht.
  split; [exact Ht|]. split; [rewrite Ht; apply NoDup_allTaskIds|].
  clear Ht. induction HF as [|tid x ids l Hx _ IH]; intros d Hd; [contradiction|].
  destruct Hd as [->|Hd]; [|now apply IH].
  pose proof (draftRecord_fields _ _ _ Hx) as [<- _]. exact Hx.
Qed.

(** [generateReport] reads the indexes and leaves them as they are; run
    again on the processor it leaves, it returns the same records; and
    afterwards [calculateProductiveTime] answers from the report: the
    productive time of a task of the report, null for any other task. *)
Theorem generateReport_repeatable :
  forall (host : Host) (this : Processor) records this',
    generateReport host this = Some (records, this') ->
    taskActionIndex this' = taskActionIndex this
    /\ taskHistoryIndex this' = taskHistoryIndex this
    /\ userIndex this' = userIndex this
    /\ autoAssignmentIndex this' = autoAssignmentIndex this
    /\ openTimeIndex this' = openTimeIndex this
    /\ screenOpenIndex this' = screenOpenIndex this
    /\ currentReportRecords this' = records
    /\ generateReport host this' = Some (records, this')
    /\ (forall r, In r records ->
          productiveTime r = Some (calculateProductiveTime host this' (task r)))
    /\ (forall tid, ~ In tid (map task records) ->
          calculateProductiveTime host this' tid = None).
Proof.
  intros host this records this' H.
  pose proof (generateReport_state host this records this' H) as ->.
  repeat (split; [reflexivity|]).
  split; [rewrite generateReport_ignores_records; exact H|].
  split.
  - intros r Hin.
    destruct (report_drafts host this records _ H) as (drafts & -> & _).
    apply in_map_iff in Hin. destruct Hin as (d & <- & Hd).
    cbn [finalize set_waitingTime set_productiveTime productiveTime task].
    f_equal. symmetry.
    apply calculateProductiveTime_same_draft.
    apply Forall2_same_draft_finalize.
  - intros tid Hnot. unfold calculateProductiveTime, findRecordByTaskId.
    cbn [currentReportRecords with_currentReportRecords].
    now rewrite (find_none_not_in records tid Hnot).
Qed.

Lemma generateReport_repeatable_witness :
  match generateReport utc_host sample_report with
  | Some (records, this') =>
      generateReport utc_host this' = Some (records, this')
      /\ calculateProductiveTime utc_host this' "TASK-3" = Some 5
      /\ calculateProductiveTime utc_host this' "TASK-7" = None
      /\ calculateProductiveTime utc_host sample_report "TASK-3" = None
  | None => False
  end.
Proof.
  destruct (generateReport utc_host sample_report) as [[records this']|] eqn:H;
    [|discriminate H].
  destruct (generateReport_repeatable utc_host sample_report records this' H)
    as (_ & _ & _ & _ & _ & _ & _ & Hagain & _ & Hother).
  split; [exact Hagain|].
  pose proof H as H'. vm_compute in H'. injection H' as Hrecords Hthis.
  split; [rewrite <- Hthis; reflexivity|].
  split; [|reflexivity].
  apply Hother. rewrite <- Hrecords. simpl.
  intros Hin. repeat (destruct Hin as [Hin|Hin]; [discriminate Hin|]). exact Hin.
Defined.

End ReportMore.

(** ** Waiting time and maker-complete time *)

Module PhaseMore.
Import JsString JsDate JsMap JsMapFacts TaskProcessor Spec ListFacts IndexFacts.
Import ReportFacts Samples SpecMore ReportMore.

Lemma isoOrEmpty_empty : forall d,
  isoOrEmpty d = Some "" -> d = None.
Proof.
  intros [[|t]|]; cbn [isoOrEmpty toISOString]; try discriminate; [|reflexivity].
  intros H. injection H as H.
  pose proof (ReportRoundTrip.isoStringOfTime_not_empty t) as E.
  rewrite H in E. discriminate E.
Qed.

Lemma isoOrEmpty_some : forall d text,
  isoOrEmpty d = Some text -> d <> Some InvalidDate.
Proof. intros d text H ->. discriminate H. Qed.

(** The waiting time of a record of the report is what
    [calculateTimeDifferenceMinutes] gives for the created time and the
    assigned time of its task, as the indexes give them; it is null exactly
    when one of the two texts of the record is empty, and for two times at
    most 2^53 milliseconds apart it is the whole minutes between them. *)
Theorem waitingTime_from_index_times :
  forall (host : Host) (this : Processor) records this' r,
    generateReport host this = Some (records, this') ->
    In r records ->
    waitingTime r =
      Some (DateUtils.calculateTimeDifferenceMinutes
              (getCreatedTime this (task r)) (getAssignedTime this (task r)))
    /\ (waitingTime r = Some None <-> createdTime r = "" \/ assignedTime r = "")
    /\ (forall c a,
          getCreatedTime this (task r) = Some (TimeValue c) ->
          getAssignedTime this (task r) = Some (TimeValue a) ->
          Z.abs (a - c) <= exact_span ->
          waitingTime r = Some (Some (minutes_between c a))).
Proof.
  intros host this records this' r H Hin.
  destruct (report_drafts host this records this' H) as (drafts & -> & _ & _ & Hd).
  apply in_map_iff in Hin. destruct Hin as (d & <- & Hin).
  specialize (Hd d Hin). apply draftRecord_fields in Hd.
  destruct Hd as (_ & _ & _ & Hc & Ha & _).
  change (task (finalize host this drafts d)) with (task d).
  change (createdTime (finalize host this drafts d)) with (createdTime d).
  change (assignedTime (finalize host this drafts d)) with (assignedTime d).
  cbn [finalize set_waitingTime set_productiveTime waitingTime].
  unfold calculateWaitingTime.
  destruct (getCreatedTime this (task d)) as [[|c]|] eqn:Ec;
    [discriminate Hc| |].
  - destruct (getAssignedTime this (task d)) as [[|a]|] eqn:Ea;
      [discriminate Ha| |].
    + cbn [isoOrEmpty toISOString] in Hc, Ha.
      injection Hc as Hc. injection Ha as Ha.
      split; [reflexivity|]. split.
      * split; [discriminate|].
        intros [E|E]; rewrite E in *;
          [pose proof (ReportRoundTrip.isoStringOfTime_not_empty c) as N
          |pose proof (ReportRoundTrip.isoStringOfTime_not_empty a) as N];
          [rewrite Hc in N | rewrite Ha in N]; discriminate N.
      * intros c' a' [= <-] [= <-] _. reflexivity.
    + injection Ha as Ha. split; [reflexivity|]. split.
      * split; [intros _; now right | reflexivity].
      * intros c' a' _ E. discriminate E.
  - injection Hc as Hc. split; [reflexivity|]. split.
    + split; [intros _; now left | reflexivity].
    + intros c' a' E. discriminate E.
Qed.

Lemma waitingTime_from_index_times_witness :
  match generateReport utc_host sample_report with
  | Some (records, _) =>
      exists r,
        In r records /\ task r = "TASK-3" /\ waitingTime r = Some (Some 2)
  | None => False
  end.
Proof.
  destruct (generateReport utc_host sample_report) as [[records this']|] eqn:H;
    [|discriminate H].
  pose proof H as H'. vm_compute in H'. injection H' as Hrecords _.
  assert (Hin : In (nth 1 records (nth 0 records
                      {| task := ""; userName := ""; userEmail := "";
                         mode := Unknown; createdTime := ""; assignedTime := "";
                         makerCompleteTime := ""; openTime := "";
                         productiveTime := None; waitingTime := None |}))
                   records)
    by (rewrite <- Hrecords; right; left; reflexivity).
  assert (Htask : task (nth 1 records (nth 0 records
                      {| task := ""; userName := ""; userEmail := "";
                         mode := Unknown; createdTime := ""; assignedTime := "";
                         makerCompleteTime := ""; openTime := "";
                         productiveTime := None; waitingTime := None |}))
                  = "TASK-3")
    by (rewrite <- Hrecords; reflexivity).
  eexists. split; [exact Hin|]. split; [exact Htask|].
  destruct (waitingTime_from_index_times utc_host sample_report records this'
              _ H Hin) as (_ & _ & Hboth).
  apply (Hboth 60000 200000);
    [rewrite Htask; reflexivity | rewrite Htask; reflexivity
    | vm_compute; discriminate].
Defined.

(** The maker-complete time of a task is the action time stamp of the first
    record of the source, in the order it was read, that carries the task's
    id with status PCA and action SC, and null when there is none; the
    record of the report holds its ISO text, or the empty text for null. *)
Theorem getMakerCompleteTime_first_in_source_order :
  forall (taskHistories : list TaskHistory) (this : Processor) (taskId : string),
    taskHistoryIndex this =
      taskHistoryIndex (buildTaskHistoryIndex taskHistories new) ->
    exists entry : option TaskHistory,
      first_match
        (fun h => keyed_by taskId (historyTaskId h) && has_codes "PCA" "SC" h)
        taskHistories entry
      /\ getMakerCompleteTime this taskId =
           match entry with
           | Some h => actionTimestamp h
           | None => None
           end
      /\ forall host records this' r,
           generateReport host this = Some (records, this') ->
           In r records -> task r = taskId ->
           Some (makerCompleteTime r) =
             match entry with
             | Some h => isoOrEmpty (actionTimestamp h)
             | None => Some ""
             end.
Proof.
  intros hs this tid Hidx.
  exists (find (fun h => keyed_by tid (historyTaskId h) && has_codes "PCA" "SC" h) hs).
  split; [apply find_first_match|].
  assert (E : getMakerCompleteTime this tid =
              match find (fun h => keyed_by tid (historyTaskId h)
                                   && has_codes "PCA" "SC" h) hs with
              | Some h => actionTimestamp h
              | None => None
              end).
  { rewrite <- (find_in_history hs this tid "PCA" "SC" Hidx).
    unfold getMakerCompleteTime, timestampOf.
    destruct (get tid (taskHistoryIndex this)); reflexivity. }
  split; [exact E|].
  intros host records this' r H Hin Htask.
  destruct (report_drafts host this records this' H) as (drafts & -> & _ & _ & Hd).
  apply in_map_iff in Hin. destruct Hin as (d & <- & Hin).
  specialize (Hd d Hin). apply draftRecord_fields in Hd.
  destruct Hd as (_ & _ & _ & _ & _ & Hm & _).
  change (task (finalize host this drafts d)) with (task d) in Htask.
  change (makerCompleteTime (finalize host this drafts d))
    with (makerCompleteTime d).
  rewrite <- Hm, Htask, E.
  now destruct (find _ hs).
Qed.

Lemma getMakerCompleteTime_witness :
  getMakerCompleteTime
    (buildTaskHistoryIndex
       [history "TASK-3" "PCA" "IN" 50; history "TASK-4" "PCA" "SC" 70;
        history "TASK-3" "PCA" "SC" 200; history "TASK-3" "PCA" "SC" 100] new)
    "TASK-3"
  = Some (TimeValue 200).
Proof.
  destruct (getMakerCompleteTime_first_in_source_order
              [history "TASK-3" "PCA" "IN" 50; history "TASK-4" "PCA" "SC" 70;
               history "TASK-3" "PCA" "SC" 200; history "TASK-3" "PCA" "SC" 100]
              (buildTaskHistoryIndex
                 [history "TASK-3" "PCA" "IN" 50; history "TASK-4" "PCA" "SC" 70;
                  history "TASK-3" "PCA" "SC" 200; history "TASK-3" "PCA" "SC" 100]
                 new)
              "TASK-3" eq_refl) as (entry & Hfirst & Hget & _).
  rewrite Hget. apply first_match_unique in Hfirst. rewrite Hfirst. reflexivity.
Defined.

End PhaseMore.

(** ** The order of the keys and of the report *)

Module OrderFacts.
Import JsString JsDate JsMap JsMapFacts TaskProcessor Spec ListFacts IndexFacts.
Import ReportFacts Samples SamplesMore SpecMore ReportMore.

Lemma in_firsts : forall l x, In x (firsts l) <-> In x l.
Proof.
  induction l as [|k l IH]; intros x; simpl; [tauto|].
  rewrite filter_In, IH. destruct (String.eqb x k) eqn:E; simpl.
  - apply String.eqb_eq in E. subst. split; [intros _; now left|].
    intros _. now left.
  - apply String.eqb_neq in E. split.
    + intros [<-|[Hin _]]; [now left | now right].
    + intros [<-|Hin]; [now left | right; now split].
Qed.

Lemma set_has_firsts : forall l k, JsSet.has k (firsts l) = JsSet.has k l.
Proof.
  intros l k. destruct (JsSet.has k l) eqn:E.
  - apply JsSetFacts.set_has_true_iff. apply in_firsts.
    now apply JsSetFacts.set_has_true_iff.
  - destruct (JsSet.has k (firsts l)) eqn:F; [|reflexivity].
    apply (proj1 (JsSetFacts.set_has_true_iff _ _)) in F.
    apply (proj1 (in_firsts _ _)) in F.
    apply (proj2 (JsSetFacts.set_has_true_iff _ _)) in F.
    rewrite F in E. discriminate E.
Qed.

Lemma set_has_keys : forall (V : Type) (m : JsMap.t V) k,
  JsSet.has k (keys m) = has k m.
Proof.
  intros V m k. destruct (has k m) eqn:E.
  - apply JsSetFacts.set_has_true_iff. now apply has_true_iff.
  - destruct (JsSet.has k (keys m)) eqn:F; [|reflexivity].
    apply (proj1 (JsSetFacts.set_has_true_iff _ _)) in F.
    apply (proj2 (has_true_iff _ _)) in F.
    rewrite F in E. discriminate E.
Qed.

Lemma firsts_snoc : forall l k, firsts (l ++ [k]) = JsSet.add k (firsts l).
Proof.
  intros l k. unfold JsSet.add. rewrite set_has_firsts.
  induction l as [|x l IH]; simpl; [reflexivity|].
  rewrite IH. unfold JsSet.has. simpl.
  destruct (String.eqb k x) eqn:E; simpl.
  - destruct (existsb (String.eqb k) l); [reflexivity|].
    rewrite filter_app. simpl. rewrite E. simpl. now rewrite app_nil_r.
  - unfold JsSet.has in IH.
    destruct (existsb (String.eqb k) l); [reflexivity|].
    rewrite filter_app. simpl. now rewrite E.
Qed.

(** Adding keys to a set that holds each key once keeps the order of first
    occurrence. *)
Lemma add_all_firsts : forall ks l,
  JsSet.add_all ks (firsts l) = firsts (l ++ ks).
Proof.
  unfold JsSet.add_all. induction ks as [|k ks IH]; intros l; simpl.
  - now rewrite app_nil_r.
  - rewrite <- firsts_snoc, IH, <- app_assoc. reflexivity.
Qed.

Lemma filter_all : forall (A : Type) (f : A -> bool) (l : list A),
  (forall x, In x l -> f x = true) -> filter f l = l.
Proof.
  intros A f. induction l as [|x l IH]; intros H; simpl; [reflexivity|].
  rewrite (H x (or_introl eq_refl)), IH; [reflexivity|].
  intros y Hy. apply H. now right.
Qed.

Lemma firsts_NoDup : forall l, NoDup l -> firsts l = l.
Proof.
  induction l as [|k l IH]; intros H; simpl; [reflexivity|].
  inversion H as [|? ? Hnotin Hnd]; subst. rewrite (IH Hnd).
  rewrite filter_all; [reflexivity|].
  intros x Hx. destruct (String.eqb x k) eqn:E; [|reflexivity].
  apply String.eqb_eq in E. subst. contradiction.
Qed.

Lemma NoDup_firsts : forall l, NoDup (firsts l).
Proof.
  induction l as [|k l IH]; simpl; constructor.
  - rewrite filter_In. intros [_ H]. now rewrite String.eqb_refl in H.
  - now apply NoDup_filter.
Qed.

Lemma filter_filter_keys : forall (f g : string -> bool) l,
  filter f (filter g l) = filter (fun x => g x && f x) l.
Proof.
  intros f g. induction l as [|x l IH]; simpl; [reflexivity|].
  destruct (g x); simpl; [destruct (f x); now rewrite IH | exact IH].
Qed.

Lemma firsts_app : forall a b,
  firsts (a ++ b) =
    (firsts a ++ filter (fun x => negb (JsSet.has x a)) (firsts b))%list.
Proof.
  induction a as [|k a IH]; intros b; simpl.
  - symmetry. apply filter_all. reflexivity.
  - rewrite IH, filter_app, filter_filter_keys. do 2 f_equal.
    apply filter_ext. intros x. unfold JsSet.has. simpl.
    destruct (String.eqb x k), (existsb (String.eqb x) a); reflexivity.
Qed.

Lemma firsts_app_firsts_l : forall a b, firsts (firsts a ++ b) = firsts (a ++ b).
Proof.
  intros a b. rewrite !firsts_app, (firsts_NoDup _ (NoDup_firsts a)).
  f_equal. apply filter_ext. intros x. now rewrite set_has_firsts.
Qed.

Lemma firsts_app_firsts_r : forall a b, firsts (a ++ firsts b) = firsts (a ++ b).
Proof.
  intros a b. now rewrite !firsts_app, (firsts_NoDup _ (NoDup_firsts b)).
Qed.

(** The keys of a map are in the order in which they were first set. *)
Lemma keys_set_add : forall (V : Type) (m : JsMap.t V) k v,
  keys (set k v m) = JsSet.add k (keys m).
Proof.
  intros V m k v. rewrite keys_set. unfold JsSet.add.
  now rewrite set_has_keys.
Qed.

Lemma keys_push_at : forall (A : Type) (m : JsMap.t (list A)) k x,
  keys (push_at k x m) = JsSet.add k (keys m).
Proof.
  intros A m k x. rewrite push_at_eq, keys_set_add.
  destruct (has k m) eqn:E; [reflexivity|].
  rewrite keys_set_add. unfold JsSet.add at 1.
  assert (H : JsSet.has k (JsSet.add k (keys m)) = true).
  { apply JsSetFacts.set_has_true_iff, JsSetFacts.in_add. now left. }
  now rewrite H.
Qed.

Lemma keys_fold_push_keyed : forall (A : Type) (key : A -> option string) xs m,
  keys (fold_left (push_keyed key) xs m) =
    JsSet.add_all (join_keys key xs) (keys m).
Proof.
  intros A key. unfold JsSet.add_all, join_keys.
  induction xs as [|x xs IH]; intros m; simpl; [reflexivity|].
  rewrite IH, fold_left_app. f_equal. unfold push_keyed.
  destruct (key x) as [k|]; [|reflexivity].
  destruct (truthy k); [|reflexivity]. simpl. apply keys_push_at.
Qed.

Lemma keys_fold_set_keyed : forall (A : Type) (key : A -> option string) xs m,
  keys (fold_left (set_keyed key) xs m) =
    JsSet.add_all (join_keys key xs) (keys m).
Proof.
  intros A key. unfold JsSet.add_all, join_keys.
  induction xs as [|x xs IH]; intros m; simpl; [reflexivity|].
  rewrite IH, fold_left_app. f_equal. unfold set_keyed.
  destruct (key x) as [k|]; [|reflexivity].
  destruct (truthy k); [|reflexivity]. simpl. apply keys_set_add.
Qed.

Lemma allTaskIds_firsts : forall this,
  allTaskIds this =
    firsts (keys (taskActionIndex this) ++ keys (taskHistoryIndex this)
            ++ keys (autoAssignmentIndex this)).
Proof.
  intros this. unfold allTaskIds.
  change (@nil string) with (firsts []).
  rewrite !add_all_firsts. simpl. now rewrite app_assoc.
Qed.

(** The records of the report come in the order in which the task ids are
    first met when the task actions are read, then the task histories, then
    the auto assignments, each source in its order; the keys of each of the
    three indexes are in the order of their first occurrence in the source. *)
Theorem generateReport_order :
  forall (host : Host) (this : Processor) taskActions taskHistories
         autoAssignments records this',
    taskActionIndex this =
      taskActionIndex (buildTaskActionIndex taskActions new) ->
    taskHistoryIndex this =
      taskHistoryIndex (buildTaskHistoryIndex taskHistories new) ->
    autoAssignmentIndex this =
      autoAssignmentIndex (buildAutoAssignmentIndex autoAssignments new) ->
    generateReport host this = Some (records, this') ->
    keys (taskActionIndex this) = firsts (join_keys actionTaskId taskActions)
    /\ keys (taskHistoryIndex this)
       = firsts (join_keys historyTaskId taskHistories)
    /\ keys (autoAssignmentIndex this)
       = firsts (join_keys taskId autoAssignments)
    /\ map task records =
         firsts (join_keys actionTaskId taskActions
                 ++ join_keys historyTaskId taskHistories
                 ++ join_keys taskId autoAssignments).
Proof.
  intros host this tas ths aas records this' Ha Hh Hx H.
  assert (Ka : keys (taskActionIndex this) = firsts (join_keys actionTaskId tas)).
  { rewrite Ha, taskActionIndex_build, keys_fold_push_keyed.
    change (keys (taskActionIndex new)) with (firsts []).
    now rewrite add_all_firsts. }
  assert (Kh : keys (taskHistoryIndex this)
               = firsts (join_keys historyTaskId ths)).
  { rewrite Hh, taskHistoryIndex_build, keys_fold_push_keyed.
    change (keys (taskHistoryIndex new)) with (firsts []).
    now rewrite add_all_firsts. }
  assert (Kx : keys (autoAssignmentIndex this)
               = firsts (join_keys taskId aas)).
  { rewrite Hx, autoAssignmentIndex_build, keys_fold_set_keyed.
    change (keys (autoAssignmentIndex new)) with (firsts []).
    now rewrite add_all_firsts. }
  split; [exact Ka|]. split; [exact Kh|]. split; [exact Kx|].
  destruct (report_drafts host this records this' H) as (drafts & -> & Ht & _).
  rewrite map_map.
  change (map (fun x => task (finalize host this drafts x)) drafts)
    with (map task drafts).
  rewrite Ht, allTaskIds_firsts, Ka, Kh, Kx.
  rewrite firsts_app_firsts_l.
  rewrite app_assoc, firsts_app_firsts_r, <- app_assoc.
  rewrite (firsts_app (join_keys actionTaskId tas)), firsts_app_firsts_l.
  now rewrite <- firsts_app.
Qed.

Lemma generateReport_order_witness :
  option_map (fun p => map task (fst p)) (generateReport utc_host sample_order)
  = Some ["TASK-2"; "TASK-1"; "TASK-3"; "TASK-4"].
Proof.
  destruct (generateReport utc_host sample_order) as [[records this']|] eqn:H;
    [|discriminate H].
  destruct (generateReport_order utc_host sample_order
              [taskAction "TASK-2" "b@x.com"; taskAction "TASK-1" "b@x.com";
               taskAction "" "b@x.com"; taskAction "TASK-2" "c@x.com"]
              [history "TASK-3" "PMA" "IN" 100; history "TASK-1" "PMA" "IN" 200;
               history "TASK-3" "PME" "AS" 300]
              [assignment "TASK-4" "svc@x.com" 400;
               assignment "TASK-2" "svc@x.com" 500]
              records this' eq_refl eq_refl eq_refl H) as (_ & _ & _ & Horder).
  simpl. rewrite Horder. reflexivity.
Defined.

End OrderFacts.

(** ** The open-time index and the user index *)

Module LookupFacts.
Import JsString JsDate JsMap JsMapFacts TaskProcessor Spec ListFacts IndexFacts.
Import Samples SamplesMore SpecMore.

(** The last match is unique. *)
Lemma last_match_unique : forall (A : Type) (P : A -> bool) (l : list A) r,
  last_match P l r -> r = find P (rev l).
Proof.
  intros A P l r H. apply first_match_unique. destruct r as [x|]; simpl in *.
  - destruct H as (l1 & l2 & -> & HP & Hl2).
    exists (rev l2), (rev l1). rewrite rev_app_distr. simpl.
    rewrite <- app_assoc. simpl. repeat split; [assumption|].
    intros y Hy. apply Hl2. apply (proj2 (in_rev _ _)). exact Hy.
  - intros y Hy. apply H. apply (proj2 (in_rev _ _)). exact Hy.
Qed.

Section LastWrite.
Context {A V : Type}.
Variable P : string -> A -> bool.
Variable val : A -> V.
Variable step : JsMap.t V -> A -> JsMap.t V.
Hypothesis get_step : forall m x tid,
  get tid (step m x) = if P tid x then Some (val x) else get tid m.

(** After a loop of overwriting steps, a key holds the value of the last
    element of the source that wrote under it. *)
Lemma get_fold_step : forall xs m tid,
  get tid (fold_left step xs m) =
    match find (P tid) (rev xs) with
    | Some x => Some (val x)
    | None => get tid m
    end.
Proof.
  induction xs as [|x xs IH] using rev_ind; intros m tid; [reflexivity|].
  rewrite fold_left_app, rev_app_distr. simpl. rewrite get_step.
  destruct (P tid x); [reflexivity | apply IH].
Qed.

End LastWrite.

Lemma find_last_match : forall (A : Type) (P : A -> bool) (l : list A),
  last_match P l (find P (rev l)).
Proof.
  intros A P l. pose proof (find_first_match A P (rev l)) as H.
  destruct (find P (rev l)) as [x|]; simpl in *.
  - destruct H as (l1 & l2 & E & HP & Hl1).
    exists (rev l2), (rev l1). split.
    + rewrite <- (rev_involutive l), E, rev_app_distr. simpl.
      now rewrite <- app_assoc.
    + split; [assumption|]. intros y Hy. apply Hl1.
      apply (proj2 (in_rev _ _)). exact Hy.
  - intros y Hy. apply H. apply (proj1 (in_rev _ _)). exact Hy.
Qed.

Lemma openTimeIndex_build : forall assignToMeData this,
  openTimeIndex (buildOpenTimeIndex assignToMeData this) =
    fold_left open_step assignToMeData (openTimeIndex this).
Proof.
  unfold buildOpenTimeIndex.
  induction assignToMeData as [|x xs IH]; intros this; simpl; [reflexivity|].
  rewrite IH. f_equal. unfold open_step.
  destruct (tasknum x) as [k|]; [destruct (truthy k)|]; reflexivity.
Qed.

Lemma get_open_step : forall m a tid,
  get tid (open_step m a) =
    if keyed_by tid (tasknum a) then Some (openTimestamp a) else get tid m.
Proof.
  intros m a tid. unfold open_step, keyed_by.
  destruct (tasknum a) as [k|]; [|reflexivity].
  destruct (truthy k); simpl; [|reflexivity].
  destruct (String.eqb k tid) eqn:E.
  - apply String.eqb_eq in E. subst. apply get_set_same.
  - apply String.eqb_neq in E. now apply get_set_other.
Qed.

Lemma userIndex_build : forall users this,
  userIndex (buildUserIndex users this) =
    fold_left user_step users (userIndex this).
Proof.
  unfold buildUserIndex.
  induction users as [|x xs IH]; intros this; simpl; [reflexivity|].
  now rewrite IH.
Qed.

Lemma get_user_step : forall m u mail,
  get mail (user_step m u) =
    if String.eqb (userPrincipalName u) mail then Some (displayName u)
    else get mail m.
Proof.
  intros m u mail. unfold user_step.
  destruct (String.eqb (userPrincipalName u) mail) eqn:E.
  - apply String.eqb_eq in E. subst. apply get_set_same.
  - apply String.eqb_neq in E. now apply get_set_other.
Qed.

(** The open time of a task is the time stamp of the last row of
    assigntome.csv, in the order read, whose tasknum is the task's id; it is
    null when there is no such row, and also when that last row has no time
    stamp, whatever the rows before it hold. *)
Theorem getOpenTime_last_row :
  forall (assignToMeData : list AssignToMe) (this : Processor) (taskId : string),
    openTimeIndex this =
      openTimeIndex (buildOpenTimeIndex assignToMeData new) ->
    exists entry : option AssignToMe,
      last_match (fun a => keyed_by taskId (tasknum a)) assignToMeData entry
      /\ getOpenTime this taskId =
           match entry with
           | Some a => openTimestamp a
           | None => None
           end.
Proof.
  intros rows this tid Hidx.
  exists (find (fun a => keyed_by tid (tasknum a)) (rev rows)).
  split; [apply find_last_match|].
  unfold getOpenTime. rewrite Hidx, openTimeIndex_build.
  rewrite (get_fold_step (fun tid a => keyed_by tid (tasknum a)) openTimestamp
             open_step get_open_step).
  destruct (find _ (rev rows)) as [a|]; [|reflexivity].
  now destruct (openTimestamp a).
Qed.

Lemma getOpenTime_witness :
  getOpenTime (buildOpenTimeIndex sample_opened new) "TASK-3" = None
  /\ getOpenTime (buildOpenTimeIndex sample_opened new) "TASK-4"
     = Some (TimeValue 4000).
Proof.
  split.
  - destruct (getOpenTime_last_row sample_opened
                (buildOpenTimeIndex sample_opened new) "TASK-3" eq_refl)
      as (entry & Hlast & ->).
    apply last_match_unique in Hlast. rewrite Hlast. reflexivity.
  - destruct (getOpenTime_last_row sample_opened
                (buildOpenTimeIndex sample_opened new) "TASK-4" eq_refl)
      as (entry & Hlast & ->).
    apply last_match_unique in Hlast. rewrite Hlast. reflexivity.
Defined.

(** The display form of an email is made from the last row of users.csv, in
    the order read, whose principal name is the email: the display name, a
    space and the email in parentheses; it is the bare email when there is no
    such row, or when that last row has an empty display name. *)
Theorem getUserDisplayName_last_row :
  forall (users : list User) (this : Processor) (email : string),
    userIndex this = userIndex (buildUserIndex users new) ->
    exists entry : option User,
      last_match (fun u => String.eqb (userPrincipalName u) email) users entry
      /\ getUserDisplayName this email =
           match entry with
           | Some u =>
               if String.eqb (displayName u) "" then email
               else displayName u ++ " (" ++ email ++ ")"
           | None => email
           end.
Proof.
  intros users this mail Hidx.
  exists (find (fun u => String.eqb (userPrincipalName u) mail) (rev users)).
  split; [apply find_last_match|].
  unfold getUserDisplayName. rewrite Hidx, userIndex_build.
  rewrite (get_fold_step (fun mail u => String.eqb (userPrincipalName u) mail)
             displayName user_step get_user_step).
  destruct (find _ (rev users)) as [u|]; [|reflexivity].
  unfold truthy. now destruct (String.eqb (displayName u) "").
Qed.

Lemma getUserDisplayName_witness :
  getUserDisplayName (buildUserIndex sample_directory new) "b@x.com"
    = "Bee (b@x.com)"
  /\ getUserDisplayName (buildUserIndex sample_directory new) "c@x.com"
     = "c@x.com"
  /\ getUserDisplayName (buildUserIndex sample_directory new) "d@x.com"
     = "d@x.com"
  /\ getUserDisplayName (buildUserIndex sample_directory new) ""
     = "Nobody ()".
Proof.
  split; [|split; [|split]].
  - destruct (getUserDisplayName_last_row sample_directory
                (buildUserIndex sample_directory new) "b@x.com" eq_refl)
      as (entry & Hlast & ->).
    apply last_match_unique in Hlast. rewrite Hlast. reflexivity.
  - destruct (getUserDisplayName_last_row sample_directory
                (buildUserIndex sample_directory new) "c@x.com" eq_refl)
      as (entry & Hlast & ->).
    apply last_match_unique in Hlast. rewrite Hlast. reflexivity.
  - destruct (getUserDisplayName_last_row sample_directory
                (buildUserIndex sample_directory new) "d@x.com" eq_refl)
      as (entry & Hlast & ->).
    apply last_match_unique in Hlast. rewrite Hlast. reflexivity.
  - destruct (getUserDisplayName_last_row sample_directory
                (buildUserIndex sample_directory new) "" eq_refl)
      as (entry & Hlast & ->).
    apply last_match_unique in Hlast. rewrite Hlast. reflexivity.
Defined.

End LookupFacts.

(** ** The reports on data read by the parsers *)

Module TotalityFacts.
Import JsString JsDate JsMap JsMapFacts TaskProcessor Spec ListFacts IndexFacts.
Import ReportFacts AutoAssignmentFacts AnalysisFacts LookupFacts.
Import Samples SamplesMore SpecMore ReportMore.

(** [parseDate] returns a valid date or null. *)
Lemma parseDate_not_invalid : forall host cell,
  DateUtils.parseDate host cell <> Some InvalidDate.
Proof.
  intros host [str|]; unfold DateUtils.parseDate; [|discriminate].
  destruct (_ || _); [discriminate|].
  destruct (DateUtils.first_valid host str DateUtils.formats); [discriminate|].
  destruct (momentLenient host str); discriminate.
Qed.

Lemma timestampOf_find_valid : forall status code histories,
  (forall h, In h histories -> actionTimestamp h <> Some InvalidDate) ->
  timestampOf (findHistory status code histories) <> Some InvalidDate.
Proof.
  intros status code l H. unfold timestampOf, findHistory.
  destruct (find _ l) as [h|] eqn:F; [|discriminate].
  apply find_some in F. apply H, F.
Qed.

Lemma reduceEarliest_in : forall rest first,
  In (reduceEarliest first rest) (first :: rest).
Proof.
  unfold reduceEarliest. induction rest as [|x rest IH]; intros first; simpl.
  - now left.
  - destruct (lessThan x first).
    + right. apply IH.
    + destruct (IH first) as [E|Hin]; [left; exact E | right; right; exact Hin].
Qed.

Section WithHost.
Context (host : Host).

(** [generateReport] returns as soon as the three indexes that hold dates
    hold no Invalid Date. *)
Lemma generateReport_total : forall this,
  (forall tid l h, get tid (taskHistoryIndex this) = Some l -> In h l ->
                   actionTimestamp h <> Some InvalidDate) ->
  (forall tid a, get tid (autoAssignmentIndex this) = Some a ->
                 timestamp a <> Some InvalidDate) ->
  (forall tid d, get tid (openTimeIndex this) = Some d -> d <> Some InvalidDate) ->
  exists records,
    generateReport host this = Some (records, with_currentReportRecords this records).
Proof.
  intros this Hh Ha Ho.
  destruct (generateReport host this) as [[records this']|] eqn:H.
  - exists records. now rewrite (generateReport_state host this records this' H).
  - exfalso. apply generateReport_none in H. destruct H as (tid & _ & Hd).
    apply draftRecord_none in Hd.
    assert (Hmanual : getManualAssignedTime this tid <> Some InvalidDate).
    { unfold getManualAssignedTime.
      destruct (get tid (taskHistoryIndex this)) as [l|] eqn:E; [|discriminate].
      apply timestampOf_find_valid. intros h. now apply (Hh tid l). }
    destruct Hd as [Hd | [Hd | [Hd | Hd]]].
    + revert Hd. unfold getCreatedTime.
      destruct (get tid (taskHistoryIndex this)) as [l|] eqn:E; [|discriminate].
      apply timestampOf_find_valid. intros h. now apply (Hh tid l).
    + revert Hd. unfold getAssignedTime.
      destruct (determineMode this tid); try exact Hmanual.
      unfold getAutoAssignedTime.
      destruct (get tid (autoAssignmentIndex this)) as [a|] eqn:E;
        [|discriminate].
      now apply (Ha tid).
    + revert Hd. unfold getMakerCompleteTime.
      destruct (get tid (taskHistoryIndex this)) as [l|] eqn:E; [|discriminate].
      apply timestampOf_find_valid. intros h. now apply (Hh tid l).
    + revert Hd. unfold getOpenTime.
      destruct (get tid (openTimeIndex this)) as [[d|]|] eqn:E;
        try discriminate.
      intros [= ->]. now apply (Ho tid _ E).
Qed.

(** [generateAutoTaskOpenAnalysis] returns as soon as the two indexes that
    hold its dates hold no Invalid Date. *)
Lemma analysisOf_total : forall this entries,
  (forall tid a, In (tid, a) entries -> timestamp a <> Some InvalidDate) ->
  (forall e l d, get e (screenOpenIndex this) = Some l -> In d l ->
                 d <> Some InvalidDate) ->
  exists rows, analysisOf this entries = Some rows.
Proof.
  intros this entries Ha Hs.
  induction entries as [|[tid a] entries IH]; [exists []; reflexivity|].
  destruct IH as (rows & Hrows).
  { intros tid' a' Hin. apply (Ha tid'). now right. }
  cbn [analysisOf]. rewrite Hrows.
  assert (Hfirst : getFirstScreenOpenTime this (email a) <> Some InvalidDate).
  { unfold getFirstScreenOpenTime. destruct (email a) as [e|]; [|discriminate].
    destruct (get e (screenOpenIndex this)) as [[|first rest]|] eqn:E;
      try discriminate.
    apply (Hs e _ _ E), reduceEarliest_in. }
  pose proof (Ha tid a (or_introl eq_refl)) as Hvalid.
  unfold analysisRecord.
  destruct (timestamp a) as [[|x]|]; [contradiction| |];
    destruct (getFirstScreenOpenTime this (email a)) as [[|y]|];
    try contradiction; cbn -[Z.ltb]; eexists; reflexivity.
Qed.

End WithHost.

(** On data read by the parsers the two reports are produced: when the
    dates of the task histories, of the open times and of the screen-open
    events come from [parseDate], and the auto assignments from the entries
    of the log, neither [generateReport] nor [generateAutoTaskOpenAnalysis]
    meets an Invalid Date, whatever the cells and the entries hold.  (The
    rows are taken with all their columns, as the records have them.) *)
Theorem reports_return_on_parsed_data :
  forall (host : Host) (this : Processor) taskHistories jsonData assignToMeData
         screenOpenData,
    taskHistoryIndex this =
      taskHistoryIndex (buildTaskHistoryIndex taskHistories new) ->
    autoAssignmentIndex this =
      autoAssignmentIndex
        (buildAutoAssignmentIndex (JsonParser.extractAll host jsonData) new) ->
    openTimeIndex this =
      openTimeIndex (buildOpenTimeIndex assignToMeData new) ->
    screenOpenIndex this =
      screenOpenIndex (buildScreenOpenIndex screenOpenData new) ->
    (forall h, In h taskHistories ->
       exists cell, actionTimestamp h = DateUtils.parseDate host cell) ->
    (forall a, In a assignToMeData ->
       exists cell, openTimestamp a = DateUtils.parseDate host cell) ->
    (forall ev, In ev screenOpenData ->
       exists cell, screenTimestamp ev = DateUtils.parseDate host cell) ->
    (exists records,
       generateReport host this
       = Some (records, with_currentReportRecords this records))
    /\ (exists rows, generateAutoTaskOpenAnalysis this = Some rows).
Proof.
  intros host this ths items rows evs Hh Ha Ho Hs Ph Po Ps.
  assert (Va : forall tid a, get tid (autoAssignmentIndex this) = Some a ->
                             timestamp a <> Some InvalidDate).
  { intros tid a Hget. rewrite Ha, autoAssignmentIndex_build in Hget.
    destruct (get_fold_set_keyed taskId (JsonParser.extractAll host items)
                (autoAssignmentIndex new) tid) as (r & Hr & Hget').
    pose proof (eq_trans (eq_sym Hget) Hget') as Heq.
    destruct r as [x|]; [|discriminate Heq]. injection Heq as ->.
    destruct Hr as (l1 & l2 & Hl & _).
    assert (Hin : In x (JsonParser.extractAll host items))
      by (rewrite Hl; apply in_app_iff; right; now left).
    apply in_extractAll in Hin. destruct Hin as (item & _ & He).
    apply extractAutoAssignment_some in He.
    destruct He as (_ & t & _ & _ & _ & Ht & _).
    intros E. rewrite E in Ht. discriminate Ht. }
  split.
  - apply generateReport_total; [| exact Va |].
    + intros tid l h Hget Hin. rewrite Hh, history_of_task in Hget.
      assert (Hsel : In h (selected historyTaskId tid ths)).
      { destruct (selected historyTaskId tid ths); [discriminate Hget|].
        injection Hget as <-. exact Hin. }
      apply filter_In in Hsel. destruct Hsel as [Hsrc _].
      destruct (Ph h Hsrc) as (cell & ->). apply parseDate_not_invalid.
    + intros tid d Hget. rewrite Ho, openTimeIndex_build in Hget.
      rewrite (get_fold_step (fun tid a => keyed_by tid (tasknum a))
                 openTimestamp open_step get_open_step) in Hget.
      destruct (find _ (rev rows)) as [a|] eqn:F; [|discriminate Hget].
      injection Hget as <-. apply find_some in F. destruct F as [Hin _].
      apply (proj2 (in_rev _ _)) in Hin.
      destruct (Po a Hin) as (cell & ->). apply parseDate_not_invalid.
  - unfold generateAutoTaskOpenAnalysis. apply analysisOf_total.
    + intros tid a Hin. apply (Va tid). apply in_get; [|exact Hin].
      rewrite Ha, autoAssignmentIndex_build.
      apply NoDup_keys_fold_set_keyed. constructor.
    + intros e l d Hget Hin. rewrite Hs, screen_open_of_user in Hget.
      assert (Hsel : In d (map screenTimestamp (selected screenEmail e evs))).
      { destruct (map screenTimestamp (selected screenEmail e evs));
          [discriminate Hget|].
        injection Hget as <-. exact Hin. }
      apply in_map_iff in Hsel. destruct Hsel as (ev & <- & Hev).
      apply filter_In in Hev. destruct Hev as [Hsrc _].
      destruct (Ps ev Hsrc) as (cell & ->). apply parseDate_not_invalid.
Qed.

Lemma reports_return_on_parsed_data_witness :
  (exists records,
     generateReport utc_host sample_parsed
     = Some (records, with_currentReportRecords sample_parsed records))
  /\ (exists rows, generateAutoTaskOpenAnalysis sample_parsed = Some rows).
Proof.
  apply (reports_return_on_parsed_data utc_host sample_parsed parsed_histories
           sample_log parsed_opened parsed_screens);
    try reflexivity.
  - intros h [<-|[<-|[]]]; eexists; reflexivity.
  - intros a [<-|[]]; eexists; reflexivity.
  - intros ev [<-|[<-|[]]]; eexists; reflexivity.
Defined.

End TotalityFacts.

(** ** More on the auto task open analysis *)

Module AnalysisMore.
Import JsString JsDate JsMap JsMapFacts TaskProcessor Spec ListFacts IndexFacts.
Import AnalysisFacts IsoFacts Samples SamplesMore SpecMore.

Lemma T_digit_char : forall d, 0 <= d <= 9 ->
  Ascii.eqb (digit_char d) "T" = false.
Proof. intros d H. each_digit d H; reflexivity. Qed.

(** The text before the T of an ISO string is its date. *)
Lemma before_T_iso : forall t,
  before_T (isoStringOfTime t) =
    isoYear (YearFromTime t) ++ "-" ++ pad2 (MonthFromTime t + 1) ++ "-"
      ++ pad2 (DateFromTime t).
Proof.
  intros t. unfold isoStringOfTime, isoYear.
  destruct (_ && _); [|destruct (_ <=? _)];
    unfold pad6, pad4, pad3, pad2; cbn [append before_T];
    rewrite !T_digit_char by apply digit_mod; reflexivity.
Qed.

Lemma analysisRecord_fields : forall this tid a row,
  analysisRecord this tid a = Some row ->
  aUserEmail row = email a
  /\ aUserName row = option_map (getUserDisplayName this) (email a)
  /\ screenOpenCount row = List.length (getScreenOpenTimes this (email a))
  /\ isoOrEmpty (timestamp a) = Some (aAssignedTime row)
  /\ isoOrEmpty (getFirstScreenOpenTime this (email a))
     = Some (aFirstScreenOpenTime row)
  /\ assignmentDate row = before_T (aAssignedTime row).
Proof.
  intros this tid a row. unfold analysisRecord.
  destruct (isoOrEmpty (timestamp a)) as [assignedText|]; [|discriminate].
  destruct (isoOrEmpty (getFirstScreenOpenTime this (email a)))
    as [firstText|]; [|discriminate].
  intros H. injection H as <-. cbn.
  repeat split.
Qed.

(** The rows of the analysis, field by field: the email is that of the
    assignment and the name its display form; the count is the number of
    screen-open events of the source that carry the email, with or without a
    time stamp; the assigned time is the ISO text of the assignment time, and
    the assignment date is the calendar date of that time in UTC. *)
Theorem generateAutoTaskOpenAnalysis_fields :
  forall (this : Processor) (screenOpenData : list ScreenOpen) rows,
    screenOpenIndex this =
      screenOpenIndex (buildScreenOpenIndex screenOpenData new) ->
    generateAutoTaskOpenAnalysis this = Some rows ->
    Forall2
      (fun (entry : string * AutoAssignment) row =>
         aUserEmail row = email (snd entry)
         /\ aUserName row
            = option_map (getUserDisplayName this) (email (snd entry))
         /\ screenOpenCount row =
              match email (snd entry) with
              | Some e => List.length (selected screenEmail e screenOpenData)
              | None => O
              end
         /\ match timestamp (snd entry) with
            | Some (TimeValue t) =>
                aAssignedTime row = isoStringOfTime t
                /\ assignmentDate row =
                     isoYear (YearFromTime t) ++ "-"
                       ++ pad2 (MonthFromTime t + 1) ++ "-"
                       ++ pad2 (DateFromTime t)
            | _ => aAssignedTime row = "" /\ assignmentDate row = ""
            end)
      (autoAssignmentIndex this) rows.
Proof.
  intros this evs rows Hidx. unfold generateAutoTaskOpenAnalysis.
  revert rows.
  induction (autoAssignmentIndex this) as [|[tid a] entries IH]; intros rows;
    cbn [analysisOf].
  - intros H. injection H as <-. constructor.
  - destruct (analysisRecord this tid a) as [row|] eqn:Hrow; [|discriminate].
    destruct (analysisOf this entries) as [rest|]; [|discriminate].
    intros H. injection H as <-. constructor; [|now apply IH].
    apply analysisRecord_fields in Hrow.
    destruct Hrow as (He & Hn & Hc & Ha & _ & Hd). cbn [snd].
    split; [exact He|]. split; [exact Hn|]. split.
    + rewrite Hc. unfold getScreenOpenTimes.
      destruct (email a) as [e|]; [|reflexivity].
      rewrite Hidx, screen_open_of_user.
      rewrite <- (length_map screenTimestamp (selected screenEmail e evs)).
      now destruct (map screenTimestamp (selected screenEmail e evs)).
    + rewrite Hd. destruct (timestamp a) as [[|t]|];
        cbn [isoOrEmpty toISOString] in Ha; [discriminate Ha| |].
      * injection Ha as <-. split; [reflexivity | apply before_T_iso].
      * injection Ha as <-. split; reflexivity.
Qed.

Lemma generateAutoTaskOpenAnalysis_fields_witness :
  option_map (map (fun row => (screenOpenCount row, assignmentDate row)))
    (generateAutoTaskOpenAnalysis sample_midnight)
  = Some [(2%nat, "2025-08-25"); (0%nat, "1969-12-31")].
Proof.
  destruct (generateAutoTaskOpenAnalysis sample_midnight) as [rows|] eqn:H;
    [|discriminate].
  pose proof (generateAutoTaskOpenAnalysis_fields sample_midnight
                [screenOpen "u@x.com" (valid 360000); screenOpen "u@x.com" None]
                rows eq_refl H) as HF.
  inversion HF as [|e1 r1 es1 rs1 (_ & _ & Hc1 & Ht1) Hrest1]; subst.
  inversion Hrest1 as [|e2 r2 es2 rs2 (_ & _ & Hc2 & Ht2) Hrest2]; subst.
  inversion Hrest2; subst.
  cbn [snd email JsonParser.email timestamp JsonParser.assignmentTimestamp
       assignment valid] in Hc1, Ht1, Hc2, Ht2.
  destruct Ht1 as [_ Hd1]. destruct Ht2 as [_ Hd2].
  cbn [option_map map]. rewrite Hc1, Hd1, Hc2, Hd2. reflexivity.
Defined.

End AnalysisMore.

(** ** The date parser on the formats of the CSV files *)

Module ParseDateMore.
Import JsString JsDate Spec SpecMore CalendarFacts IsoFacts RoundTrip.
Import Moment DateUtils ParseDateFacts Samples.

Lemma is_nonzero_digit_char : forall d, 1 <= d <= 9 ->
  is_nonzero_digit (digit_char d) = true.
Proof.
  intros d H. assert (H' : 0 <= d <= 9) by lia.
  each_digit d H'; try reflexivity. lia.
Qed.

Lemma is_nonzero_digit_digit : forall c,
  is_nonzero_digit c = true -> is_digit c = true.
Proof.
  intros c H. unfold is_nonzero_digit in H. apply andb_prop in H. apply H.
Qed.

(** The token M or D on a number written without a leading zero. *)
Lemma read_no_leading_zero_dec2 : forall v c sep r, 1 <= v <= 99 ->
  is_digit c = false ->
  read_1to2_no_leading_zero (dec2 v ++ String c sep ++ r)
  = Some (v, String c sep ++ r).
Proof.
  intros v c sep r Hv Hc. unfold dec2. destruct (Z.ltb_spec v 10).
  - cbn [append read_1to2_no_leading_zero].
    rewrite is_nonzero_digit_char by lia. rewrite Hc.
    now rewrite digit_val_digit_char by lia.
  - unfold pad2. cbn [append read_1to2_no_leading_zero].
    rewrite is_nonzero_digit_char by euclid.
    rewrite is_digit_digit_char by apply digit_mod.
    rewrite !digit_val_digit_char by apply digit_mod.
    do 2 f_equal. euclid.
Qed.

(** The token H on an hour written without a leading zero. *)
Lemma read_has_zero_dec2 : forall v c sep r, 0 <= v <= 99 ->
  is_digit c = false ->
  read_1to2_has_zero (dec2 v ++ String c sep ++ r)
  = Some (v, String c sep ++ r).
Proof.
  intros v c sep r Hv Hc. unfold dec2. destruct (Z.ltb_spec v 10).
  - cbn [append read_1to2_has_zero].
    rewrite is_digit_digit_char by lia. rewrite Hc, andb_false_r.
    now rewrite digit_val_digit_char by lia.
  - unfold pad2. cbn [append read_1to2_has_zero].
    rewrite is_nonzero_digit_char by euclid.
    rewrite !is_digit_digit_char by apply digit_mod.
    rewrite !digit_val_digit_char by apply digit_mod.
    cbn [andb]. do 2 f_equal. euclid.
Qed.

Lemma dec2_not_blank : forall v rest, 0 <= v <= 99 ->
  negb (truthy (dec2 v ++ rest)) || String.eqb (trim (dec2 v ++ rest)) ""
  = false.
Proof.
  intros v rest Hv. unfold dec2. destruct (Z.ltb_spec v 10).
  - cbn [append]. rewrite trim_not_empty
      by (apply is_white_space_digit_char; lia). reflexivity.
  - unfold pad2. cbn [append]. rewrite trim_not_empty
      by (apply is_white_space_digit_char, digit_mod). reflexivity.
Qed.

Ltac fields :=
  cbn [cYear cMonth cDate cHour cMinute cSecond cMillisecond cIsPM cTzm
       config0].

Ltac step :=
  rewrite read_tokens_cons; cbn [read_token];
  first [ rewrite strip_prefix_app
        | rewrite read_no_leading_zero_dec2 by (reflexivity || lia)
        | rewrite read_has_zero_dec2 by (reflexivity || lia)
        | rewrite read_digits_pad2 by (assumption || lia)
        | rewrite read_digits_pad3 by (assumption || lia)
        | rewrite read_digits_pad4 by (assumption || lia) ];
  cbv beta iota; fields.

Ltac in_range :=
  repeat match goal with
         | |- context [?a <=? ?b] =>
             replace (a <=? b) with true by (symmetry; apply Z.leb_le; lia)
         | |- context [?a <? ?b] =>
             replace (a <? b) with true by (symmetry; apply Z.ltb_lt; lia)
         end.

Section WithHost.
Context (host : Host).

(** The fields of 'M/D/YYYY H:mm', read up to the minute. *)
Lemma read_month_day_minute : forall f mo d y h mi rest,
  1 <= mo <= 12 -> 1 <= d <= 31 -> 0 <= y <= 9999 -> 0 <= h <= 23 ->
  0 <= mi <= 59 ->
  read_tokens
    (tM :: Lit "/" :: tD :: Lit "/" :: tYYYY :: Lit " " :: tH :: Lit ":"
     :: tmm :: f)
    config0
    (dec2 mo ++ "/" ++ dec2 d ++ "/" ++ pad4 y ++ " " ++ dec2 h ++ ":"
       ++ pad2 mi ++ rest)
  = read_tokens f
      {| cYear := y; cMonth := mo - 1; cDate := d; cHour := h; cMinute := mi;
         cSecond := 0; cMillisecond := 0; cIsPM := None; cTzm := None |}
      rest.
Proof.
  intros f mo d y h mi rest Hmo Hd Hy Hh Hmi.
  do 9 step. reflexivity.
Qed.

(** A cell of the form 8/25/2025 8:50 (month, day, year, hour of 24 and
    minute, month, day and hour without a leading zero) is read by the first
    format, as local time on the minute. *)
Theorem parseDate_month_day_year :
  forall mo d y h mi,
    1 <= mo <= 12 -> 1 <= d <= daysInMonth y (mo - 1) -> 0 <= y <= 9999 ->
    0 <= h <= 23 -> 0 <= mi <= 59 ->
    parseDate host
      (Some (dec2 mo ++ "/" ++ dec2 d ++ "/" ++ pad4 y ++ " " ++ dec2 h ++ ":"
               ++ pad2 mi))
    = Some (TimeValue (local_instant host y mo d h mi 0 0)).
Proof.
  intros mo d y h mi Hmo Hd Hy Hh Hmi.
  pose proof (daysInMonth_le_31 y (mo - 1)) as H31.
  unfold parseDate. rewrite dec2_not_blank by lia.
  unfold formats. cbn [first_valid]. unfold strict at 1.
  replace (pad2 mi) with (pad2 mi ++ "")
    by (unfold pad2; reflexivity).
  rewrite read_month_day_minute by lia.
  cbn [read_tokens]. cbv beta iota. fields. cbn [meridiemFixWrap].
  unfold no_overflow. in_range. cbn [andb orb].
  unfold instant_of_config. fields. cbn [meridiemFixWrap]. reflexivity.
Qed.

(** Strict parsing refuses text left over after the last token. *)
Lemma read_tokens_left_over : forall c ch s,
  read_tokens [] c (String ch "" ++ s) = None.
Proof. reflexivity. Qed.

(** The literal Z of the third format does not fit a space. *)
Lemma literal_Z_fails : forall f c zone,
  read_tokens (Lit "Z" :: f) c (" " ++ zone) = None.
Proof. reflexivity. Qed.

Lemma clock_hour_fix : forall h pm, 1 <= h <= 12 ->
  meridiemFixWrap h (Some pm) = clock_hour h pm.
Proof.
  intros h pm Hh. unfold meridiemFixWrap, clock_hour.
  destruct pm; cbn [andb negb].
  - destruct (Z.ltb_spec h 12); euclid.
  - destruct (Z.eqb_spec h 12); euclid.
Qed.

Lemma clock_hour_range : forall h pm, 1 <= h <= 12 ->
  0 <= clock_hour h pm <= 23.
Proof. intros h pm Hh. unfold clock_hour. destruct pm; euclid. Qed.

(** A cell of the form 7/28/2025 10:01:03.405 AM (with seconds,
    milliseconds and AM or PM after a clock hour from 1 to 12) is read by the
    second format, as local time: 12 AM is hour 0 and 12 PM is noon. *)
Theorem parseDate_with_meridiem :
  forall (mo d y h mi sec ms : Z) (pm : bool),
    1 <= mo <= 12 -> 1 <= d <= daysInMonth y (mo - 1) -> 0 <= y <= 9999 ->
    1 <= h <= 12 -> 0 <= mi <= 59 -> 0 <= sec <= 59 -> 0 <= ms <= 999 ->
    parseDate host
      (Some (dec2 mo ++ "/" ++ dec2 d ++ "/" ++ pad4 y ++ " " ++ dec2 h ++ ":"
               ++ pad2 mi ++ ":" ++ pad2 sec ++ "." ++ pad3 ms ++ " "
               ++ (if pm then "PM" else "AM")))
    = Some (TimeValue
              (local_instant host y mo d (clock_hour h pm) mi sec ms)).
Proof.
  intros mo d y h mi sec ms pm Hmo Hd Hy Hh Hmi Hs Hms.
  pose proof (daysInMonth_le_31 y (mo - 1)) as H31.
  pose proof (clock_hour_range h pm Hh) as Hc.
  unfold parseDate. rewrite dec2_not_blank by lia.
  unfold formats. cbn [first_valid].
  unfold strict at 1. rewrite read_month_day_minute by lia.
  rewrite read_tokens_left_over. cbv beta iota.
  unfold strict at 1. rewrite read_month_day_minute by lia.
  do 5 step.
  rewrite read_tokens_cons. cbn [read_token].
  assert (Hm : read_meridiem (if pm then "PM" else "AM") = Some (pm, ""))
    by (destruct pm; reflexivity).
  rewrite Hm. cbv beta iota. cbn [read_tokens]. fields.
  rewrite clock_hour_fix by lia.
  unfold no_overflow. in_range. cbn [andb orb].
  unfold instant_of_config. fields.
  rewrite clock_hour_fix by lia. reflexivity.
Qed.

(** The fields of an ISO date and time, read up to the milliseconds. *)
Lemma read_iso_fields : forall f y mo d h mi sec ms rest,
  0 <= y <= 9999 -> 1 <= mo <= 12 -> 1 <= d <= 31 -> 0 <= h <= 23 ->
  0 <= mi <= 59 -> 0 <= sec <= 59 -> 0 <= ms <= 999 ->
  read_tokens
    (tYYYY :: Lit "-" :: tMM :: Lit "-" :: tDD :: Lit "T" :: tHH :: Lit ":"
     :: tmm :: Lit ":" :: tss :: Lit "." :: tSSS :: f)
    config0
    (pad4 y ++ "-" ++ pad2 mo ++ "-" ++ pad2 d ++ "T" ++ pad2 h ++ ":"
       ++ pad2 mi ++ ":" ++ pad2 sec ++ "." ++ pad3 ms ++ rest)
  = read_tokens f
      {| cYear := y; cMonth := mo - 1; cDate := d; cHour := h; cMinute := mi;
         cSecond := sec; cMillisecond := ms; cIsPM := None; cTzm := None |}
      rest.
Proof.
  intros f y mo d h mi sec ms rest Hy Hmo Hd Hh Hmi Hs Hms.
  do 13 step. reflexivity.
Qed.

Lemma iso_fields_app : forall y mo d h mi sec ms rest,
  iso_fields y mo d h mi sec ms ++ rest =
    pad4 y ++ "-" ++ pad2 mo ++ "-" ++ pad2 d ++ "T" ++ pad2 h ++ ":"
      ++ pad2 mi ++ ":" ++ pad2 sec ++ "." ++ pad3 ms ++ rest.
Proof. reflexivity. Qed.

Lemma read_offset_text : forall off, -720 < off < 720 ->
  read_offset (offset_text off) = Some (off, "").
Proof.
  intros off Hoff. unfold offset_text.
  destruct (Z.ltb_spec off 0); cbn [append read_offset];
    change (eqb_ci "-" "z" "Z") with false;
    change (eqb_ci "+" "z" "Z") with false;
    change (Ascii.eqb "-" "+") with false;
    change (Ascii.eqb "+" "+") with true;
    change (Ascii.eqb "-" "-") with true;
    cbn [orb];
    rewrite read_digits_pad2 by euclid; cbv beta iota;
    cbn [append skip_optional];
    change (Ascii.eqb ":" ":") with true; cbv beta iota;
    replace (pad2 (Z.abs off mod 60)) with (pad2 (Z.abs off mod 60) ++ "")
      by (unfold pad2; reflexivity);
    rewrite read_digits_pad2 by euclid; cbv beta iota;
    do 2 f_equal; euclid.
Qed.

(** The zone of a text with an offset is the offset: a text in the form of
    the fourth format, an ISO date and time, a space and then Z or an offset
    +hh:mm or -hh:mm of less than twelve hours, is read to the same instant
    on every host.  (Offsets of twelve hours and more are left out: which of
    them are taken depends on the version of moment.) *)
Theorem parseDate_with_offset :
  forall y mo d h mi sec ms,
    0 <= y <= 9999 -> 1 <= mo <= 12 -> 1 <= d <= daysInMonth y (mo - 1) ->
    0 <= h <= 23 -> 0 <= mi <= 59 -> 0 <= sec <= 59 -> 0 <= ms <= 999 ->
    parseDate host (Some (iso_fields y mo d h mi sec ms ++ " Z"))
    = Some (TimeValue (utc_instant y mo d h mi sec ms))
    /\ forall off, -720 < off < 720 ->
         parseDate host
           (Some (iso_fields y mo d h mi sec ms ++ " " ++ offset_text off))
         = Some (TimeValue (utc_instant y mo d h mi sec ms - off * 60000)).
Proof.
  intros y mo d h mi sec ms Hy Hmo Hd Hh Hmi Hs Hms.
  pose proof (daysInMonth_le_31 y (mo - 1)) as H31.
  assert (G : forall zone tzm,
    read_offset zone = Some (tzm, "") ->
    parseDate host (Some (iso_fields y mo d h mi sec ms ++ " " ++ zone))
    = Some (TimeValue (utc_instant y mo d h mi sec ms - tzm * 60000))).
  { intros zone tzm Hzone. unfold parseDate.
    assert (Hguard :
      negb (truthy (iso_fields y mo d h mi sec ms ++ " " ++ zone))
      || String.eqb (trim (iso_fields y mo d h mi sec ms ++ " " ++ zone)) ""
      = false).
    { unfold iso_fields, pad4 at 1 2. cbn [append].
      rewrite trim_not_empty by (apply is_white_space_digit_char, digit_mod).
      reflexivity. }
    rewrite Hguard. rewrite iso_fields_app.
    unfold formats. cbn [first_valid].
    unfold strict at 1. rewrite month_first_fails by lia.
    unfold strict at 1. rewrite month_first_fails by lia.
    unfold strict at 1. rewrite read_iso_fields by lia.
    rewrite literal_Z_fails. cbv beta iota.
    unfold strict at 1. rewrite read_iso_fields by lia.
    step. rewrite read_tokens_cons. cbn [read_token]. rewrite Hzone.
    cbv beta iota. cbn [read_tokens]. fields. cbn [meridiemFixWrap].
    unfold no_overflow. in_range. cbn [andb orb].
    unfold instant_of_config. fields. cbn [meridiemFixWrap]. reflexivity. }
  split.
  - pose proof (G "Z" 0 eq_refl) as HZ. change (" " ++ "Z") with " Z" in HZ.
    rewrite HZ. do 2 f_equal. lia.
  - intros off Hoff. apply G. now apply read_offset_text.
Qed.

End WithHost.

Lemma parseDate_with_meridiem_witness :
  parseDate east_host (Some "7/28/2025 12:01:03.405 AM")
  = Some (TimeValue (local_instant east_host 2025 7 28 0 1 3 405)).
Proof.
  apply (parseDate_with_meridiem east_host 7 28 2025 12 1 3 405 false);
    [lia | vm_compute; split; discriminate | lia | lia | lia | lia | lia].
Defined.

Lemma parseDate_with_offset_witness :
  parseDate east_host (Some "2025-08-15T09:27:58.694 Z")
  = Some (TimeValue (utc_instant 2025 8 15 9 27 58 694))
  /\ parseDate utc_host (Some "2025-08-15T09:27:58.694 +05:30")
     = Some (TimeValue (utc_instant 2025 8 15 9 27 58 694 - 330 * 60000))
  /\ parseDate east_host (Some "2025-08-15T09:27:58.694 +05:30")
     = parseDate utc_host (Some "2025-08-15T09:27:58.694 +05:30").
Proof.
  assert (R : 1 <= 15 <= daysInMonth 2025 (8 - 1))
    by (vm_compute; split; discriminate).
  destruct (parseDate_with_offset east_host 2025 8 15 9 27 58 694
              ltac:(lia) ltac:(lia) R ltac:(lia) ltac:(lia) ltac:(lia)
              ltac:(lia)) as [Hz He].
  destruct (parseDate_with_offset utc_host 2025 8 15 9 27 58 694
              ltac:(lia) ltac:(lia) R ltac:(lia) ltac:(lia) ltac:(lia)
              ltac:(lia)) as [_ Hu].
  split; [exact Hz|]. split; [exact (Hu 330 ltac:(lia))|].
  exact (eq_trans (He 330 ltac:(lia)) (eq_sym (Hu 330 ltac:(lia)))).
Defined.

Lemma parseDate_month_day_year_witness :
  parseDate east_host (Some "8/25/2025 8:50")
  = Some (TimeValue (local_instant east_host 2025 8 25 8 50 0 0))
  /\ local_instant east_host 2025 8 25 8 50 0 0 = 1756108200000.
Proof.
  split; [|reflexivity].
  apply (parseDate_month_day_year east_host 8 25 2025 8 50);
    [lia | vm_compute; split; discriminate | lia | lia | lia].
Defined.

End ParseDateMore.

(** ** Time stamps taken from the text of a log entry *)

Module TextTimeFacts.
Import JsString JsDate Spec SpecMore CalendarFacts IsoFacts RoundTrip.
Import DateUtils ParseDateFacts AutoAssignmentFacts Samples.

Lemma read_digits_2_some : forall acc s v r,
  read_digits 2 acc s = Some (v, r) -> exists a b, s = String a (String b r).
Proof.
  intros acc s v r. destruct s as [|a [|b s]]; cbn [read_digits];
    try discriminate.
  - destruct (is_digit a); discriminate.
  - destruct (is_digit a); [|discriminate].
    destruct (is_digit b); [|discriminate].
    intros [= _ <-]. eauto.
Qed.

Lemma read_digits_4_some : forall acc s v r,
  read_digits 4 acc s = Some (v, r) ->
  exists a b c d, s = String a (String b (String c (String d r))).
Proof.
  intros acc s v r. destruct s as [|a [|b s]]; cbn [read_digits];
    try discriminate.
  - destruct (is_digit a); discriminate.
  - destruct (is_digit a); [|discriminate].
    destruct (is_digit b); [|discriminate].
    intros H. apply read_digits_2_some in H. destruct H as (c & d & ->). eauto 6.
Qed.

(** A match of the pattern has its first colon fourteenth. *)
Lemma timestamp_at_colon : forall s m,
  timestamp_at s = Some m -> String.get 13 s = Some ":"%char.
Proof.
  intros s m. unfold timestamp_at.
  destruct (read_digits 4 0 s) as [[v1 s1]|] eqn:E1; [|discriminate].
  apply read_digits_4_some in E1. destruct E1 as (a & b & c & d & ->).
  destruct (strip_prefix "-" s1) as [s2|] eqn:E2; [|discriminate].
  apply strip_prefix_some in E2. subst s1.
  destruct (read_digits 2 0 s2) as [[v3 s3]|] eqn:E3; [|discriminate].
  apply read_digits_2_some in E3. destruct E3 as (e & f & ->).
  destruct (strip_prefix "-" s3) as [s4|] eqn:E4; [|discriminate].
  apply strip_prefix_some in E4. subst s3.
  destruct (read_digits 2 0 s4) as [[v5 s5]|] eqn:E5; [|discriminate].
  apply read_digits_2_some in E5. destruct E5 as (g & h & ->).
  destruct (strip_prefix "T" s5) as [s6|] eqn:E6; [|discriminate].
  apply strip_prefix_some in E6. subst s5.
  destruct (read_digits 2 0 s6) as [[v7 s7]|] eqn:E7; [|discriminate].
  apply read_digits_2_some in E7. destruct E7 as (i & j & ->).
  destruct (strip_prefix ":" s7) as [s8|] eqn:E8; [|discriminate].
  apply strip_prefix_some in E8. subst s7.
  intros _. reflexivity.
Qed.

Lemma get_app_without : forall c pre n rest,
  occurs c pre = false ->
  (forall j, (j <= n)%nat -> String.get j rest <> Some c) ->
  String.get n (pre ++ rest) <> Some c.
Proof.
  intros c. induction pre as [|x pre IH]; intros n rest Hpre Hrest.
  - apply Hrest. lia.
  - cbn [occurs] in Hpre. apply orb_false_elim in Hpre.
    destruct Hpre as [Hx Hpre]. apply Ascii.eqb_neq in Hx.
    destruct n as [|n]; cbn [append String.get].
    + intros [= E]. contradiction.
    + apply IH; [assumption|]. intros j Hj. apply Hrest. lia.
Qed.

Lemma colon_digit_char : forall d, 0 <= d <= 9 -> digit_char d <> ":"%char.
Proof. intros d H. each_digit d H; discriminate. Qed.

(** The text of a time with a four-digit year has no colon before its
    fourteenth character. *)
Lemma isoTail_head : forall y mo d h mi s ms rest j, (j <= 12)%nat ->
  String.get j ((pad4 y ++ isoTail mo d h mi s ms) ++ rest) <> Some ":"%char.
Proof.
  intros y mo d h mi s ms rest j Hj.
  unfold isoTail, pad4, pad3, pad2. cbn [append].
  do 13 (destruct j as [|j];
         [cbn [String.get]; intros [= E];
          first [ now apply colon_digit_char in E; [|apply digit_mod]
                | discriminate E ]|]).
  lia.
Qed.

Lemma timestampMatch_eq : forall s,
  timestampMatch s =
    match timestamp_at s with
    | Some m => Some m
    | None =>
        match s with
        | String _ s' => timestampMatch s'
        | EmptyString => None
        end
    end.
Proof. destruct s; reflexivity. Qed.

Lemma substring_prefix : forall a b,
  substring 0 (String.length a) (a ++ b) = a.
Proof.
  induction a as [|c a IH]; intros b; cbn [String.length append substring].
  - destruct b; reflexivity.
  - now rewrite IH.
Qed.

Lemma timestamp_at_fields : forall y mo d h mi s ms rest,
  0 <= y <= 9999 -> 0 <= mo <= 99 -> 0 <= d <= 99 -> 0 <= h <= 99 ->
  0 <= mi <= 99 -> 0 <= s <= 99 -> 0 <= ms <= 999 ->
  timestamp_at ((pad4 y ++ isoTail mo d h mi s ms) ++ rest)
  = Some (pad4 y ++ isoTail mo d h mi s ms).
Proof.
  intros y mo d h mi s ms rest Hy Hmo Hd Hh Hmi Hs Hms.
  assert (L : String.length (pad4 y ++ isoTail mo d h mi s ms) = 24%nat)
    by reflexivity.
  rewrite <- (substring_prefix (pad4 y ++ isoTail mo d h mi s ms) rest) at 2.
  rewrite L. unfold timestamp_at.
  assert (E : (pad4 y ++ isoTail mo d h mi s ms) ++ rest =
              pad4 y ++ "-" ++ pad2 mo ++ "-" ++ pad2 d ++ "T" ++ pad2 h ++ ":"
                ++ pad2 mi ++ ":" ++ pad2 s ++ "." ++ pad3 ms ++ "Z" ++ rest)
    by reflexivity.
  rewrite E at 1. read_fields. reflexivity.
Qed.

Section WithHost.
Context (host : Host).

(** The first time stamp of a text whose head has no colon. *)
Lemma timestampMatch_after : forall pre t post,
  -62167219200000 <= t <= 253402300799999 ->
  occurs ":" pre = false ->
  timestampMatch (pre ++ isoStringOfTime t ++ post) = Some (isoStringOfTime t).
Proof.
  intros pre t post Ht.
  pose proof (year_four_digits t Ht) as Hy.
  pose proof (time_fields t) as (Hh & Hmi & Hs & Hms & _).
  pose proof (date_fields t) as (Hmo & Hd & _).
  pose proof (daysInMonth_le_31 (YearFromTime t) (MonthFromTime t)) as H31.
  rewrite isoStringOfTime_eq. unfold isoYear.
  destruct (Z.leb_spec 0 (YearFromTime t)); [|lia].
  destruct (Z.leb_spec (YearFromTime t) 9999); [|lia].
  cbn [andb].
  induction pre as [|c pre IH]; intros Hpre.
  - cbn [append]. rewrite timestampMatch_eq.
    now rewrite timestamp_at_fields by lia.
  - cbn [occurs] in Hpre. apply orb_false_elim in Hpre.
    destruct Hpre as [Hc Hpre].
    cbn [append]. rewrite timestampMatch_eq.
    destruct (timestamp_at (String c (pre ++ _))) as [m|] eqn:E.
    + exfalso. apply timestamp_at_colon in E. cbn [String.get] in E.
      revert E. apply get_app_without; [assumption|].
      intros j Hj. now apply isoTail_head.
    + now apply IH.
Qed.

(** The time stamp of a log entry that has none of its own is taken from
    its text and read by [parseDate], as local time, although the text says
    Z; the time stamp of an entry that has its own is read as UTC.  On a
    text that holds an ISO time after a head without a colon, the two differ
    by the offset of the host's zone. *)
Theorem text_time_is_local_time :
  forall (pre post : string) (t : Z) (tid : string),
    -62167219200000 <= t <= 253402300799999 ->
    occurs ":" pre = false ->
    JsonParser.taskIdMatch (pre ++ isoStringOfTime t ++ post) = Some tid ->
    let text := pre ++ isoStringOfTime t ++ post in
    extractTimestampFromTextPayload host (Some text)
    = Some (TimeValue (t - localTZA host t))
    /\ (exists a,
          JsonParser.extractAutoAssignment host
            {| JsonParser.textPayload := Some text;
               JsonParser.timestamp := None |} = Some a
          /\ JsonParser.taskId a = Some tid
          /\ JsonParser.assignmentTimestamp a
             = Some (TimeValue (t - localTZA host t)))
    /\ (exists a,
          JsonParser.extractAutoAssignment host
            {| JsonParser.textPayload := Some text;
               JsonParser.timestamp := Some (isoStringOfTime t) |} = Some a
          /\ JsonParser.taskId a = Some tid
          /\ JsonParser.assignmentTimestamp a = Some (TimeValue t)).
Proof.
  intros pre post t tid Ht Hpre Htid text.
  assert (Htruthy : truthy text = true).
  { subst text. destruct pre; [|reflexivity]. cbn [append].
    rewrite isoStringOfTime_eq. unfold isoYear, pad4.
    destruct (_ && _); [reflexivity|]. destruct (_ <=? _); reflexivity. }
  assert (Hext : extractTimestampFromTextPayload host (Some text)
                 = Some (TimeValue (t - localTZA host t))).
  { unfold extractTimestampFromTextPayload. rewrite Htruthy. cbn [negb].
    subst text. rewrite (timestampMatch_after pre t post Ht Hpre).
    now apply parseDate_iso_as_local. }
  split; [exact Hext|]. split.
  - unfold JsonParser.extractAutoAssignment.
    cbn [JsonParser.textPayload JsonParser.timestamp].
    rewrite Htruthy. cbn [negb]. fold text in Htid. rewrite Htid, Hext.
    eexists. split; [reflexivity|]. split; reflexivity.
  - unfold JsonParser.extractAutoAssignment.
    cbn [JsonParser.textPayload JsonParser.timestamp].
    rewrite Htruthy. cbn [negb]. fold text in Htid. rewrite Htid.
    assert (Hiso : truthy (isoStringOfTime t) = true).
    { unfold truthy. now rewrite ReportRoundTrip.isoStringOfTime_not_empty. }
    rewrite Hiso. unfold newDate.
    rewrite parse_iso_utc_inverse by lia.
    eexists. split; [reflexivity|]. split; reflexivity.
Qed.

End WithHost.

Lemma text_time_is_local_time_witness :
  extractTimestampFromTextPayload east_host
    (Some "Auto assigned TASK-7 at 2025-08-25T13:23:00.000Z to email=a@x.com")
  = Some (TimeValue (1756128180000 - 3600000)).
Proof.
  apply (text_time_is_local_time east_host "Auto assigned TASK-7 at "
           " to email=a@x.com" 1756128180000 "TASK-7");
    [lia | reflexivity | reflexivity].
Defined.

End TextTimeFacts.

(** ** The email of an auto assignment *)

Module EmailFacts.
Import JsString JsDate Spec SpecMore.
Import JsonParser AutoAssignmentFacts Samples.

Lemma span_not_comma_spec : forall s,
  exists post,
    s = span_not_comma s ++ post
    /\ occurs "," (span_not_comma s) = false
    /\ (post = "" \/ exists r, post = String "," r).
Proof.
  induction s as [|c s IH]; cbn [span_not_comma].
  - exists "". repeat split. now left.
  - destruct (Ascii.eqb c ",") eqn:E.
    + apply Ascii.eqb_eq in E. subst c. exists (String "," s).
      repeat split. right. now exists s.
    + destruct IH as (post & Hs & Hno & Hpost). exists post.
      cbn [append occurs]. rewrite E, Hno. rewrite <- Hs.
      repeat split. exact Hpost.
Qed.

Lemma email_at_some : forall s g,
  email_at s = Some g ->
  exists post,
    s = "email=" ++ g ++ post /\ g <> "" /\ occurs "," g = false
    /\ (post = "" \/ exists r, post = String "," r).
Proof.
  intros s g. unfold email_at.
  destruct (strip_prefix "email=" s) as [r|] eqn:Hp; [|discriminate].
  apply strip_prefix_some in Hp. subst s.
  destruct (span_not_comma_spec r) as (post & Hr & Hno & Hpost).
  destruct (span_not_comma r) as [|c g'] eqn:Hg; [discriminate|].
  intros [= <-]. exists post. rewrite Hr at 1.
  split; [reflexivity|]. split; [discriminate|]. split; assumption.
Qed.

Lemma email_at_none : forall s,
  email_at s = None ->
  forall c r, s = "email=" ++ String c r -> c = ","%char.
Proof.
  intros s H c r ->. unfold email_at in H.
  rewrite IsoFacts.strip_prefix_app in H. cbn [span_not_comma] in H.
  destruct (Ascii.eqb c ",") eqn:E; [now apply Ascii.eqb_eq in E|].
  discriminate H.
Qed.

Lemma emailMatch_eq : forall s,
  emailMatch s =
    match email_at s with
    | Some g => Some g
    | None =>
        match s with
        | String _ s' => emailMatch s'
        | EmptyString => None
        end
    end.
Proof. destruct s; reflexivity. Qed.

(** What [email=([^,]+)] matches first: the text after the first "email="
    that a character other than a comma follows, up to the next comma or
    the end. *)
Lemma emailMatch_spec : forall s,
  match emailMatch s with
  | Some g =>
      exists pre post,
        s = pre ++ "email=" ++ g ++ post
        /\ g <> "" /\ occurs "," g = false
        /\ (post = "" \/ exists r, post = String "," r)
        /\ (forall pre' c r,
              s = pre' ++ "email=" ++ String c r ->
              (String.length pre' < String.length pre)%nat -> c = ","%char)
  | None =>
      forall pre c r, s = pre ++ "email=" ++ String c r -> c = ","%char
  end.
Proof.
  induction s as [|c0 s IH]; rewrite emailMatch_eq.
  - cbn. intros [|? pre] c r E; discriminate E.
  - destruct (email_at (String c0 s)) as [g|] eqn:Hat.
    + apply email_at_some in Hat.
      destruct Hat as (post & Hs & Hne & Hno & Hpost).
      exists "", post. cbn [append String.length].
      split; [exact Hs|]. split; [exact Hne|]. split; [exact Hno|].
      split; [exact Hpost|]. intros pre' c r _ Hlt. lia.
    + pose proof (email_at_none _ Hat) as Hhead.
      destruct (emailMatch s) as [g|].
      * destruct IH as (pre & post & Hs & Hne & Hno & Hpost & Hfirst).
        exists (String c0 pre), post. cbn [append String.length].
        split; [f_equal; exact Hs|]. split; [exact Hne|].
        split; [exact Hno|]. split; [exact Hpost|].
        intros [|c1 pre'] c r E Hlt.
        -- now apply (Hhead c r).
        -- cbn [append] in E. injection E as _ E.
           apply (Hfirst pre' c r E). cbn [String.length] in Hlt. lia.
      * intros [|c1 pre] c r E.
        -- now apply (Hhead c r).
        -- cbn [append] in E. injection E as _ E. now apply (IH pre c r).
Qed.

(** The email of an assignment is the text after the first "email=" of the
    entry that is followed by a character other than a comma, up to the next
    comma or the end of the text, without the white space around it; it is
    null when the text has no such "email=".  The text is a string of this
    development, with every character below U+0100; the white space that
    [trim] removes from such a text is tab, LF, VT, FF, CR, space and
    U+00A0. *)
Theorem extractAutoAssignment_email :
  forall (host : Host) (item : GcpItem) (a : AutoAssignment) (text : string),
    extractAutoAssignment host item = Some a ->
    textPayload item = Some text ->
    match email a with
    | Some e =>
        exists pre g post,
          text = pre ++ "email=" ++ g ++ post
          /\ g <> "" /\ occurs "," g = false
          /\ (post = "" \/ exists r, post = String "," r)
          /\ (forall pre' c r,
                text = pre' ++ "email=" ++ String c r ->
                (String.length pre' < String.length pre)%nat -> c = ","%char)
          /\ e = trim g
    | None =>
        forall pre c r, text = pre ++ "email=" ++ String c r -> c = ","%char
    end.
Proof.
  intros host item a text H Htext. unfold extractAutoAssignment in H.
  rewrite Htext in H.
  destruct (truthy text); [|discriminate H]. cbn [negb] in H.
  destruct (taskIdMatch text) as [tid|]; [|discriminate H].
  match type of H with
  | match ?ts with _ => _ end = _ => destruct ts as [[|t]|]
  end; try discriminate H.
  injection H as <-. cbn [email].
  pose proof (emailMatch_spec text) as Hm.
  destruct (emailMatch text) as [g|]; [|exact Hm].
  destruct Hm as (pre & post & Hs & Hne & Hno & Hpost & Hfirst).
  exists pre, g, post. repeat split; assumption.
Qed.

Lemma extractAutoAssignment_email_witness :
  exists a,
    extractAutoAssignment utc_host
      (logEntry "Auto assigned TASK-5 to email=, email= b@x.com , email=c"
         (Some "2025-08-25T13:22:00.000Z")) = Some a
    /\ email a = Some "b@x.com"
    /\ match email a with
       | Some e =>
           exists pre g post,
             "Auto assigned TASK-5 to email=, email= b@x.com , email=c"
              = pre ++ "email=" ++ g ++ post
             /\ g <> "" /\ occurs "," g = false
             /\ (post = "" \/ exists r, post = String "," r)
             /\ (forall pre' c r,
                   "Auto assigned TASK-5 to email=, email= b@x.com , email=c"
                   = pre' ++ "email=" ++ String c r ->
                   (String.length pre' < String.length pre)%nat -> c = ","%char)
             /\ e = trim g
       | None => False
       end.
Proof.
  eexists. split; [reflexivity|]. split; [reflexivity|].
  apply (extractAutoAssignment_email utc_host
           (logEntry "Auto assigned TASK-5 to email=, email= b@x.com , email=c"
              (Some "2025-08-25T13:22:00.000Z")) _ _ eq_refl eq_refl).
Defined.

End EmailFacts.

(** ** The map of assignments of the parser *)

Module AssignmentMapFacts.
Import JsString JsDate JsMap JsMapFacts TaskProcessor Spec SpecMore.
Import IndexFacts OrderFacts LookupFacts JsonParserMap.

Lemma buildAutoAssignmentMap_fold : forall assignments,
  buildAutoAssignmentMap assignments =
    fold_left (set_keyed taskId) assignments empty.
Proof.
  intros assignments. unfold buildAutoAssignmentMap.
  assert (G : forall xs (m : JsMap.t AutoAssignment),
    fold_left
      (fun assignmentMap assignment =>
         match JsonParser.taskId assignment with
         | Some tid =>
             if truthy tid then set tid assignment assignmentMap
             else assignmentMap
         | None => assignmentMap
         end) xs m
    = fold_left (set_keyed taskId) xs m).
  { induction xs as [|x xs IH]; intros m; [reflexivity|].
    cbn [fold_left]. rewrite IH. reflexivity. }
  apply G.
Qed.

(** [buildAutoAssignmentMap] of the parser builds the map that
    [buildAutoAssignmentIndex] builds in a new processor: its keys are the
    task ids of the assignments in the order of their first occurrence, and
    under a task id it holds the last assignment that carries the id. *)
Theorem buildAutoAssignmentMap_index : forall assignments : list AutoAssignment,
  buildAutoAssignmentMap assignments =
    autoAssignmentIndex (buildAutoAssignmentIndex assignments new)
  /\ keys (buildAutoAssignmentMap assignments)
     = firsts (join_keys taskId assignments)
  /\ forall tid,
       get tid (buildAutoAssignmentMap assignments) =
         find (fun a => keyed_by tid (taskId a)) (rev assignments).
Proof.
  intros assignments. rewrite buildAutoAssignmentMap_fold.
  split; [now rewrite autoAssignmentIndex_build|]. split.
  - rewrite keys_fold_set_keyed. change (keys empty) with (firsts []).
    now rewrite add_all_firsts.
  - intros tid.
    rewrite (get_fold_step (fun tid a => keyed_by tid (taskId a))
               (fun a => a) (set_keyed taskId)
               (fun m x tid => get_set_keyed taskId m x tid)).
    cbv beta.
    assert (E : forall o : option AutoAssignment,
              match o with Some x => Some x | None => get tid empty end = o)
      by (intros [x|]; reflexivity).
    apply E.
Qed.

End AssignmentMapFacts.

(** ** A task from its sources to its record *)

Module ScenarioFacts.
Import JsString JsDate JsMap JsMapFacts TaskProcessor Spec SpecMore ListFacts.
Import IndexFacts ReportFacts ReportMore LookupFacts DateUtilsFacts.
Import Samples SamplesMore.

(** The time of a phase of a task, from the source. *)
Lemma phase_time : forall taskHistories this tid status code,
  taskHistoryIndex this =
    taskHistoryIndex (buildTaskHistoryIndex taskHistories new) ->
  match get tid (taskHistoryIndex this) with
  | None => None
  | Some histories => timestampOf (findHistory status code histories)
  end
  = match find (fun h => keyed_by tid (historyTaskId h)
                         && has_codes status code h) taskHistories with
    | Some h => actionTimestamp h
    | None => None
    end.
Proof.
  intros hs this tid status code Hidx.
  rewrite <- (find_in_history hs this tid status code Hidx).
  unfold timestampOf. now destruct (get tid (taskHistoryIndex this)).
Qed.

Lemma phase_time_first : forall taskHistories this tid status code h t,
  taskHistoryIndex this =
    taskHistoryIndex (buildTaskHistoryIndex taskHistories new) ->
  first_match (fun h => keyed_by tid (historyTaskId h) && has_codes status code h)
    taskHistories (Some h) ->
  actionTimestamp h = Some (TimeValue t) ->
  match get tid (taskHistoryIndex this) with
  | None => None
  | Some histories => timestampOf (findHistory status code histories)
  end = Some (TimeValue t).
Proof.
  intros hs this tid status code h t Hidx Hfirst Ht.
  rewrite (phase_time hs this tid status code Hidx).
  apply first_match_unique in Hfirst. now rewrite <- Hfirst.
Qed.

(** The record of a task whose three times are known. *)
Lemma record_of_times : forall host this records this' r c a m,
  generateReport host this = Some (records, this') ->
  In r records ->
  getCreatedTime this (task r) = Some (TimeValue c) ->
  getAssignedTime this (task r) = Some (TimeValue a) ->
  getMakerCompleteTime this (task r) = Some (TimeValue m) ->
  Z.abs a <= 8640000000000000 -> Z.abs m <= 8640000000000000 ->
  mode r = determineMode this (task r)
  /\ createdTime r = isoStringOfTime c
  /\ assignedTime r = isoStringOfTime a
  /\ makerCompleteTime r = isoStringOfTime m
  /\ waitingTime r =
       Some (DateUtils.calculateTimeDifferenceMinutes (valid c) (valid a))
  /\ productiveTime r =
       Some (DateUtils.calculateTimeDifferenceMinutes (valid a) (valid m))
  /\ (Z.abs (a - c) <= exact_span ->
        waitingTime r = Some (Some (minutes_between c a)))
  /\ (Z.abs (m - a) <= exact_span ->
        productiveTime r = Some (Some (minutes_between a m))).
Proof.
  intros host this records this' r c a m H Hin Hc Ha Hm Ra Rm.
  destruct (report_drafts host this records this' H)
    as (drafts & -> & _ & Hnd & Hd).
  apply in_map_iff in Hin. destruct Hin as (d & <- & Hin).
  specialize (Hd d Hin). apply draftRecord_fields in Hd.
  destruct Hd as (_ & Hmode & _ & Hct & Hat & Hmt & _).
  change (task (finalize host this drafts d)) with (task d) in *.
  rewrite Hc in Hct. rewrite Ha in Hat. rewrite Hm in Hmt.
  cbn [isoOrEmpty toISOString] in Hct, Hat, Hmt.
  injection Hct as Hct. injection Hat as Hat. injection Hmt as Hmt.
  cbn [finalize set_waitingTime set_productiveTime mode createdTime
       assignedTime makerCompleteTime waitingTime productiveTime].
  split; [exact Hmode|]. split; [now symmetry|]. split; [now symmetry|].
  split; [now symmetry|].
  assert (Hw : calculateWaitingTime this (task d) =
               DateUtils.calculateTimeDifferenceMinutes (valid c) (valid a))
    by (unfold calculateWaitingTime; rewrite Hc, Ha; reflexivity).
  assert (Hp : calculateProductiveTime host
                 (with_currentReportRecords this drafts) (task d) =
               DateUtils.calculateTimeDifferenceMinutes (valid a) (valid m)).
  { unfold calculateProductiveTime, findRecordByTaskId.
    cbn [currentReportRecords with_currentReportRecords].
    rewrite (find_by_task drafts d Hnd Hin), <- Hat, <- Hmt.
    rewrite (ReportRoundTrip.reparse_isoOrEmpty host (Some (TimeValue a))
               (isoStringOfTime a)) by (first [intros t [= <-]; assumption | reflexivity]).
    rewrite (ReportRoundTrip.reparse_isoOrEmpty host (Some (TimeValue m))
               (isoStringOfTime m)) by (first [intros t [= <-]; assumption | reflexivity]).
    reflexivity. }
  rewrite Hw, Hp.
  split; [reflexivity|]. split; [reflexivity|].
  split; intros _; reflexivity.
Qed.

(** A task assigned by hand, from the source to the report.  When the task
    has no auto assignment, and the first records of its history with the
    codes PMA/IN, PME/AS and PCA/SC carry the times c, a and m, its record
    has a mode other than Auto, the ISO texts of the three times, for
    waiting time what [calculateTimeDifferenceMinutes] gives for c and a and
    for productive time what it gives for a and m: the whole minutes between
    the two, for times at most 2^53 milliseconds apart. *)
Theorem manual_task_record :
  forall (host : Host) (this : Processor) (taskHistories : list TaskHistory)
         records this' r hc ha hm c a m,
    taskHistoryIndex this =
      taskHistoryIndex (buildTaskHistoryIndex taskHistories new) ->
    generateReport host this = Some (records, this') ->
    In r records ->
    ~ In (task r) (keys (autoAssignmentIndex this)) ->
    first_match
      (fun h => keyed_by (task r) (historyTaskId h) && has_codes "PMA" "IN" h)
      taskHistories (Some hc) ->
    first_match
      (fun h => keyed_by (task r) (historyTaskId h) && has_codes "PME" "AS" h)
      taskHistories (Some ha) ->
    first_match
      (fun h => keyed_by (task r) (historyTaskId h) && has_codes "PCA" "SC" h)
      taskHistories (Some hm) ->
    actionTimestamp hc = Some (TimeValue c) ->
    actionTimestamp ha = Some (TimeValue a) ->
    actionTimestamp hm = Some (TimeValue m) ->
    Z.abs a <= 8640000000000000 -> Z.abs m <= 8640000000000000 ->
    mode r <> Auto
    /\ createdTime r = isoStringOfTime c
    /\ assignedTime r = isoStringOfTime a
    /\ makerCompleteTime r = isoStringOfTime m
    /\ waitingTime r =
         Some (DateUtils.calculateTimeDifferenceMinutes (valid c) (valid a))
    /\ productiveTime r =
         Some (DateUtils.calculateTimeDifferenceMinutes (valid a) (valid m))
    /\ (Z.abs (a - c) <= exact_span ->
          waitingTime r = Some (Some (minutes_between c a)))
    /\ (Z.abs (m - a) <= exact_span ->
          productiveTime r = Some (Some (minutes_between a m))).
Proof.
  intros host this hs records this' r hc ha hm c a m Hidx H Hin Hauto
    Fc Fa Fm Tc Ta Tm Ra Rm.
  apply has_false_iff in Hauto.
  assert (Hmode : determineMode this (task r) <> Auto).
  { unfold determineMode. rewrite Hauto.
    destruct (has (task r) (taskActionIndex this)); discriminate. }
  assert (Hc : getCreatedTime this (task r) = Some (TimeValue c))
    by (apply (phase_time_first hs this (task r) "PMA" "IN" hc c Hidx Fc Tc)).
  assert (Ha : getAssignedTime this (task r) = Some (TimeValue a)).
  { unfold getAssignedTime.
    destruct (determineMode this (task r)); [contradiction| |];
      apply (phase_time_first hs this (task r) "PME" "AS" ha a Hidx Fa Ta). }
  assert (Hm : getMakerCompleteTime this (task r) = Some (TimeValue m))
    by (apply (phase_time_first hs this (task r) "PCA" "SC" hm m Hidx Fm Tm)).
  destruct (record_of_times host this records this' r c a m H Hin Hc Ha Hm Ra Rm)
    as (Emode & Rest).
  split; [now rewrite Emode | exact Rest].
Qed.

(** An auto-assigned task, from the sources to the report.  When the last
    auto assignment of the log that names the task carries the time a, and
    the first records of the task's history with the codes PMA/IN and PCA/SC
    the times c and m, its record has the mode Auto and the assigned time a,
    whatever assignment its history records, for waiting time what
    [calculateTimeDifferenceMinutes] gives for c and a and for productive
    time what it gives for a and m: the whole minutes between the two, for
    times at most 2^53 milliseconds apart. *)
Theorem auto_task_record :
  forall (host : Host) (this : Processor) (taskHistories : list TaskHistory)
         (autoAssignments : list AutoAssignment)
         records this' r hc hm x c a m,
    taskHistoryIndex this =
      taskHistoryIndex (buildTaskHistoryIndex taskHistories new) ->
    autoAssignmentIndex this =
      autoAssignmentIndex (buildAutoAssignmentIndex autoAssignments new) ->
    generateReport host this = Some (records, this') ->
    In r records ->
    last_match (fun a => keyed_by (task r) (taskId a)) autoAssignments (Some x) ->
    first_match
      (fun h => keyed_by (task r) (historyTaskId h) && has_codes "PMA" "IN" h)
      taskHistories (Some hc) ->
    first_match
      (fun h => keyed_by (task r) (historyTaskId h) && has_codes "PCA" "SC" h)
      taskHistories (Some hm) ->
    actionTimestamp hc = Some (TimeValue c) ->
    timestamp x = Some (TimeValue a) ->
    actionTimestamp hm = Some (TimeValue m) ->
    Z.abs a <= 8640000000000000 -> Z.abs m <= 8640000000000000 ->
    mode r = Auto
    /\ createdTime r = isoStringOfTime c
    /\ assignedTime r = isoStringOfTime a
    /\ makerCompleteTime r = isoStringOfTime m
    /\ waitingTime r =
         Some (DateUtils.calculateTimeDifferenceMinutes (valid c) (valid a))
    /\ productiveTime r =
         Some (DateUtils.calculateTimeDifferenceMinutes (valid a) (valid m))
    /\ (Z.abs (a - c) <= exact_span ->
          waitingTime r = Some (Some (minutes_between c a)))
    /\ (Z.abs (m - a) <= exact_span ->
          productiveTime r = Some (Some (minutes_between a m))).
Proof.
  intros host this hs aas records this' r hc hm x c a m Hidx Hauto H Hin
    Lx Fc Fm Tc Tx Tm Ra Rm.
  assert (Hget : get (task r) (autoAssignmentIndex this) = Some x).
  { rewrite Hauto, autoAssignmentIndex_build.
    rewrite (get_fold_step (fun tid a => keyed_by tid (taskId a))
               (fun a => a) (set_keyed taskId)
               (fun m x tid => get_set_keyed taskId m x tid)).
    cbv beta. apply last_match_unique in Lx. now rewrite <- Lx. }
  assert (Hmode : determineMode this (task r) = Auto).
  { unfold determineMode. now rewrite (get_some_has _ _ _ Hget). }
  assert (Hc : getCreatedTime this (task r) = Some (TimeValue c))
    by (apply (phase_time_first hs this (task r) "PMA" "IN" hc c Hidx Fc Tc)).
  assert (Ha : getAssignedTime this (task r) = Some (TimeValue a)).
  { unfold getAssignedTime, getAutoAssignedTime. rewrite Hmode, Hget. exact Tx. }
  assert (Hm : getMakerCompleteTime this (task r) = Some (TimeValue m))
    by (apply (phase_time_first hs this (task r) "PCA" "SC" hm m Hidx Fm Tm)).
  destruct (record_of_times host this records this' r c a m H Hin Hc Ha Hm Ra Rm)
    as (Emode & Rest).
  split; [now rewrite Emode | exact Rest].
Qed.

Lemma manual_task_record_witness :
  match generateReport utc_host sample_lived with
  | Some (records, _) =>
      exists r,
        In r records /\ task r = "TASK-8" /\ mode r <> Auto
        /\ waitingTime r = Some (Some 3) /\ productiveTime r = Some (Some 12)
  | None => False
  end.
Proof.
  destruct (generateReport utc_host sample_lived) as [[records this']|] eqn:H;
    [|discriminate H].
  pose proof H as H'. vm_compute in H'. injection H' as Hrecords _.
  assert (Hin : In (nth 0 records
                      {| task := ""; userName := ""; userEmail := "";
                         mode := Unknown; createdTime := ""; assignedTime := "";
                         makerCompleteTime := ""; openTime := "";
                         productiveTime := None; waitingTime := None |})
                   records)
    by (rewrite <- Hrecords; left; reflexivity).
  assert (Htask : task (nth 0 records
                      {| task := ""; userName := ""; userEmail := "";
                         mode := Unknown; createdTime := ""; assignedTime := "";
                         makerCompleteTime := ""; openTime := "";
                         productiveTime := None; waitingTime := None |})
                  = "TASK-8")
    by (rewrite <- Hrecords; reflexivity).
  eexists. split; [exact Hin|]. split; [exact Htask|].
  pose proof (manual_task_record utc_host sample_lived sample_lives records
                this' _ (history "TASK-8" "PMA" "IN" 60000)
                (history "TASK-8" "PME" "AS" 240000)
                (history "TASK-8" "PCA" "SC" 960000) 60000 240000 960000
                eq_refl H Hin) as T.
  rewrite Htask in T.
  assert (A : ~ In "TASK-8" (JsMap.keys (autoAssignmentIndex sample_lived)))
    by (simpl; intros [E|[]]; discriminate E).
  destruct (T A
              (find_first_match _
                 (fun h => keyed_by "TASK-8" (historyTaskId h)
                           && has_codes "PMA" "IN" h) sample_lives)
              (find_first_match _
                 (fun h => keyed_by "TASK-8" (historyTaskId h)
                           && has_codes "PME" "AS" h) sample_lives)
              (find_first_match _
                 (fun h => keyed_by "TASK-8" (historyTaskId h)
                           && has_codes "PCA" "SC" h) sample_lives)
              eq_refl eq_refl eq_refl ltac:(simpl; lia) ltac:(simpl; lia))
    as (Hmode & _ & _ & _ & _ & _ & Hw & Hp).
  split; [exact Hmode|].
  split; [apply Hw | apply Hp]; vm_compute; discriminate.
Defined.

Lemma auto_task_record_witness :
  match generateReport utc_host sample_lived with
  | Some (records, _) =>
      exists r,
        In r records /\ task r = "TASK-9" /\ mode r = Auto
        /\ assignedTime r = "1970-01-01T00:07:00.000Z"
        /\ waitingTime r = Some (Some 7) /\ productiveTime r = Some (Some 3)
  | None => False
  end.
Proof.
  destruct (generateReport utc_host sample_lived) as [[records this']|] eqn:H;
    [|discriminate H].
  pose proof H as H'. vm_compute in H'. injection H' as Hrecords _.
  assert (Hin : In (nth 1 records (nth 0 records
                      {| task := ""; userName := ""; userEmail := "";
                         mode := Unknown; createdTime := ""; assignedTime := "";
                         makerCompleteTime := ""; openTime := "";
                         productiveTime := None; waitingTime := None |}))
                   records)
    by (rewrite <- Hrecords; right; left; reflexivity).
  assert (Htask : task (nth 1 records (nth 0 records
                      {| task := ""; userName := ""; userEmail := "";
                         mode := Unknown; createdTime := ""; assignedTime := "";
                         makerCompleteTime := ""; openTime := "";
                         productiveTime := None; waitingTime := None |}))
                  = "TASK-9")
    by (rewrite <- Hrecords; reflexivity).
  eexists. split; [exact Hin|]. split; [exact Htask|].
  pose proof (auto_task_record utc_host sample_lived sample_lives
                sample_lives_log records this' _
                (history "TASK-9" "PMA" "IN" 0)
                (history "TASK-9" "PCA" "SC" 600000)
                (assignment "TASK-9" "svc@x.com" 420000) 0 420000 600000
                eq_refl eq_refl H Hin) as T.
  rewrite Htask in T.
  destruct (T (find_last_match _
                 (fun a => keyed_by "TASK-9" (taskId a)) sample_lives_log)
              (find_first_match _
                 (fun h => keyed_by "TASK-9" (historyTaskId h)
                           && has_codes "PMA" "IN" h) sample_lives)
              (find_first_match _
                 (fun h => keyed_by "TASK-9" (historyTaskId h)
                           && has_codes "PCA" "SC" h) sample_lives)
              eq_refl eq_refl eq_refl ltac:(simpl; lia) ltac:(simpl; lia))
    as (Hmode & _ & Ha & _ & _ & _ & Hw & Hp).
  split; [exact Hmode|]. split; [exact Ha|].
  split; [apply Hw | apply Hp]; vm_compute; discriminate.
Defined.

End ScenarioFacts.

(** ** Modes from the sources, and screen-open events without a time *)

Module SourceFacts.
Import JsString JsDate JsMap JsMapFacts TaskProcessor Spec SpecMore ListFacts.
Import IndexFacts ReportFacts ReportMore OrderFacts AnalysisFacts.
Import Samples SamplesMore.

Lemma in_join_keys : forall (A : Type) (key : A -> option string) xs tid,
  In tid (join_keys key xs) <-> joins key tid xs = true.
Proof.
  intros A key xs tid. unfold join_keys, joins.
  rewrite in_flat_map, existsb_exists.
  split; intros (x & Hin & Hx); exists x; (split; [exact Hin|]).
  - unfold keyed_by. destruct (key x) as [k|]; [|contradiction].
    destruct (truthy k); [|contradiction].
    destruct Hx as [->|[]]. apply String.eqb_refl.
  - unfold keyed_by in Hx. destruct (key x) as [k|]; [|discriminate].
    destruct (truthy k); [|discriminate]. apply String.eqb_eq in Hx.
    now left.
Qed.

Lemma has_iff_joins : forall (A V : Type) (key : A -> option string) xs
    (m : JsMap.t V) tid,
  keys m = JsSet.add_all (join_keys key xs) [] ->
  has tid m = joins key tid xs.
Proof.
  intros A V key xs m tid Hk.
  destruct (joins key tid xs) eqn:E.
  - apply has_true_iff. rewrite Hk. apply JsSetFacts.in_add_all. left.
    now apply in_join_keys.
  - apply has_false_iff. rewrite Hk. intros Hin.
    apply JsSetFacts.in_add_all in Hin. destruct Hin as [Hin|[]].
    apply in_join_keys in Hin. congruence.
Qed.

(** The mode of a record, from the sources: Auto when an auto assignment of
    the log carries the task's id, else Manual when a task action carries
    it, else Unknown (the task is known from its history only). *)
Theorem mode_from_sources :
  forall (host : Host) (this : Processor) (taskActions : list TaskAction)
         (autoAssignments : list AutoAssignment) records this' r,
    taskActionIndex this =
      taskActionIndex (buildTaskActionIndex taskActions new) ->
    autoAssignmentIndex this =
      autoAssignmentIndex (buildAutoAssignmentIndex autoAssignments new) ->
    generateReport host this = Some (records, this') ->
    In r records ->
    mode r =
      if joins taskId (task r) autoAssignments then Auto
      else if joins actionTaskId (task r) taskActions then Manual
      else Unknown.
Proof.
  intros host this tas aas records this' r Ha Hx H Hin.
  destruct (report_drafts host this records this' H) as (drafts & -> & _ & _ & Hd).
  apply in_map_iff in Hin. destruct Hin as (d & <- & Hin).
  specialize (Hd d Hin). apply draftRecord_fields in Hd.
  destruct Hd as (_ & Hmode & _).
  change (task (finalize host this drafts d)) with (task d).
  change (mode (finalize host this drafts d)) with (mode d).
  rewrite Hmode. unfold determineMode.
  rewrite (has_iff_joins _ _ taskId aas (autoAssignmentIndex this) (task d))
    by (rewrite Hx, autoAssignmentIndex_build; apply keys_fold_set_keyed).
  rewrite (has_iff_joins _ _ actionTaskId tas (taskActionIndex this) (task d))
    by (rewrite Ha, taskActionIndex_build; apply keys_fold_push_keyed).
  reflexivity.
Qed.

Lemma mode_from_sources_witness :
  option_map (fun p => map (fun r => (task r, mode r)) (fst p))
    (generateReport utc_host sample_order)
  = Some [("TASK-2", Auto); ("TASK-1", Manual); ("TASK-3", Unknown);
          ("TASK-4", Auto)].
Proof.
  destruct (generateReport utc_host sample_order) as [[records this']|] eqn:H;
    [|discriminate H].
  pose proof (mode_from_sources utc_host sample_order
                [taskAction "TASK-2" "b@x.com"; taskAction "TASK-1" "b@x.com";
                 taskAction "" "b@x.com"; taskAction "TASK-2" "c@x.com"]
                [assignment "TASK-4" "svc@x.com" 400;
                 assignment "TASK-2" "svc@x.com" 500]
                records this') as T.
  specialize (fun r => T r eq_refl eq_refl H).
  pose proof H as H'. vm_compute in H'. injection H' as Hrecords _.
  cbn [option_map fst]. rewrite <- Hrecords in T |- *.
  cbn [map].
  rewrite (T _ (or_introl eq_refl)).
  rewrite (T _ (or_intror (or_introl eq_refl))).
  rewrite (T _ (or_intror (or_intror (or_introl eq_refl)))).
  rewrite (T _ (or_intror (or_intror (or_intror (or_introl eq_refl))))).
  reflexivity.
Defined.

Lemma reduceEarliest_from_null : forall rest,
  (forall d, In d rest -> null_or_after_epoch d = true) ->
  reduceEarliest None rest = None.
Proof.
  unfold reduceEarliest. induction rest as [|x rest IH]; intros H;
    [reflexivity|].
  cbn [fold_left].
  assert (E : lessThan x None = false).
  { pose proof (H x (or_introl eq_refl)) as Hx.
    destruct x as [[|t]|]; try reflexivity.
    unfold lessThan, toNumber. cbn [null_or_after_epoch] in Hx.
    apply Z.ltb_lt in Hx. apply Z.ltb_ge. lia. }
  rewrite E. apply IH. intros d Hd. apply H. now right.
Qed.

Lemma reduceEarliest_null : forall rest first,
  (forall d, In d (first :: rest) -> null_or_after_epoch d = true) ->
  In None (first :: rest) ->
  reduceEarliest first rest = None.
Proof.
  induction rest as [|x rest IH]; intros first H Hnull.
  - destruct Hnull as [->|[]]. reflexivity.
  - destruct first as [[|t]|].
    + pose proof (H _ (or_introl eq_refl)) as E. discriminate E.
    + pose proof (H _ (or_introl eq_refl)) as Ht.
      cbn [null_or_after_epoch] in Ht. apply Z.ltb_lt in Ht.
      destruct Hnull as [E|Hnull]; [discriminate E|].
      unfold reduceEarliest. cbn [fold_left].
      destruct x as [[|t']|].
      * pose proof (H _ (or_intror (or_introl eq_refl))) as E. discriminate E.
      * pose proof (H _ (or_intror (or_introl eq_refl))) as Ht'.
        destruct Hnull as [E|Hnull]; [discriminate E|].
        destruct (lessThan (Some (TimeValue t')) (Some (TimeValue t))).
        -- apply (IH (Some (TimeValue t'))).
           ++ intros d [<-|Hd]; [exact Ht' | apply H; right; right; exact Hd].
           ++ right. exact Hnull.
        -- apply (IH (Some (TimeValue t))).
           ++ intros d [<-|Hd];
                [apply (H _ (or_introl eq_refl)) | apply H; right; right; exact Hd].
           ++ right. exact Hnull.
      * assert (E : lessThan None (Some (TimeValue t)) = true)
          by (unfold lessThan, toNumber; now apply Z.ltb_lt).
        rewrite E. apply reduceEarliest_from_null.
        intros d Hd. apply H. right. right. exact Hd.
    + apply reduceEarliest_from_null. intros d Hd. apply H. now right.
Qed.

(** One screen-open event without a time hides all the others: when the
    events of a user carry valid times after the epoch or no time at all,
    and one of them carries none, the first screen-open time of the user is
    null, in whatever order the events were read. *)
Theorem getFirstScreenOpenTime_null_wins :
  forall (screenOpenData : list ScreenOpen) (this : Processor) (e : string),
    screenOpenIndex this =
      screenOpenIndex (buildScreenOpenIndex screenOpenData new) ->
    (forall ev, In ev (selected screenEmail e screenOpenData) ->
                null_or_after_epoch (screenTimestamp ev) = true) ->
    (exists ev, In ev (selected screenEmail e screenOpenData)
                /\ screenTimestamp ev = None) ->
    getFirstScreenOpenTime this (Some e) = None.
Proof.
  intros data this e Hidx Hall (ev & Hev & Hnone).
  unfold getFirstScreenOpenTime. rewrite Hidx, screen_open_of_user.
  destruct (map screenTimestamp (selected screenEmail e data))
    as [|first rest] eqn:E; [reflexivity|].
  apply reduceEarliest_null.
  - intros d Hd. rewrite <- E in Hd. apply in_map_iff in Hd.
    destruct Hd as (ev' & <- & Hev'). now apply Hall.
  - rewrite <- E, <- Hnone. now apply in_map.
Qed.

Lemma getFirstScreenOpenTime_null_wins_witness :
  getFirstScreenOpenTime
    (buildScreenOpenIndex
       [screenOpen "u@x.com" (valid 180000); screenOpen "v@x.com" (valid 5);
        screenOpen "u@x.com" None; screenOpen "u@x.com" (valid 90000)] new)
    (Some "u@x.com")
  = None.
Proof.
  apply (getFirstScreenOpenTime_null_wins
           [screenOpen "u@x.com" (valid 180000); screenOpen "v@x.com" (valid 5);
            screenOpen "u@x.com" None; screenOpen "u@x.com" (valid 90000)]
           _ "u@x.com" eq_refl).
  - intros ev [<-|[<-|[<-|[]]]]; reflexivity.
  - exists (screenOpen "u@x.com" None). split; [|reflexivity].
    right. left. reflexivity.
Defined.

End SourceFacts.

(** ** Minutes that do not add up *)

Module MinutesFacts.
Import JsDate DateUtils Spec CalendarFacts.

(** Elapsed minutes are cut to whole minutes one span at a time: for three
    instants in order, the minutes of the two spans add up to the minutes of
    the whole span or to one minute less. *)
Theorem calculateTimeDifferenceMinutes_split : forall x y z : Z,
  x <= y -> y <= z ->
  exists a b c,
    calculateTimeDifferenceMinutes (valid x) (valid y) = Some a
    /\ calculateTimeDifferenceMinutes (valid y) (valid z) = Some b
    /\ calculateTimeDifferenceMinutes (valid x) (valid z) = Some c
    /\ a + b <= c <= a + b + 1.
Proof.
  intros x y z Hxy Hyz.
  exists (Z.abs (Z.quot (y - x) 60000)), (Z.abs (Z.quot (z - y) 60000)),
         (Z.abs (Z.quot (z - x) 60000)).
  repeat (split; [reflexivity|]).
  rewrite !Z.quot_div_nonneg by lia.
  rewrite !Z.abs_eq by (apply Z.div_pos; lia).
  euclid.
Qed.

Lemma calculateTimeDifferenceMinutes_split_witness :
  exists a b c,
    calculateTimeDifferenceMinutes (valid 0) (valid 90000) = Some a
    /\ calculateTimeDifferenceMinutes (valid 90000) (valid 180000) = Some b
    /\ calculateTimeDifferenceMinutes (valid 0) (valid 180000) = Some c
    /\ a + b <= c <= a + b + 1.
Proof.
  apply (calculateTimeDifferenceMinutes_split 0 90000 180000); lia.
Defined.

End MinutesFacts.
